(** * The headless-server logger of c1-launcher

    A shallow embedding of [Code/Launcher/HeadlessServer/Logger.cpp] and the
    properties its specification states about it.

    - texts ([std::string], [StringView], [const char*]) are [string]s;
    - [int] verbosities and the [unsigned int] flag word are [Z];
    - the file system is a finite map from paths to contents, the open
      [OS::File] of the logger is a handle (path and position) into it;
    - everything the logger does to the outside (OS calls, console prints,
      callbacks, the queue mutex) is appended to a trace of events;
    - [OpenFile] throws, so it lives in a small state-and-error monad;
      the logging path cannot throw and is plain state passing. *)

From Stdlib Require Import ZArith NArith Ascii String DecimalString HexadecimalString.
From stdpp Require Import gmap strings list fin_maps.

Local Open Scope Z_scope.

#[local] Arguments String.append !_ _ / : simpl nomatch.

(** ** Texts *)

Module Text.

Definition LF : ascii := "010"%char.
Definition CR : ascii := "013"%char.
Definition DQUOTE : ascii := "034"%char.
Definition NUL : ascii := "000"%char.

Definition char (c : ascii) : string := String c "".

Fixpoint take (n : nat) (s : string) : string :=
  match n, s with
  | S n', String c r => String c (take n' r)
  | _, _ => ""
  end.

Fixpoint drop (n : nat) (s : string) : string :=
  match n, s with
  | S n', String _ r => drop n' r
  | _, _ => s
  end.

Fixpoint repeat (c : ascii) (n : nat) : string :=
  match n with
  | O => ""
  | S n' => String c (repeat c n')
  end.

Fixpoint count (c : ascii) (s : string) : nat :=
  match s with
  | "" => O
  | String d r => ((if Ascii.eqb d c then 1 else 0) + count c r)%nat
  end.

Fixpoint occurs (c : ascii) (s : string) : bool :=
  match s with
  | "" => false
  | String d r => Ascii.eqb d c || occurs c r
  end.

(** the text before the first [c], all of [s] when it holds no [c] *)
Fixpoint before (c : ascii) (s : string) : string :=
  match s with
  | "" => ""
  | String d r => if Ascii.eqb d c then "" else String d (before c r)
  end.

(** the text behind the first [c], nothing when [s] holds no [c] *)
Fixpoint behind (c : ascii) (s : string) : string :=
  match s with
  | "" => ""
  | String d r => if Ascii.eqb d c then r else behind c r
  end.

(** [std::string::c_str] as the callee reads it: a [std::string] may hold
    zero bytes, the C string handed over ends at the first of them. *)
Definition c_str (s : string) : string := before NUL s.

End Text.

(** ** [Library/StringView.h] *)

Module StringView.

(** Modelled from the spec: the methods of [Library/StringView.h] the
    logger calls.  A view is the text it denotes.  [Find ch pos] searches
    from index [pos]; [Some p] is the source's [true] with [pos] set to the
    index found, [None] is [false] with [pos] left alone. *)
Definition IsEmpty (v : string) : bool :=
  match v with "" => true | _ => false end.

Definition StartsWith (v prefix : string) : bool := String.prefix prefix v.

Definition RemovePrefix (v : string) (n : nat) : string := Text.drop n v.

Definition RemoveSuffix (v : string) (n : nat) : string :=
  Text.take (String.length v - n) v.

Fixpoint Find_from (v : string) (ch : ascii) (i : nat) : option nat :=
  match v with
  | "" => None
  | String c r => if Ascii.eqb c ch then Some i else Find_from r ch (S i)
  end.

Definition Find (v : string) (ch : ascii) (pos : nat) : option nat :=
  Find_from (Text.drop pos v) ch pos.

End StringView.

(** ** [StringTools::FormatTo] for the conversions the logger uses *)

Module StringTools.

(** Modelled from the spec: [Library/StringTools.h] holds the [printf]
    engine; the logger's own conversions are zero-padded decimal and
    hexadecimal numbers of a fixed least width. *)
Definition pad0 (width : nat) (digits : string) : string :=
  Text.repeat "0"%char (width - String.length digits) +:+ digits.

(** [%0<width>u] *)
Definition fmt_u (width : nat) (n : N) : string :=
  pad0 width (DecimalString.NilEmpty.string_of_uint (N.to_uint n)).

(** [%0<width>x] *)
Definition fmt_x (width : nat) (n : N) : string :=
  pad0 width (HexadecimalString.NilEmpty.string_of_uint (N.to_hex_uint n)).

(** The exception [StringTools::OSError(format, ...)]: the format of the
    message and the texts passed for its [%s]. *)
Record OSError := { err_format : string; err_args : list string }.

End StringTools.

(** ** What differs between hosts *)

(** The macros of [OS.h], the helpers of [PathTools.h] and the [printf]
    engine behind [StringTools::FormatToV] are outside the logger; it is
    verified for any of them. *)
Class Platform := {
  OS_NEWLINE : string;
  OS_PATH_SLASH : string;
  DirName : string → string;
  BaseName : string → string;
  RemoveFileExtension : string → string;
  GetFileExtension : string → string;
  va_list : Type;
  FormatToV : string → va_list → string
}.

Definition OS_NEWLINE_LENGTH `{Platform} : nat := String.length OS_NEWLINE.

(** ** [ILog::ELogType] and [Logger::Message] *)

Module ILog.
Inductive ELogType :=
| eMessage | eWarning | eError
| eAlways | eWarningAlways | eErrorAlways
| eInput | eInputResponse | eComment.
End ILog.
Import ILog.

(** Modelled from the spec: the constants of [Logger::Message] in
    [Logger.h]; the three destination flags are distinct bits of the flag
    word. *)
Definition FLAG_FILE : Z := 1.
Definition FLAG_CONSOLE : Z := 2.
Definition FLAG_APPEND : Z := 4.

Definition UINT_MOD : Z := 2 ^ 32.

(** [~flag] converted to [unsigned int] *)
Definition unot (x : Z) : Z := Z.lnot x mod UINT_MOD.

Definition has_flag (flags flag : Z) : bool := negb (Z.land flags flag =? 0).

Record Message := {
  type : ELogType;
  flags : Z;
  prefix : string;
  content : string
}.

(** Modelled from the spec: the macros of
    [CryCommon/CrySystem/CryColorCode.h]; a color marker is [$] and one
    digit. *)
Definition CRY_COLOR_CODE_RED_STRING : string := "$4".
Definition CRY_COLOR_CODE_YELLOW_STRING : string := "$6".
Definition CRY_COLOR_CODE_GRAY_STRING : string := "$9".

(** ** [Logger::GetRequiredVerbosity] *)

Definition GetRequiredVerbosity (t : ELogType) : Z :=
  match t with
  | eAlways | eWarningAlways | eErrorAlways | eInput | eInputResponse => 0
  | eError => 1
  | eWarning => 2
  | eMessage => 3
  | eComment => 4
  end.

(** ** [ExtractBackupNameAttachment] *)

Definition orelse {A} (x y : option A) : option A :=
  match x with Some _ => x | None => y end.

Definition ExtractBackupNameAttachment (header : string) : string :=
  let prefix := "BackupNameAttachment=" in
  if StringView.StartsWith header prefix then
    let header := StringView.RemovePrefix header (String.length prefix) in
    let header :=
      match StringView.Find header Text.DQUOTE 0 with
      | Some pos => StringView.RemovePrefix header (pos + 1)
      | None => header
      end in
    match orelse (StringView.Find header Text.DQUOTE 0)
            (orelse (StringView.Find header Text.CR 0)
                    (StringView.Find header Text.LF 0)) with
    | Some pos => StringView.RemoveSuffix header (String.length header - pos)
    | None => header
    end
  else "".

(** ** The world outside the logger *)

Inductive Event :=
| EvLock                                    (* [m_mutex] acquired *)
| EvUnlock                                  (* [m_mutex] released *)
| EvOpen (path : string)
| EvRead (path : string) (count : nat)
| EvMkdir (path : string)
| EvCopy (source destination : string)
| EvResize (path : string) (size : nat)
| EvSeekEnd (path : string) (back : nat)
| EvWrite (path : string) (buffer : string)
| EvPrintLine (text : string)
| EvPrintLinePlus (text : string)
| EvOnWriteToFile (callback : nat) (text : string) (isNewLine : bool)
| EvOnWriteToConsole (callback : nat) (text : string) (isNewLine : bool).

(** Which OS calls fail. *)
Record Faults := {
  open_fails : bool;
  read_fails : bool;
  mkdir_fails : bool;
  copy_fails : bool;
  resize_fails : bool;
  write_fails : bool
}.

Definition no_faults : Faults :=
  {| open_fails := false; read_fails := false; mkdir_fails := false;
     copy_fails := false; resize_fails := false; write_fails := false |}.

Record World := {
  files : gmap string string;   (* path to content *)
  dirs : gset string;
  faults : Faults;
  has_console : bool;           (* [gEnv] and [gEnv->pConsole] are there *)
  trace : list Event
}.

Definition emit (e : Event) (w : World) : World :=
  {| files := files w; dirs := dirs w; faults := faults w;
     has_console := has_console w; trace := trace w ++ [e] |}.

Definition set_files (fs : gmap string string) (w : World) : World :=
  {| files := fs; dirs := dirs w; faults := faults w;
     has_console := has_console w; trace := trace w |}.

Definition set_dirs (ds : gset string) (w : World) : World :=
  {| files := files w; dirs := ds; faults := faults w;
     has_console := has_console w; trace := trace w |}.

(** ** [OS::File] and [OS::Directory] *)

Module OS.

(** Modelled from the spec: the file system primitives of [OS.h], the ones
    the specification lists: open-read-write-create-with-created-flag,
    bounded read, write, seek-from-end, truncate, whole-file copy,
    directory-create. *)
Record File := { fd_path : string; fd_pos : nat }.

Definition content_of (w : World) (path : string) : string :=
  default "" (files w !! path).

Definition Open (path : string) (w : World) : option (File * bool) * World :=
  let w := emit (EvOpen path) w in
  if open_fails (faults w) then (None, w)
  else match files w !! path with
       | Some _ => (Some ({| fd_path := path; fd_pos := 0 |}, false), w)
       | None =>
           (Some ({| fd_path := path; fd_pos := 0 |}, true),
            set_files (<[path := ""]> (files w)) w)
       end.

(** returns the bytes read, the read-error flag and the moved handle *)
Definition Read (f : File) (count : nat) (w : World)
  : (string * bool * File) * World :=
  let w := emit (EvRead (fd_path f) count) w in
  if read_fails (faults w) then (("", true, f), w)
  else
    let data := Text.take count (Text.drop (fd_pos f) (content_of w (fd_path f))) in
    ((data, false,
      {| fd_path := fd_path f; fd_pos := fd_pos f + String.length data |}), w).

Definition Resize (f : File) (size : nat) (w : World) : (bool * File) * World :=
  let w := emit (EvResize (fd_path f) size) w in
  if resize_fails (faults w) then ((false, f), w)
  else
    let old := content_of w (fd_path f) in
    let new := Text.take size old
               +:+ Text.repeat "000"%char (size - String.length old) in
    ((true, {| fd_path := fd_path f; fd_pos := size |}),
     set_files (<[fd_path f := new]> (files w)) w).

Definition SeekEnd (f : File) (back : nat) (w : World) : File * World :=
  let w := emit (EvSeekEnd (fd_path f) back) w in
  let size := String.length (content_of w (fd_path f)) in
  if (back <=? size)%nat
  then ({| fd_path := fd_path f; fd_pos := size - back |}, w)
  else (f, w).

(** bytes of [old] replaced from [pos] on by [buffer] *)
Definition overlay (old : string) (pos : nat) (buffer : string) : string :=
  Text.take pos old +:+ Text.repeat "000"%char (pos - String.length old)
  +:+ buffer +:+ Text.drop (pos + String.length buffer) old.

Definition Write (f : File) (buffer : string) (w : World) : File * World :=
  let w := emit (EvWrite (fd_path f) buffer) w in
  if write_fails (faults w) then (f, w)
  else
    ({| fd_path := fd_path f; fd_pos := fd_pos f + String.length buffer |},
     set_files (<[fd_path f := overlay (content_of w (fd_path f)) (fd_pos f) buffer]>
                  (files w)) w).

Definition Copy (source destination : string) (w : World) : bool * World :=
  let w := emit (EvCopy source destination) w in
  if copy_fails (faults w) then (false, w)
  else match files w !! source with
       | Some data => (true, set_files (<[destination := data]> (files w)) w)
       | None => (false, w)
       end.

Definition DirectoryCreate (path : string) (w : World) : bool * World :=
  let w := emit (EvMkdir path) w in
  if mkdir_fails (faults w) then (false, w)
  else (true, set_dirs ({[path]} ∪ dirs w) w).

Record DateTime := {
  year : N; month : N; day : N;
  hour : N; minute : N; second : N; millisecond : N
}.

End OS.

(** What the OS answers to the calling thread at the time of a call:
    [OS::GetCurrentThreadID], [OS::GetCurrentDateTimeLocal] and
    [OS::GetCurrentTimeZoneBias]. *)
Record Caller := {
  thread : N;
  now : OS.DateTime;
  bias : Z
}.

(** ** The logger *)

(** [m_cvars]: a console variable is absent until registered, afterwards it
    holds its current value. *)
Record CVars := {
  cv_verbosity : option Z;
  cv_fileVerbosity : option Z;
  cv_prefix : option string
}.

Record Logger := {
  m_verbosity : Z;
  m_cvars : CVars;
  m_mainThreadID : N;
  m_prefix : string;
  m_messages : list Message;
  m_file : option OS.File;
  m_filePath : string;
  m_callbacks : list nat
}.

Definition set_file (f : option OS.File) (path : string) (L : Logger) : Logger :=
  {| m_verbosity := m_verbosity L; m_cvars := m_cvars L;
     m_mainThreadID := m_mainThreadID L; m_prefix := m_prefix L;
     m_messages := m_messages L; m_file := f; m_filePath := path;
     m_callbacks := m_callbacks L |}.

Definition set_messages (q : list Message) (L : Logger) : Logger :=
  {| m_verbosity := m_verbosity L; m_cvars := m_cvars L;
     m_mainThreadID := m_mainThreadID L; m_prefix := m_prefix L;
     m_messages := q; m_file := m_file L; m_filePath := m_filePath L;
     m_callbacks := m_callbacks L |}.

(** [Logger::Logger] *)
Definition new_Logger (c : Caller) : Logger :=
  {| m_verbosity := 0;
     m_cvars := {| cv_verbosity := None; cv_fileVerbosity := None; cv_prefix := None |};
     m_mainThreadID := thread c; m_prefix := ""; m_messages := [];
     m_file := None; m_filePath := ""; m_callbacks := [] |}.

(** ** A state-and-error monad for the code that throws *)

Inductive Result (A : Type) :=
| Ok (a : A)
| Throw (e : StringTools.OSError).
Arguments Ok {A} a.
Arguments Throw {A} e.

Definition M (A : Type) : Type := World → Result A * World.

Definition throw {A} (format : string) (args : list string) : M A :=
  λ w, (Throw {| StringTools.err_format := format; StringTools.err_args := args |}, w).
Definition call {A} (f : World → A * World) : M A :=
  λ w, let '(a, w') := f w in (Ok a, w').

#[export] Instance M_ret : MRet M := λ A a w, (Ok a, w).
#[export] Instance M_bind : MBind M := λ A B k c w,
  match c w with
  | (Ok a, w') => k a w'
  | (Throw e, w') => (Throw e, w')
  end.

Section Logger.
Context `{Platform}.

(** ** [BackupLogFile], [Logger::OpenFile], [Logger::CloseFile] *)

Definition backupDir (filePath : string) : string :=
  DirName filePath +:+ OS_PATH_SLASH +:+ "LogBackups".

Definition backupPathOf (filePath attachment : string) : string :=
  backupDir filePath +:+ OS_PATH_SLASH
  +:+ RemoveFileExtension (BaseName filePath)
  +:+ attachment
  +:+ GetFileExtension filePath.

(** The formats of the errors thrown; [\n] in the source is a line feed. *)
Definition READ_FAILED : string := "Failed to read the existing log file!".
Definition MKDIR_FAILED : string :=
  "Failed to create log backup directory!" +:+ Text.char Text.LF +:+ "=> %s".
Definition COPY_FAILED : string :=
  "Failed to copy the existing log file!" +:+ Text.char Text.LF +:+ "<= %s"
  +:+ Text.char Text.LF +:+ "=> %s".
Definition OPEN_FAILED : string :=
  "Failed to open log file!" +:+ Text.char Text.LF +:+ "=> %s".
Definition CLEAR_FAILED : string :=
  "Failed to clear the existing log file!" +:+ Text.char Text.LF +:+ "=> %s".

Definition BackupLogFile (file : OS.File) (filePath : string) : M OS.File :=
  '(header, readError, file) ← call (OS.Read file 256);
  if readError : bool then
    throw READ_FAILED []
  else if StringView.IsEmpty header then
    (* the existing log file is empty, so no backup is needed *)
    mret file
  else
    let backupNameAttachment := ExtractBackupNameAttachment header in
    let backupPath := backupDir filePath in
    created ← call (OS.DirectoryCreate (Text.c_str backupPath));
    if negb created then
      throw MKDIR_FAILED [Text.c_str backupPath]
    else
      let backupPath := backupPathOf filePath backupNameAttachment in
      copied ← call (OS.Copy filePath (Text.c_str backupPath));
      if negb copied then
        throw COPY_FAILED [filePath; Text.c_str backupPath]
      else mret file.

Definition OpenFile (L : Logger) (filePath : string) : M Logger :=
  opened ← call (OS.Open filePath);
  match opened with
  | None => throw OPEN_FAILED [filePath]
  | Some (file, created) =>
      file ← (if created : bool then mret file
              else
                file ← BackupLogFile file filePath;
                '(resized, file) ← call (OS.Resize file 0);
                if negb resized then
                  throw CLEAR_FAILED [filePath]
                else mret file);
      mret (set_file (Some file) filePath L)
  end.

Definition CloseFile (L : Logger) : Logger := set_file None "" L.

(** ** Verbosity *)

Definition SetVerbosity (L : Logger) (verbosity : Z) : Logger :=
  let set (v : option Z) := match v with Some _ => Some verbosity | None => None end in
  {| m_verbosity := verbosity;
     m_cvars := {| cv_verbosity := set (cv_verbosity (m_cvars L));
                   cv_fileVerbosity := set (cv_fileVerbosity (m_cvars L));
                   cv_prefix := cv_prefix (m_cvars L) |};
     m_mainThreadID := m_mainThreadID L; m_prefix := m_prefix L;
     m_messages := m_messages L; m_file := m_file L;
     m_filePath := m_filePath L; m_callbacks := m_callbacks L |}.

Definition GetVerbosityLevel (L : Logger) : Z :=
  match cv_verbosity (m_cvars L) with
  | Some v => v
  | None => m_verbosity L
  end.

(** ** The message prefix *)

Definition AddTimeZoneOffset (c : Caller) (result : string) : string :=
  let bias := bias c in
  if bias =? 0 then result +:+ "Z"
  else
    let '(sign, bias) := if bias <? 0 then ("+", - bias) else ("-", bias) in
    result +:+ sign
    +:+ StringTools.fmt_u 2 (Z.to_N (Z.quot bias 60))
    +:+ StringTools.fmt_u 2 (Z.to_N (Z.rem bias 60)).

Definition ExpandMessagePrefixSpecifier
    (c : Caller) (result : string) (specifier : ascii) : string :=
  let time := now c in
  if Ascii.eqb specifier "%" then result +:+ "%"
  else if Ascii.eqb specifier "t" then result +:+ StringTools.fmt_x 4 (thread c)
  else if Ascii.eqb specifier "d" then result +:+ StringTools.fmt_u 2 (OS.day time)
  else if Ascii.eqb specifier "m" then result +:+ StringTools.fmt_u 2 (OS.month time)
  else if Ascii.eqb specifier "Y" then result +:+ StringTools.fmt_u 4 (OS.year time)
  else if Ascii.eqb specifier "F" then
    result +:+ StringTools.fmt_u 4 (OS.year time) +:+ "-" +:+ StringTools.fmt_u 2 (OS.month time)
           +:+ "-" +:+ StringTools.fmt_u 2 (OS.day time)
  else if Ascii.eqb specifier "H" then result +:+ StringTools.fmt_u 2 (OS.hour time)
  else if Ascii.eqb specifier "M" then result +:+ StringTools.fmt_u 2 (OS.minute time)
  else if Ascii.eqb specifier "S" then result +:+ StringTools.fmt_u 2 (OS.second time)
  else if Ascii.eqb specifier "T" then
    result +:+ StringTools.fmt_u 2 (OS.hour time) +:+ ":" +:+ StringTools.fmt_u 2 (OS.minute time)
           +:+ ":" +:+ StringTools.fmt_u 2 (OS.second time)
  else if Ascii.eqb specifier "N" then result +:+ StringTools.fmt_u 3 (OS.millisecond time)
  else if Ascii.eqb specifier "z" then AddTimeZoneOffset c result
  else result.

(** The [for] loop of [BuildMessagePrefix]: [i] is the loop index,
    [result] is [message.prefix]; [fuel] bounds the iterations left. *)
Fixpoint BuildMessagePrefix_loop
    (fuel : nat) (c : Caller) (prefix : string) (i : nat) (result : string) : string :=
  match fuel with
  | O => result
  | S fuel =>
      match String.get i prefix with
      | None => result                        (* [i < prefix.length] fails *)
      | Some ch =>
          if Ascii.eqb ch "%" then
            match String.get (i + 1) prefix with
            | Some specifier =>
                BuildMessagePrefix_loop fuel c prefix (i + 2)
                  (ExpandMessagePrefixSpecifier c result specifier)
            | None => BuildMessagePrefix_loop fuel c prefix (i + 1) result
            end
          else BuildMessagePrefix_loop fuel c prefix (i + 1) (result +:+ Text.char ch)
      end
  end.

Definition set_prefix (p : string) (message : Message) : Message :=
  {| type := type message; flags := flags message;
     prefix := p; content := content message |}.

Definition set_content (s : string) (message : Message) : Message :=
  {| type := type message; flags := flags message;
     prefix := prefix message; content := s |}.

Definition BuildMessagePrefix (c : Caller) (L : Logger) (message : Message) : Message :=
  let result := prefix message in
  match cv_prefix (m_cvars L) with
  | None => message       (* no log prefix until cvars are registered *)
  | Some prefix =>
      if StringView.IsEmpty prefix || String.eqb prefix "0" then
        message           (* empty string or "0" means log prefix is disabled *)
      else
        let p := BuildMessagePrefix_loop (String.length prefix) c prefix 0 result in
        if negb (StringView.IsEmpty p) then set_prefix (p +:+ " ") message
        else set_prefix p message
  end.

(** ** The message content *)

Definition BuildMessageContent
    (message : Message) (format : string) (args : va_list) : Message :=
  let decoration :=
    match type message with
    | eWarning | eWarningAlways => CRY_COLOR_CODE_YELLOW_STRING +:+ "[Warning] "
    | eError | eErrorAlways => CRY_COLOR_CODE_RED_STRING +:+ "[Error] "
    | eComment => CRY_COLOR_CODE_GRAY_STRING
    | eMessage | eAlways | eInput | eInputResponse => ""
    end in
  set_content (content message +:+ decoration +:+ FormatToV format args) message.

(** ** Writing a message *)

(** The [for] loop of [WriteMessageToFile] over [message.content]: [i] is
    the loop index, [buffer] the text collected so far. *)
Fixpoint WriteMessageToFile_loop
    (fuel : nat) (content : string) (i : nat) (buffer : string) : string :=
  match fuel with
  | O => buffer
  | S fuel =>
      match String.get i content with
      | None => buffer                        (* [i < content.length()] fails *)
      | Some ch =>
          if Ascii.eqb ch Text.LF then
            WriteMessageToFile_loop fuel content (i + 1) (buffer +:+ OS_NEWLINE)
          else if Ascii.eqb ch "$" then
            (* drop color codes *)
            let i := (i + 1)%nat in
            (* "$$" => "$" *)
            let buffer :=
              match String.get i content with
              | Some next => if Ascii.eqb next "$" then buffer +:+ "$" else buffer
              | None => buffer
              end in
            WriteMessageToFile_loop fuel content (i + 1) buffer
          else
            WriteMessageToFile_loop fuel content (i + 1) (buffer +:+ Text.char ch)
      end
  end.

(** The text [WriteMessageToFile] hands to [m_file.Write]. *)
Definition file_buffer (message : Message) : string :=
  let isAppend := has_flag (flags message) FLAG_APPEND in
  let buffer := if negb isAppend then prefix message else "" in
  let buffer :=
    WriteMessageToFile_loop (String.length (content message)) (content message) 0 buffer in
  buffer +:+ OS_NEWLINE.

Definition fire (mk : nat → Event) (callbacks : list nat) (w : World) : World :=
  foldl (λ w cb, emit (mk cb) w) w callbacks.

Definition WriteMessageToFile (L : Logger) (w : World) (message : Message)
  : Logger * World :=
  match m_file L with
  | None => (L, w)
  | Some file =>
      let isAppend := has_flag (flags message) FLAG_APPEND in
      let buffer := file_buffer message in
      let '(file, w) :=
        if isAppend then OS.SeekEnd file OS_NEWLINE_LENGTH w else (file, w) in
      let '(file, w) := OS.Write file buffer w in
      let w := fire (λ cb, EvOnWriteToFile cb (content message) (negb isAppend))
                    (m_callbacks L) w in
      (set_file (Some file) (m_filePath L) L, w)
  end.

Definition WriteMessageToConsole (L : Logger) (w : World) (message : Message)
  : Logger * World :=
  if negb (has_console w) then (L, w)
  else
    let isAppend := has_flag (flags message) FLAG_APPEND in
    let w := if isAppend then emit (EvPrintLinePlus (content message)) w
             else emit (EvPrintLine (content message)) w in
    let w := fire (λ cb, EvOnWriteToConsole cb (content message) (negb isAppend))
                  (m_callbacks L) w in
    (L, w).

Definition WriteMessage (L : Logger) (w : World) (message : Message)
  : Logger * World :=
  let '(L, w) :=
    if has_flag (flags message) FLAG_FILE then WriteMessageToFile L w message
    else (L, w) in
  if has_flag (flags message) FLAG_CONSOLE then WriteMessageToConsole L w message
  else (L, w).

(** ** [Logger::PushMessageV], the one entry point of every log call *)

(** Where [PushMessageV] leaves: its two early returns, the immediate
    write on the main thread, the queue on any other thread. *)
Inductive Outcome :=
| DroppedNullFormat
| DroppedByVerbosity
| Written (message : Message)
| Queued (message : Message).

Definition PushMessageV
    (c : Caller) (L : Logger) (w : World)
    (type : ELogType) (flags : Z) (format : option string) (args : va_list)
  : Outcome * Logger * World :=
  match format with
  | None => (DroppedNullFormat, L, w)      (* drop messages with null format *)
  | Some format =>
      let currentVerbosity := GetVerbosityLevel L in
      let requiredVerbosity := GetRequiredVerbosity type in
      if currentVerbosity <? requiredVerbosity then
        (* drop messages above the current verbosity level *)
        (DroppedByVerbosity, L, w)
      else
        let currentFileVerbosity :=
          match cv_fileVerbosity (m_cvars L) with
          | Some v => v
          | None => currentVerbosity
          end in
        let flags :=
          if currentFileVerbosity <? requiredVerbosity
          then Z.land flags (unot FLAG_FILE) else flags in
        let message :=
          {| type := type; flags := flags; prefix := ""; content := "" |} in
        let message := BuildMessagePrefix c L message in
        let message := BuildMessageContent message format args in
        if (thread c =? m_mainThreadID L)%N then
          let '(L, w) := WriteMessage L w message in
          (Written message, L, w)
        else
          let w := emit EvLock w in
          let L := set_messages (m_messages L ++ [message]) L in
          let w := emit EvUnlock w in
          (Queued message, L, w)
  end.

(** ** [Logger::OnUpdate] *)

(** The [for] loop of [OnUpdate]: [i] runs over [m_messages]. *)
Fixpoint OnUpdate_loop (fuel : nat) (i : nat) (L : Logger) (w : World)
  : Logger * World :=
  match fuel with
  | O => (L, w)
  | S fuel =>
      match m_messages L !! i with
      | None => (L, w)                        (* [i < m_messages.size()] fails *)
      | Some message =>
          let '(L, w) := WriteMessage L w message in
          OnUpdate_loop fuel (S i) L w
      end
  end.

Definition OnUpdate (L : Logger) (w : World) : Logger * World :=
  let w := emit EvLock w in                   (* the lock guard is built *)
  let '(L, w) := OnUpdate_loop (length (m_messages L)) 0 L w in
  let L := set_messages [] L in
  let w := emit EvUnlock w in                 (* the lock guard goes out of scope *)
  (L, w).

End Logger.

(** ** A host to run the logger on *)

Module Host.

(** [s] cut at its last [sep]: what is before it and what is after it. *)
Fixpoint cut_last (sep : ascii) (s : string) : option (string * string) :=
  match s with
  | "" => None
  | String c r =>
      match cut_last sep r with
      | Some (before, after) => Some (String c before, after)
      | None => if Ascii.eqb c sep then Some ("", r) else None
      end
  end.

Definition dir_name (path : string) : string :=
  match cut_last "\" path with Some (d, _) => d | None => "." end.
Definition base_name (path : string) : string :=
  match cut_last "\" path with Some (_, b) => b | None => path end.
Definition remove_file_extension (name : string) : string :=
  match cut_last "." name with Some (stem, _) => stem | None => name end.
Definition get_file_extension (path : string) : string :=
  match cut_last "." (base_name path) with Some (_, e) => "." +:+ e | None => "" end.

(** [%s] takes the next argument, every other character is copied. *)
Fixpoint format_to (format : string) (args : list string) : string :=
  match format with
  | String "%" (String "s" r) =>
      match args with
      | a :: args => a +:+ format_to r args
      | [] => format_to r []
      end
  | String c r => String c (format_to r args)
  | "" => ""
  end.

#[export] Instance windows : Platform := {|
  OS_NEWLINE := String Text.CR (String Text.LF "");
  OS_PATH_SLASH := "\";
  DirName := dir_name;
  BaseName := base_name;
  RemoveFileExtension := remove_file_extension;
  GetFileExtension := get_file_extension;
  va_list := list string;
  FormatToV := format_to
|}.

Definition clock : OS.DateTime :=
  {| OS.year := 2024; OS.month := 1; OS.day := 5;
     OS.hour := 8; OS.minute := 30; OS.second := 15; OS.millisecond := 7 |}.

Definition main_thread : Caller := {| thread := 1; now := clock; bias := 0 |}.
Definition worker_thread : Caller := {| thread := 2; now := clock; bias := 0 |}.

Definition world (fs : gmap string string) : World :=
  {| files := fs; dirs := ∅; faults := no_faults; has_console := true; trace := [] |}.

(** A logger whose console variables are registered. *)
Definition logger (verbosity fileVerbosity : Z) (prefix : string) : Logger :=
  {| m_verbosity := verbosity;
     m_cvars := {| cv_verbosity := Some verbosity;
                   cv_fileVerbosity := Some fileVerbosity;
                   cv_prefix := Some prefix |};
     m_mainThreadID := 1; m_prefix := prefix; m_messages := [];
     m_file := None; m_filePath := ""; m_callbacks := [7%nat] |}.

Definition log_path : string := "C:\game\Server.log".

(** The logger above with [log_path] open, the handle at [pos]. *)
Definition logging (pos : nat) : Logger :=
  set_file (Some {| OS.fd_path := log_path; OS.fd_pos := pos |}) log_path
           (logger 3 3 "").

Definition failing_read : Faults :=
  {| open_fails := false; read_fails := true; mkdir_fails := false;
     copy_fails := false; resize_fails := false; write_fails := false |}.

Definition failing_open : Faults :=
  {| open_fails := true; read_fails := false; mkdir_fails := false;
     copy_fails := false; resize_fails := false; write_fails := false |}.

Definition failing_mkdir : Faults :=
  {| open_fails := false; read_fails := false; mkdir_fails := true;
     copy_fails := false; resize_fails := false; write_fails := false |}.

Definition failing_copy : Faults :=
  {| open_fails := false; read_fails := false; mkdir_fails := false;
     copy_fails := true; resize_fails := false; write_fails := false |}.

Definition failing_resize : Faults :=
  {| open_fails := false; read_fails := false; mkdir_fails := false;
     copy_fails := false; resize_fails := true; write_fails := false |}.

Definition faulty_world (fl : Faults) (fs : gmap string string) : World :=
  {| files := fs; dirs := ∅; faults := fl; has_console := true; trace := [] |}.

Definition backup_path : string := "C:\game\LogBackups\Server.log".

Definition note (fl : Z) (p text : string) : Message :=
  {| type := eMessage; flags := fl; prefix := p; content := text |}.

Definition quoted (value : string) : string :=
  Text.char Text.DQUOTE +:+ value +:+ Text.char Text.DQUOTE.

End Host.

(** ** Reference definitions the code is compared with *)

Section Reference.
Context `{Platform}.

(** The file sink's rule for contents, in the specification's words: a
    line feed becomes the platform newline, [$$] becomes one [$], any other
    [$] goes away together with the character after it. *)
Fixpoint StripColorCodes (s : string) : string :=
  match s with
  | "" => ""
  | String c r =>
      if Ascii.eqb c Text.LF then OS_NEWLINE +:+ StripColorCodes r
      else if Ascii.eqb c "$" then
        match r with
        | "" => ""
        | String d r' =>
            if Ascii.eqb d "$" then String "$" (StripColorCodes r')
            else StripColorCodes r'
        end
      else String c (StripColorCodes r)
  end.

(** The text the prefix loop renders for a template, before
    [BuildMessagePrefix] appends its space. *)
Definition rendered (c : Caller) (template : string) : string :=
  BuildMessagePrefix_loop (String.length template) c template 0 "".

(** Draining in the specification's words: every queued message written,
    first in first out. *)
Definition write_all (L : Logger) (w : World) (queue : list Message) : Logger * World :=
  foldl (λ s message, WriteMessage s.1 s.2 message) (L, w) queue.

End Reference.

(** The backup-name marker in the specification's words: the first line of
    the header of the form [BackupNameAttachment="value"], the value ending
    at the first double quote, carriage return or line feed. *)
Module MarkerBySpec.

Definition is_end (c : ascii) : bool :=
  Ascii.eqb c Text.DQUOTE || Ascii.eqb c Text.CR || Ascii.eqb c Text.LF.

Fixpoint value_of (s : string) : string :=
  match s with
  | "" => ""
  | String c r => if is_end c then "" else String c (value_of r)
  end.

Fixpoint after_line (s : string) : string :=
  match s with
  | "" => ""
  | String c r => if Ascii.eqb c Text.LF then r else after_line r
  end.

Definition marker : string := "BackupNameAttachment=" +:+ Text.char Text.DQUOTE.

(** [fuel] bounds the number of lines looked at. *)
Fixpoint scan (fuel : nat) (header : string) : string :=
  match fuel with
  | O => ""
  | S fuel =>
      if String.prefix marker header
      then value_of (Text.drop (String.length marker) header)
      else match header with
           | "" => ""
           | _ => scan fuel (after_line header)
           end
  end.

Definition attachment (header : string) : string :=
  scan (S (String.length header)) header.

End MarkerBySpec.

(** ** Reading the trace *)

Definition is_sink_event (e : Event) : bool :=
  match e with
  | EvSeekEnd _ _ | EvWrite _ _ | EvPrintLine _ | EvPrintLinePlus _
  | EvOnWriteToFile _ _ _ | EvOnWriteToConsole _ _ _ => true
  | _ => false
  end.

Definition is_lock_event (e : Event) : bool :=
  match e with
  | EvLock | EvUnlock => true
  | _ => false
  end.

Definition is_file_event (e : Event) : bool :=
  match e with
  | EvSeekEnd _ _ | EvWrite _ _ | EvOnWriteToFile _ _ _ => true
  | _ => false
  end.

(** No sink is touched while the queue lock is held; [held] is the state of
    the lock before the first event. *)
Fixpoint sinks_outside_lock (held : bool) (tr : list Event) : bool :=
  match tr with
  | [] => true
  | EvLock :: tr => sinks_outside_lock true tr
  | EvUnlock :: tr => sinks_outside_lock false tr
  | e :: tr => negb (is_sink_event e && held) && sinks_outside_lock held tr
  end.

(** Every sink event happens while the queue lock is held. *)
Fixpoint sinks_inside_lock (held : bool) (tr : list Event) : bool :=
  match tr with
  | [] => true
  | EvLock :: tr => sinks_inside_lock true tr
  | EvUnlock :: tr => sinks_inside_lock false tr
  | e :: tr => (negb (is_sink_event e) || held) && sinks_inside_lock held tr
  end.

(** The effective file verbosity of [PushMessageV]. *)
Definition currentFileVerbosity (L : Logger) : Z :=
  match cv_fileVerbosity (m_cvars L) with
  | Some v => v
  | None => GetVerbosityLevel L
  end.

(** The handle [OpenFile] leaves in [m_file]. *)
Definition opened (filePath : string) : option OS.File :=
  Some {| OS.fd_path := filePath; OS.fd_pos := 0 |}.

(** [OpenFile] ended by a throw. *)
Definition thrown (format : string) (args : list string) : Result Logger :=
  Throw {| StringTools.err_format := format; StringTools.err_args := args |}.

Definition message_of (o : Outcome) : option Message :=
  match o with
  | Written m | Queued m => Some m
  | DroppedNullFormat | DroppedByVerbosity => None
  end.

Definition is_dropped (o : Outcome) : bool :=
  match o with
  | DroppedNullFormat | DroppedByVerbosity => true
  | Written _ | Queued _ => false
  end.

(** ** The rest of [Logger.cpp] *)

Definition set_callbacks (cbs : list nat) (L : Logger) : Logger :=
  {| m_verbosity := m_verbosity L; m_cvars := m_cvars L;
     m_mainThreadID := m_mainThreadID L; m_prefix := m_prefix L;
     m_messages := m_messages L; m_file := m_file L; m_filePath := m_filePath L;
     m_callbacks := cbs |}.

(** [Logger::AddCallback]; [None] is the null pointer. *)
Definition AddCallback (L : Logger) (pCallback : option nat) : Logger :=
  match pCallback with
  | Some cb =>
      if (count_occ Nat.eq_dec (m_callbacks L) cb =? 0)%nat
      then set_callbacks (m_callbacks L ++ [cb]) L
      else L
  | None => L
  end.

(** [Logger::RemoveCallback]: [std::remove] and [erase]; the list holds no
    null pointer, so removing the null pointer removes nothing. *)
Definition RemoveCallback (L : Logger) (pCallback : option nat) : Logger :=
  match pCallback with
  | Some cb =>
      set_callbacks (List.filter (λ x, negb (x =? cb)%nat) (m_callbacks L)) L
  | None => L
  end.

(** [Logger::SetPrefix] *)
Definition SetPrefix (L : Logger) (prefix : string) : Logger :=
  {| m_verbosity := m_verbosity L;
     m_cvars := {| cv_verbosity := cv_verbosity (m_cvars L);
                   cv_fileVerbosity := cv_fileVerbosity (m_cvars L);
                   cv_prefix := match cv_prefix (m_cvars L) with
                                | Some _ => Some prefix
                                | None => None
                                end |};
     m_mainThreadID := m_mainThreadID L; m_prefix := prefix;
     m_messages := m_messages L; m_file := m_file L;
     m_filePath := m_filePath L; m_callbacks := m_callbacks L |}.

(** What [IConsole::RegisterInt] and [IConsole::RegisterString] hand back
    for a name and a default value: the value of the variable, or nothing
    for a null pointer. *)
Record IConsole := {
  RegisterInt : string → Z → option Z;
  RegisterString : string → string → option string
}.

(** [Logger::RegisterConsoleVariables] *)
Definition RegisterConsoleVariables (pConsole : IConsole) (L : Logger) (w : World) : Logger :=
  if negb (has_console w) then L
  else
    {| m_verbosity := m_verbosity L;
       m_cvars := {| cv_verbosity := RegisterInt pConsole "log_Verbosity" (m_verbosity L);
                     cv_fileVerbosity :=
                       RegisterInt pConsole "log_FileVerbosity" (m_verbosity L);
                     cv_prefix := RegisterString pConsole "log_Prefix" (m_prefix L) |};
       m_mainThreadID := m_mainThreadID L; m_prefix := m_prefix L;
       m_messages := m_messages L; m_file := m_file L;
       m_filePath := m_filePath L; m_callbacks := m_callbacks L |}.

Section Wrappers.
Context `{Platform}.

(** [Logger::ReleaseFile]: the path handed to [std::fopen] for appending
    when a file was open, nothing otherwise. *)
Definition ReleaseFile (L : Logger) : option string * Logger :=
  match m_file L with
  | Some _ => (Some (m_filePath L), set_file None "" L)
  | None => (None, L)
  end.

(** [Logger::GetFileName] *)
Definition GetFileName (L : Logger) : string := BaseName (m_filePath L).

(** [Logger::SetFileName]: the engine is not let to change the name. *)
Definition SetFileName (L : Logger) (fileName : string) : bool * Logger := (true, L).

(** The log calls of [ILog]; each is [PushMessageV] at a fixed kind and
    fixed flags. *)
Definition LogV (c : Caller) (L : Logger) (w : World)
    (type : ELogType) (format : option string) (args : va_list) :=
  PushMessageV c L w type (Z.lor FLAG_FILE FLAG_CONSOLE) format args.

Definition Log (c : Caller) (L : Logger) (w : World)
    (format : option string) (args : va_list) :=
  LogV c L w eMessage format args.

Definition LogWarning (c : Caller) (L : Logger) (w : World)
    (format : option string) (args : va_list) :=
  LogV c L w eWarning format args.

Definition LogError (c : Caller) (L : Logger) (w : World)
    (format : option string) (args : va_list) :=
  LogV c L w eError format args.

Definition LogPlus (c : Caller) (L : Logger) (w : World)
    (format : option string) (args : va_list) :=
  PushMessageV c L w eMessage
    (Z.lor (Z.lor FLAG_FILE FLAG_CONSOLE) FLAG_APPEND) format args.

Definition LogToFile (c : Caller) (L : Logger) (w : World)
    (format : option string) (args : va_list) :=
  PushMessageV c L w eMessage FLAG_FILE format args.

Definition LogToFilePlus (c : Caller) (L : Logger) (w : World)
    (format : option string) (args : va_list) :=
  PushMessageV c L w eMessage (Z.lor FLAG_FILE FLAG_APPEND) format args.

Definition LogToConsole (c : Caller) (L : Logger) (w : World)
    (format : option string) (args : va_list) :=
  PushMessageV c L w eMessage FLAG_CONSOLE format args.

Definition LogToConsolePlus (c : Caller) (L : Logger) (w : World)
    (format : option string) (args : va_list) :=
  PushMessageV c L w eMessage (Z.lor FLAG_CONSOLE FLAG_APPEND) format args.

Definition UpdateLoadingScreen (c : Caller) (L : Logger) (w : World)
    (format : option string) (args : va_list) :=
  LogV c L w eMessage format args.

(** ** Reference definitions for the rest *)
(** The message [PushMessageV] builds for a submission that passes the
    console verbosity. *)
Definition built (c : Caller) (L : Logger)
    (type : ELogType) (flags : Z) (format : string) (args : va_list) : Message :=
  let flags :=
    if currentFileVerbosity L <? GetRequiredVerbosity type
    then Z.land flags (unot FLAG_FILE) else flags in
  BuildMessageContent
    (BuildMessagePrefix c L
       {| type := type; flags := flags; prefix := ""; content := "" |})
    format args.


(** The template language in the specification's words: [%] and the
    character after it are one token, expanded by
    [ExpandMessagePrefixSpecifier]; a [%] at the very end is dropped; every
    other character stands for itself. *)
Fixpoint ExpandTemplate (c : Caller) (template : string) : string :=
  match template with
  | "" => ""
  | String ch r =>
      if Ascii.eqb ch "%" then
        match r with
        | "" => ""
        | String specifier r' =>
            ExpandMessagePrefixSpecifier c "" specifier +:+ ExpandTemplate c r'
        end
      else String ch (ExpandTemplate c r)
  end.

(** Line feeds turned into the platform newline, the rest kept. *)
Fixpoint NormalizeNewlines (s : string) : string :=
  match s with
  | "" => ""
  | String ch r =>
      if Ascii.eqb ch Text.LF then OS_NEWLINE +:+ NormalizeNewlines r
      else String ch (NormalizeNewlines r)
  end.

(** The color marker in front of the decoration of a kind. *)
Definition color_marker (t : ELogType) : string :=
  match t with
  | eWarning | eWarningAlways => CRY_COLOR_CODE_YELLOW_STRING
  | eError | eErrorAlways => CRY_COLOR_CODE_RED_STRING
  | eComment => CRY_COLOR_CODE_GRAY_STRING
  | eMessage | eAlways | eInput | eInputResponse => ""
  end.

(** The decoration of a kind as the file shows it. *)
Definition plain_tag (t : ELogType) : string :=
  match t with
  | eWarning | eWarningAlways => "[Warning] "
  | eError | eErrorAlways => "[Error] "
  | eComment | eMessage | eAlways | eInput | eInputResponse => ""
  end.

(** What the file leg of a write adds to the trace: the seek of an Append
    message, the write, then every callback in the order of the registry. *)
Definition file_events (L : Logger) (message : Message) : list Event :=
  match m_file L with
  | None => []
  | Some file =>
      let isAppend := has_flag (flags message) FLAG_APPEND in
      (if isAppend then [EvSeekEnd (OS.fd_path file) OS_NEWLINE_LENGTH] else [])
      ++ [EvWrite (OS.fd_path file) (file_buffer message)]
      ++ map (λ cb, EvOnWriteToFile cb (content message) (negb isAppend))
             (m_callbacks L)
  end.

(** What the console leg adds: the print, then every callback. *)
Definition console_events (L : Logger) (w : World) (message : Message) : list Event :=
  if has_console w then
    let isAppend := has_flag (flags message) FLAG_APPEND in
    [if isAppend then EvPrintLinePlus (content message)
     else EvPrintLine (content message)]
    ++ map (λ cb, EvOnWriteToConsole cb (content message) (negb isAppend))
           (m_callbacks L)
  else [].

(** One call of [PushMessageV]: who calls and with what. *)
Record Submission := {
  sub_caller : Caller;
  sub_type : ELogType;
  sub_flags : Z;
  sub_format : string;
  sub_args : va_list
}.

(** Submissions one after the other. *)
Definition submit_all (L : Logger) (w : World) (subs : list Submission) : Logger * World :=
  foldl (λ s sub,
           let r := PushMessageV (sub_caller sub) s.1 s.2 (sub_type sub) (sub_flags sub)
                      (Some (sub_format sub)) (sub_args sub) in
           (r.1.2, r.2))
        (L, w) subs.

(** What the logger is set up with: everything but the queue and the file
    handle. *)
Definition same_setup (L L' : Logger) : Prop :=
  m_verbosity L' = m_verbosity L ∧ m_cvars L' = m_cvars L
  ∧ m_mainThreadID L' = m_mainThreadID L ∧ m_prefix L' = m_prefix L
  ∧ m_filePath L' = m_filePath L ∧ m_callbacks L' = m_callbacks L.

(** The handle of the open log file stands at the end of the file. *)
Definition at_end (L : Logger) (w : World) : Prop :=
  match m_file L with
  | Some file => OS.fd_pos file = String.length (OS.content_of w (OS.fd_path file))
  | None => True
  end.

(** The log after one more message: an Append message takes the place of
    the last newline-length bytes when the log has that many, every other
    message goes behind the log. *)
Definition joined (log : string) (message : Message) : string :=
  if has_flag (flags message) FLAG_APPEND
     && (OS_NEWLINE_LENGTH <=? String.length log)%nat
  then Text.take (String.length log - OS_NEWLINE_LENGTH) log +:+ file_buffer message
  else log +:+ file_buffer message.

(** The log after a run of messages: those with the ToFile flag, joined one
    after the other. *)
Definition log_after (log : string) (messages : list Message) : string :=
  foldl (λ log message,
           if has_flag (flags message) FLAG_FILE then joined log message else log)
        log messages.

End Wrappers.

(** Every [ch] of a text written twice. *)
Fixpoint doubled (ch : ascii) (s : string) : string :=
  match s with
  | "" => ""
  | String x r =>
      if Ascii.eqb x ch then String x (String x (doubled ch r))
      else String x (doubled ch r)
  end.

(** [P] holds of [count] numbers in a row from [start] on. *)
Fixpoint all_from (P : N → bool) (count : nat) (start : N) : bool :=
  match count with
  | O => true
  | S count => P start && all_from P count (N.succ start)
  end.

(** The specifiers [ExpandMessagePrefixSpecifier] knows. *)
Definition known_specifier (x : ascii) : bool :=
  Text.occurs x "%tdmYFHMSTNz".

Definition is_console_event (e : Event) : bool :=
  match e with
  | EvPrintLine _ | EvPrintLinePlus _ | EvOnWriteToConsole _ _ _ => true
  | _ => false
  end.

(** A clock whose fields fit the widths of their conversions. *)
Definition fits (time : OS.DateTime) : Prop :=
  (OS.year time < 10000 ∧ OS.month time < 100 ∧ OS.day time < 100
   ∧ OS.hour time < 100 ∧ OS.minute time < 100 ∧ OS.second time < 100
   ∧ OS.millisecond time < 1000)%N.

(** ** More of the host *)

(** A caller one hour east of UTC. *)
Definition central_europe : Caller :=
  {| thread := 1; now := Host.clock; bias := -60 |}.

(** The logging host with three messages queued. *)
Definition queued_notes : Logger :=
  set_messages [Host.note FLAG_FILE "P " "one"; Host.note FLAG_CONSOLE "" "aside";
                Host.note (Z.lor FLAG_FILE FLAG_APPEND) "" " two"]
               (Host.logging 0).

(** A submission of the worker thread of the host. *)
Definition from_worker (fl : Z) (text : string) : @Submission Host.windows :=
  @Build_Submission Host.windows Host.worker_thread eMessage fl text [].

(** * Properties *)

(** ** Facts about texts *)

Module TextFacts.
Import Text.

Lemma app_nil_r (s : string) : s +:+ "" = s.
Proof. induction s as [|c s IH]; simpl; [done | by rewrite IH]. Qed.

Lemma app_assoc (a b c : string) : (a +:+ b) +:+ c = a +:+ b +:+ c.
Proof. induction a as [|x a IH]; simpl; [done | by rewrite IH]. Qed.

Lemma length_app (a b : string) :
  String.length (a +:+ b) = (String.length a + String.length b)%nat.
Proof. induction a as [|x a IH]; simpl; [done | by rewrite IH]. Qed.

Lemma take_app_length (a b : string) : take (String.length a) (a +:+ b) = a.
Proof. induction a as [|x a IH]; simpl; [by destruct b | by rewrite IH]. Qed.

Lemma drop_app_length (a b : string) : drop (String.length a) (a +:+ b) = b.
Proof. induction a as [|x a IH]; simpl; [by destruct b | done]. Qed.

Lemma take_all (n : nat) (s : string) : (String.length s ≤ n)%nat → take n s = s.
Proof.
  revert n. induction s as [|x s IH]; intros [|n] Hn; simpl in *; try done; try lia.
  rewrite IH; [done | lia].
Qed.

Lemma drop_all (n : nat) (s : string) : (String.length s ≤ n)%nat → drop n s = "".
Proof.
  revert n. induction s as [|x s IH]; intros [|n] Hn; simpl in *; try done; try lia.
  apply IH. lia.
Qed.

Lemma get_app_length (a : string) (c : ascii) (r : string) :
  String.get (String.length a) (a +:+ String c r) = Some c.
Proof. induction a as [|x a IH]; simpl; done. Qed.

Lemma get_beyond (n : nat) (s : string) :
  (String.length s ≤ n)%nat → String.get n s = None.
Proof.
  revert n. induction s as [|x s IH]; intros [|n] Hn; simpl in *; try done; try lia.
  apply IH. lia.
Qed.

Lemma app_char (a : string) (c : ascii) (r : string) :
  a +:+ String c r = (a +:+ char c) +:+ r.
Proof. by rewrite app_assoc. Qed.

Lemma length_app_char (a : string) (c : ascii) :
  String.length (a +:+ char c) = (String.length a + 1)%nat.
Proof. by rewrite length_app. Qed.

Lemma prefix_app (a b : string) : String.prefix a (a +:+ b) = true.
Proof.
  induction a as [|x a IH]; simpl; [by destruct b |].
  destruct (ascii_dec x x); [done | congruence].
Qed.

Lemma occurs_app (c : ascii) (a b : string) :
  occurs c (a +:+ b) = occurs c a || occurs c b.
Proof. induction a as [|x a IH]; simpl; [done | by rewrite IH, orb_assoc]. Qed.

Lemma count_app (c : ascii) (a b : string) :
  count c (a +:+ b) = (count c a + count c b)%nat.
Proof. induction a as [|x a IH]; simpl; [done | rewrite IH; lia]. Qed.

Lemma count_absent (c : ascii) (s : string) : occurs c s = false → count c s = 0%nat.
Proof.
  induction s as [|x s IH]; simpl; [done |].
  destruct (Ascii.eqb x c); simpl; [done | auto].
Qed.

Lemma before_absent (c : ascii) (s : string) : occurs c s = false → before c s = s.
Proof.
  induction s as [|x s IH]; simpl; [done |].
  destruct (Ascii.eqb x c); simpl; [done |]. intros Hs. by rewrite IH.
Qed.

Lemma before_app (c : ascii) (a b : string) :
  occurs c a = false → before c (a +:+ b) = a +:+ before c b.
Proof.
  induction a as [|x a IH]; simpl; [done |].
  destruct (Ascii.eqb x c); simpl; [done |]. intros Ha. by rewrite IH.
Qed.

Lemma before_hit (c : ascii) (value rest : string) :
  occurs c value = false → before c (value +:+ String c rest) = value.
Proof.
  intros Hv. rewrite before_app by done. simpl.
  by rewrite Ascii.eqb_refl, app_nil_r.
Qed.

Lemma behind_hit (c : ascii) (value rest : string) :
  occurs c value = false → behind c (value +:+ String c rest) = rest.
Proof.
  induction value as [|x value IH]; simpl.
  - by rewrite Ascii.eqb_refl.
  - destruct (Ascii.eqb x c); simpl; [done | auto].
Qed.

Lemma length_before (c : ascii) (s : string) :
  (String.length (before c s) ≤ String.length s)%nat.
Proof.
  induction s as [|x s IH]; simpl; [done |].
  destruct (Ascii.eqb x c); simpl; lia.
Qed.

Lemma take_before (c : ascii) (s : string) :
  take (String.length (before c s)) s = before c s.
Proof.
  induction s as [|x s IH]; simpl; [done |].
  destruct (Ascii.eqb x c); simpl; [done | by rewrite IH].
Qed.

Lemma drop_before (c : ascii) (s : string) :
  occurs c s = true → drop (String.length (before c s) + 1) s = behind c s.
Proof.
  induction s as [|x s IH]; simpl; [done |].
  destruct (Ascii.eqb x c); simpl; [by destruct s | auto].
Qed.

End TextFacts.

Section Claims.
Context `{Platform}.

(** ** The verbosity filter *)

(** C1.  The required level of every message kind is the one of the fixed
    table; a submission with a format is dropped entirely, logger and world
    untouched, exactly when the console verbosity is below the required
    level of its kind; at console verbosity -1 every kind is dropped, the
    level-0 kinds included. *)
Theorem C1_required_level_and_drop :
  (GetRequiredVerbosity eAlways = 0 ∧ GetRequiredVerbosity eWarningAlways = 0
   ∧ GetRequiredVerbosity eErrorAlways = 0 ∧ GetRequiredVerbosity eInput = 0
   ∧ GetRequiredVerbosity eInputResponse = 0 ∧ GetRequiredVerbosity eError = 1
   ∧ GetRequiredVerbosity eWarning = 2 ∧ GetRequiredVerbosity eMessage = 3
   ∧ GetRequiredVerbosity eComment = 4)
  ∧ (∀ c L w t fl format args,
       is_dropped (PushMessageV c L w t fl (Some format) args).1.1 = true
       ↔ GetVerbosityLevel L < GetRequiredVerbosity t)
  ∧ (∀ c L w t fl format args,
       GetVerbosityLevel L < GetRequiredVerbosity t →
       PushMessageV c L w t fl (Some format) args = (DroppedByVerbosity, L, w))
  ∧ (∀ c L w t fl format args,
       GetVerbosityLevel L = -1 →
       PushMessageV c L w t fl (Some format) args = (DroppedByVerbosity, L, w)).
Proof.
  assert (Hdrop : ∀ c L w t fl format args,
             GetVerbosityLevel L < GetRequiredVerbosity t →
             PushMessageV c L w t fl (Some format) args = (DroppedByVerbosity, L, w)).
  { intros c L w t fl format args Hlt. unfold PushMessageV.
    by apply Z.ltb_lt in Hlt as ->. }
  split; [by repeat split |]. split; [| split; [exact Hdrop |]].
  - intros c L w t fl format args. split.
    + unfold PushMessageV.
      destruct (GetVerbosityLevel L <? GetRequiredVerbosity t) eqn:Hlt.
      * intros _. by apply Z.ltb_lt.
      * destruct (thread c =? m_mainThreadID L)%N; [| done].
        by destruct (WriteMessage _ _ _).
    + intros Hlt. by rewrite Hdrop.
  - intros c L w t fl format args Hm. apply Hdrop. rewrite Hm. by destruct t.
Qed.

(** ** The file sink's content rule *)

Lemma WriteMessageToFile_loop_done (fuel : nat) (content : string) (i : nat) (buffer : string) :
  (String.length content ≤ i)%nat →
  WriteMessageToFile_loop fuel content i buffer = buffer.
Proof.
  intros Hi. destruct fuel as [|fuel]; simpl; [done |].
  by rewrite TextFacts.get_beyond.
Qed.

(** The index loop, started anywhere in the content with enough fuel for
    what is left, appends the reference rendering of what is left. *)
(** Move one character from what is left to what is done. *)
Ltac step_over done ch rest :=
  rewrite (TextFacts.app_char done ch rest),
          <- (TextFacts.length_app_char done ch).

Lemma WriteMessageToFile_loop_spec (fuel : nat) :
  ∀ (done rest buffer : string),
    (String.length rest ≤ fuel)%nat →
    WriteMessageToFile_loop fuel (done +:+ rest) (String.length done) buffer
    = buffer +:+ StripColorCodes rest.
Proof.
  induction fuel as [|fuel IH]; intros done rest buffer Hfuel.
  { destruct rest; simpl in Hfuel; [| lia]. simpl. by rewrite TextFacts.app_nil_r. }
  destruct rest as [|ch rest].
  { simpl. rewrite TextFacts.get_beyond; [| by rewrite TextFacts.length_app; simpl; lia].
    by rewrite TextFacts.app_nil_r. }
  simpl in Hfuel. cbn [WriteMessageToFile_loop StripColorCodes].
  rewrite TextFacts.get_app_length.
  destruct (Ascii.eqb ch Text.LF) eqn:Hlf.
  { step_over done ch rest.
    rewrite IH by lia. by rewrite TextFacts.app_assoc. }
  destruct (Ascii.eqb ch "$") eqn:Hdollar.
  - apply Ascii.eqb_eq in Hdollar as ->.
    destruct rest as [|next rest].
    + rewrite TextFacts.get_beyond by (rewrite TextFacts.length_app; simpl; lia).
      rewrite WriteMessageToFile_loop_done by (rewrite TextFacts.length_app; simpl; lia).
      by rewrite TextFacts.app_nil_r.
    + simpl in Hfuel.
      step_over done "$"%char (String next rest).
      rewrite TextFacts.get_app_length.
      step_over (done +:+ Text.char "$") next rest.
      rewrite IH by lia.
      destruct (Ascii.eqb next "$"); [| done].
      by rewrite TextFacts.app_assoc.
  - step_over done ch rest.
    rewrite IH by lia. by rewrite TextFacts.app_assoc.
Qed.

Lemma file_buffer_spec (message : Message) :
  file_buffer message
  = (if has_flag (flags message) FLAG_APPEND then "" else prefix message)
    +:+ StripColorCodes (content message) +:+ OS_NEWLINE.
Proof.
  unfold file_buffer.
  rewrite (WriteMessageToFile_loop_spec _ "" (content message)) by done.
  rewrite TextFacts.app_assoc. by destruct (has_flag _ _).
Qed.

(** C3, as amended.  What the file sink's loop makes of a content is the
    reference rendering: a [$] followed by another [$] leaves one [$], a
    [$] followed by any other character is dropped with that character, a
    [$] at the very end is dropped, a line feed becomes the platform
    newline and everything else is copied.  On the content
    [warn$1text$$more] the text before the trailing newline is
    [warntext$more]: the [$] of the pair stays. *)
Theorem C3_color_codes_stripped :
  (∀ content buffer,
     WriteMessageToFile_loop (String.length content) content 0 buffer
     = buffer +:+ StripColorCodes content)
  ∧ (∀ rest, StripColorCodes (String "$" (String "$" rest))
             = String "$" (StripColorCodes rest))
  ∧ (∀ code rest, code ≠ "$"%char →
                  StripColorCodes (String "$" (String code rest)) = StripColorCodes rest)
  ∧ StripColorCodes "$" = ""
  ∧ (∀ message,
       content message = "warn$1text$$more" →
       file_buffer message
       = (if has_flag (flags message) FLAG_APPEND then "" else prefix message)
         +:+ "warntext$more" +:+ OS_NEWLINE).
Proof.
  split; [| split; [| split; [| split]]].
  - intros content buffer.
    by rewrite (WriteMessageToFile_loop_spec _ "" content).
  - done.
  - intros code rest Hcode. cbn [StripColorCodes]. simpl.
    destruct (Ascii.eqb code "$") eqn:E; [| done].
    by apply Ascii.eqb_eq in E.
  - done.
  - intros message Hc. by rewrite file_buffer_spec, Hc.
Qed.

(** ** The prefix formatter *)

(** C4.  At the clock reading 2024-01-05 08:30:15.007 with a zero UTC bias
    the template [%F %T ] is rendered as [2024-01-05 08:30:15 ] and the
    template [%%] as [%]; the prefix stored in the message is the rendered
    text followed by the one space [BuildMessagePrefix] appends.  With the
    template [0], the empty template or no registered template the message
    is left as it is, so it gets no prefix.  For every other template the
    stored prefix is empty when the rendered text is empty, otherwise the
    rendered text and exactly one more space. *)
Theorem C4_prefix_expansion :
  (∀ c L message,
     now c = Host.clock → bias c = 0 → prefix message = "" →
     cv_prefix (m_cvars L) = Some "%F %T " →
     rendered c "%F %T " = "2024-01-05 08:30:15 "
     ∧ prefix (BuildMessagePrefix c L message) = "2024-01-05 08:30:15 " +:+ " ")
  ∧ (∀ c L message,
       now c = Host.clock → bias c = 0 → prefix message = "" →
       cv_prefix (m_cvars L) = Some "%%" →
       rendered c "%%" = "%"
       ∧ prefix (BuildMessagePrefix c L message) = "%" +:+ " ")
  ∧ (∀ c L message,
       cv_prefix (m_cvars L) = Some "0" ∨ cv_prefix (m_cvars L) = Some ""
       ∨ cv_prefix (m_cvars L) = None →
       BuildMessagePrefix c L message = message)
  ∧ (∀ c L message template,
       cv_prefix (m_cvars L) = Some template →
       template ≠ "0" → template ≠ "" → prefix message = "" →
       prefix (BuildMessagePrefix c L message)
       = if StringView.IsEmpty (rendered c template) then ""
         else rendered c template +:+ " ").
Proof.
  split; [| split; [| split]].
  - intros [tid time utc] L message Hnow Hbias Hempty Hcv. simpl in *. subst.
    unfold BuildMessagePrefix. rewrite Hcv, Hempty. by vm_compute.
  - intros [tid time utc] L message Hnow Hbias Hempty Hcv. simpl in *. subst.
    unfold BuildMessagePrefix. rewrite Hcv, Hempty. by vm_compute.
  - intros c L message [Hcv | [Hcv | Hcv]]; unfold BuildMessagePrefix; by rewrite Hcv.
  - intros c L message template Hcv Hzero Hnil Hempty.
    unfold BuildMessagePrefix, rendered. rewrite Hcv, Hempty.
    assert (StringView.IsEmpty template = false) as -> by by destruct template.
    assert (String.eqb template "0" = false) as ->
      by by apply String.eqb_neq.
    cbn [orb].
    by destruct (BuildMessagePrefix_loop _ _ _ _ _).
Qed.

(** ** Callbacks only add events *)

Lemma fire_cons (mk : nat → Event) (cb : nat) (cbs : list nat) (w : World) :
  fire mk (cb :: cbs) w = fire mk cbs (emit (mk cb) w).
Proof. done. Qed.

Lemma fire_files (mk : nat → Event) (cbs : list nat) (w : World) :
  files (fire mk cbs w) = files w.
Proof.
  revert w. induction cbs as [|cb cbs IH]; intros w; [done |].
  by rewrite fire_cons, IH.
Qed.

Lemma fire_trace (mk : nat → Event) (cbs : list nat) (w : World) :
  trace (fire mk cbs w) = trace w ++ map mk cbs.
Proof.
  revert w. induction cbs as [|cb cbs IH]; intros w.
  - simpl. by rewrite app_nil_r.
  - rewrite fire_cons, IH. simpl. by rewrite <- app_assoc.
Qed.

(** ** What writing a message does to the trace and the queue *)

Lemma forallb_map_const {A} (p : Event → bool) (mk : A → Event) (l : list A) :
  (∀ a, p (mk a) = true) → forallb p (map mk l) = true.
Proof. intros Hp. induction l as [|a l IH]; simpl; [done | by rewrite Hp, IH]. Qed.

Lemma WriteMessageToConsole_effect (L : Logger) (w : World) (message : Message) :
  (WriteMessageToConsole L w message).1 = L
  ∧ files (WriteMessageToConsole L w message).2 = files w
  ∧ ∃ events,
      trace (WriteMessageToConsole L w message).2 = trace w ++ events
      ∧ forallb (λ e, negb (is_file_event e)) events = true
      ∧ forallb (λ e, negb (is_lock_event e)) events = true.
Proof.
  unfold WriteMessageToConsole.
  destruct (negb (has_console w)).
  { repeat split. exists []. by rewrite app_nil_r. }
  cbn [fst snd]. rewrite fire_files, fire_trace.
  split; [done |]. split; [by destruct (has_flag _ _) |].
  destruct (has_flag (flags message) FLAG_APPEND); simpl;
    rewrite <- app_assoc; eexists; (split; [done |]); simpl;
    split; by apply forallb_map_const.
Qed.

Lemma fire_has_console (mk : nat → Event) (cbs : list nat) (w : World) :
  has_console (fire mk cbs w) = has_console w.
Proof.
  revert w. induction cbs as [|cb cbs IH]; intros w; [done |].
  by rewrite fire_cons, IH.
Qed.

Lemma SeekEnd_trace (f : OS.File) (back : nat) (w : World) :
  trace (OS.SeekEnd f back w).2 = trace w ++ [EvSeekEnd (OS.fd_path f) back].
Proof. unfold OS.SeekEnd. by destruct (_ <=? _)%nat. Qed.

Lemma SeekEnd_world (f : OS.File) (back : nat) (w : World) :
  files (OS.SeekEnd f back w).2 = files w
  ∧ has_console (OS.SeekEnd f back w).2 = has_console w
  ∧ faults (OS.SeekEnd f back w).2 = faults w
  ∧ OS.fd_path (OS.SeekEnd f back w).1 = OS.fd_path f.
Proof. unfold OS.SeekEnd. by destruct (_ <=? _)%nat. Qed.

Lemma Write_trace (f : OS.File) (buffer : string) (w : World) :
  trace (OS.Write f buffer w).2 = trace w ++ [EvWrite (OS.fd_path f) buffer].
Proof. unfold OS.Write. cbn [emit faults]. by destruct (write_fails _). Qed.

Lemma Write_has_console (f : OS.File) (buffer : string) (w : World) :
  has_console (OS.Write f buffer w).2 = has_console w.
Proof. unfold OS.Write. cbn [emit faults]. by destruct (write_fails _). Qed.

(** [WriteMessageToFile] with a file open, step by step. *)
Lemma WriteMessageToFile_open (L : Logger) (w : World) (message : Message) (file : OS.File) :
  m_file L = Some file →
  WriteMessageToFile L w message
  = let isAppend := has_flag (flags message) FLAG_APPEND in
    let sought := if isAppend then OS.SeekEnd file OS_NEWLINE_LENGTH w else (file, w) in
    let wrote := OS.Write sought.1 (file_buffer message) sought.2 in
    (set_file (Some wrote.1) (m_filePath L) L,
     fire (λ cb, EvOnWriteToFile cb (content message) (negb isAppend))
          (m_callbacks L) wrote.2).
Proof.
  intros Hfile. unfold WriteMessageToFile. rewrite Hfile. cbv zeta.
  destruct (if has_flag _ _ then _ else _) as [file1 w1].
  cbn [fst snd]. by destruct (OS.Write file1 _ w1).
Qed.

Lemma WriteMessageToFile_effect (L : Logger) (w : World) (message : Message) :
  m_messages (WriteMessageToFile L w message).1 = m_messages L
  ∧ m_callbacks (WriteMessageToFile L w message).1 = m_callbacks L
  ∧ has_console (WriteMessageToFile L w message).2 = has_console w
  ∧ ∃ events,
      trace (WriteMessageToFile L w message).2 = trace w ++ events
      ∧ forallb (λ e, negb (is_lock_event e)) events = true.
Proof.
  destruct (m_file L) as [file|] eqn:Hfile.
  2:{ unfold WriteMessageToFile. rewrite Hfile.
      repeat split. exists []. by rewrite app_nil_r. }
  rewrite (WriteMessageToFile_open _ _ _ _ Hfile). cbv zeta. cbn [fst snd].
  rewrite fire_has_console, fire_trace, Write_has_console, Write_trace.
  split; [done |]. split; [done |].
  destruct (has_flag (flags message) FLAG_APPEND); cbn [fst snd].
  - destruct (SeekEnd_world file OS_NEWLINE_LENGTH w) as (_ & Hc & _ & _).
    rewrite Hc, SeekEnd_trace. split; [done |].
    rewrite <- !app_assoc. eexists. split; [done |].
    simpl. by apply forallb_map_const.
  - split; [done |]. rewrite <- !app_assoc. eexists. split; [done |].
    simpl. by apply forallb_map_const.
Qed.

Lemma WriteMessage_effect (L : Logger) (w : World) (message : Message) :
  m_messages (WriteMessage L w message).1 = m_messages L
  ∧ ∃ events,
      trace (WriteMessage L w message).2 = trace w ++ events
      ∧ forallb (λ e, negb (is_lock_event e)) events = true.
Proof.
  unfold WriteMessage.
  destruct (WriteMessageToFile_effect L w message) as (Hq & _ & _ & ev1 & Ht1 & Hl1).
  assert (Hfile : ∃ L1 w1 ev,
             (if has_flag (flags message) FLAG_FILE
              then WriteMessageToFile L w message else (L, w)) = (L1, w1)
             ∧ m_messages L1 = m_messages L ∧ trace w1 = trace w ++ ev
             ∧ forallb (λ e, negb (is_lock_event e)) ev = true).
  { destruct (has_flag (flags message) FLAG_FILE).
    - destruct (WriteMessageToFile L w message) as [L1 w1]. by exists L1, w1, ev1.
    - exists L, w, []. by rewrite app_nil_r. }
  destruct Hfile as (L1 & w1 & ev & -> & Hq1 & Ht & Hl).
  destruct (has_flag (flags message) FLAG_CONSOLE).
  - destruct (WriteMessageToConsole_effect L1 w1 message)
      as (HL & _ & ev2 & Ht2 & _ & Hl2).
    rewrite HL, Ht2, Ht. split; [done |].
    exists (ev ++ ev2). rewrite app_assoc. split; [done |].
    by rewrite forallb_app, Hl, Hl2.
  - simpl. split; [done |]. by exists ev.
Qed.

(** ** The file verbosity *)

Lemma clear_file_flag (fl : Z) :
  has_flag (Z.land fl (unot FLAG_FILE)) FLAG_FILE = false
  ∧ has_flag (Z.land fl (unot FLAG_FILE)) FLAG_CONSOLE = has_flag fl FLAG_CONSOLE
  ∧ has_flag (Z.land fl (unot FLAG_FILE)) FLAG_APPEND = has_flag fl FLAG_APPEND.
Proof.
  unfold has_flag. rewrite <- !Z.land_assoc.
  change (Z.land (unot FLAG_FILE) FLAG_FILE) with 0.
  change (Z.land (unot FLAG_FILE) FLAG_CONSOLE) with FLAG_CONSOLE.
  change (Z.land (unot FLAG_FILE) FLAG_APPEND) with FLAG_APPEND.
  by rewrite Z.land_0_r.
Qed.

Lemma BuildMessagePrefix_flags (c : Caller) (L : Logger) (message : Message) :
  flags (BuildMessagePrefix c L message) = flags message.
Proof.
  unfold BuildMessagePrefix. destruct (cv_prefix _); [| done].
  destruct (_ || _); [done |]. by destruct (negb _).
Qed.

(** C7.  A submission that passes the console gate while the effective
    file verbosity (the file setting when registered, else the console
    verbosity) is below the required level of its kind builds a message
    without the ToFile flag, its other flags untouched.  Whenever that
    message is written, at once or from the queue, [WriteMessage] is the
    console leg alone: the file sink is never entered.  The submission
    itself leaves the files as they were. *)
Theorem C7_file_leg_filtered (c : Caller) (L : Logger) (w : World)
    (t : ELogType) (fl : Z) (format : string) (args : va_list) :
  GetRequiredVerbosity t ≤ GetVerbosityLevel L →
  currentFileVerbosity L < GetRequiredVerbosity t →
  ∃ message,
    message_of (PushMessageV c L w t fl (Some format) args).1.1 = Some message
    ∧ has_flag (flags message) FLAG_FILE = false
    ∧ has_flag (flags message) FLAG_CONSOLE = has_flag fl FLAG_CONSOLE
    ∧ (∀ L' w', WriteMessage L' w' message
                = if has_flag fl FLAG_CONSOLE
                  then WriteMessageToConsole L' w' message else (L', w'))
    ∧ files (PushMessageV c L w t fl (Some format) args).2 = files w.
Proof.
  intros Hgate Hfile. unfold currentFileVerbosity in Hfile.
  destruct (clear_file_flag fl) as (Hf & Hc & _).
  unfold PushMessageV.
  apply Z.ltb_ge in Hgate as ->. apply Z.ltb_lt in Hfile as ->.
  set (message := BuildMessageContent _ _ _).
  assert (Hflags : flags message = Z.land fl (unot FLAG_FILE)).
  { unfold message, BuildMessageContent. simpl. by rewrite BuildMessagePrefix_flags. }
  assert (Hwrite : ∀ L' w', WriteMessage L' w' message
                     = if has_flag fl FLAG_CONSOLE
                       then WriteMessageToConsole L' w' message else (L', w')).
  { intros L' w'. unfold WriteMessage. by rewrite Hflags, Hf, Hc. }
  exists message. rewrite Hflags.
  destruct (thread c =? m_mainThreadID L)%N.
  - rewrite Hwrite. destruct (has_flag fl FLAG_CONSOLE) eqn:E; simpl.
    + unfold WriteMessageToConsole.
      destruct (negb (has_console w)); simpl; [done |].
      repeat split; try done.
      rewrite fire_files. by destruct (has_flag _ FLAG_APPEND).
    + done.
  - simpl. done.
Qed.

(** ** Writing without an open file *)

(** C10.  While no log file is open, the file leg of a message does
    nothing at all: logger and world are returned as they were, so nothing
    is written, no callback is told of a file write, nothing is queued and
    nothing is raised.  Writing the message is then its console leg alone,
    exactly as for a message without the ToFile flag. *)
Theorem C10_no_open_file (L : Logger) (w : World) (message : Message) :
  m_file L = None →
  WriteMessageToFile L w message = (L, w)
  ∧ WriteMessage L w message
    = (if has_flag (flags message) FLAG_CONSOLE
       then WriteMessageToConsole L w message else (L, w))
  ∧ files (WriteMessage L w message).2 = files w
  ∧ m_messages (WriteMessage L w message).1 = m_messages L
  ∧ ∃ events, trace (WriteMessage L w message).2 = trace w ++ events
              ∧ forallb (λ e, negb (is_file_event e)) events = true.
Proof.
  intros Hclosed.
  assert (Hleg : WriteMessageToFile L w message = (L, w)).
  { unfold WriteMessageToFile. by rewrite Hclosed. }
  assert (Hwrite : WriteMessage L w message
                   = (if has_flag (flags message) FLAG_CONSOLE
                      then WriteMessageToConsole L w message else (L, w))).
  { unfold WriteMessage. rewrite Hleg. by destruct (has_flag _ FLAG_FILE). }
  split; [done |]. split; [done |]. rewrite Hwrite.
  destruct (WriteMessageToConsole_effect L w message) as (HL & Hf & ev & Ht & Hev & _).
  destruct (has_flag (flags message) FLAG_CONSOLE).
  - rewrite HL, Hf. repeat split. by exists ev.
  - repeat split. exists []. by rewrite app_nil_r.
Qed.

(** ** Draining the queue *)

Lemma write_all_cons (L : Logger) (w : World) (message : Message) (queue : list Message) :
  write_all L w (message :: queue)
  = write_all (WriteMessage L w message).1 (WriteMessage L w message).2 queue.
Proof. unfold write_all. simpl. by destruct (WriteMessage L w message). Qed.

Lemma write_all_effect (queue : list Message) :
  ∀ L w,
    m_messages (write_all L w queue).1 = m_messages L
    ∧ ∃ events,
        trace (write_all L w queue).2 = trace w ++ events
        ∧ forallb (λ e, negb (is_lock_event e)) events = true.
Proof.
  induction queue as [|message queue IH]; intros L w.
  { split; [done |]. exists []. by rewrite app_nil_r. }
  rewrite write_all_cons.
  destruct (WriteMessage_effect L w message) as (Hq & ev1 & Ht1 & Hl1).
  destruct (IH (WriteMessage L w message).1 (WriteMessage L w message).2)
    as (Hq2 & ev2 & Ht2 & Hl2).
  rewrite Hq2, Ht2, Ht1, Hq. split; [done |].
  exists (ev1 ++ ev2). rewrite app_assoc. split; [done |].
  by rewrite forallb_app, Hl1, Hl2.
Qed.

(** The index loop of [OnUpdate] writes what is left of the queue, in
    order, when it has fuel for it. *)
Lemma OnUpdate_loop_spec (fuel : nat) :
  ∀ i L w,
    (length (m_messages L) - i ≤ fuel)%nat →
    OnUpdate_loop fuel i L w = write_all L w (drop i (m_messages L)).
Proof.
  induction fuel as [|fuel IH]; intros i L w Hfuel.
  { simpl. rewrite drop_ge by lia. done. }
  simpl. destruct (m_messages L !! i) as [message|] eqn:Hi.
  - rewrite (drop_S _ _ _ Hi), write_all_cons.
    destruct (WriteMessage_effect L w message) as (Hq & _).
    destruct (WriteMessage L w message) as [L1 w1]. cbn [fst snd] in *.
    rewrite IH by (rewrite Hq; lia). by rewrite Hq.
  - apply lookup_ge_None in Hi. by rewrite drop_ge.
Qed.

Lemma sinks_inside_lock_held (events rest : list Event) :
  forallb (λ e, negb (is_lock_event e)) events = true →
  sinks_inside_lock true (events ++ rest) = sinks_inside_lock true rest.
Proof.
  induction events as [|e events IH]; intros Hev; [done |].
  simpl in Hev. apply andb_prop in Hev as [He Hev].
  destruct e; try done; simpl; rewrite ?orb_true_r; by apply IH.
Qed.

(** C8, as amended.  [OnUpdate] takes the queue lock, writes every queued
    message through the sinks in the order of the queue while it holds the
    lock, empties the queue and releases the lock last: between the lock
    and the unlock of a drain lie all its sink events and no other lock
    event.  A submission from another thread takes the same lock around
    its append to the queue, and does nothing else with the world. *)
Theorem C8_drain_under_lock (L : Logger) (w : World) :
  OnUpdate L w
  = (set_messages [] (write_all L (emit EvLock w) (m_messages L)).1,
     emit EvUnlock (write_all L (emit EvLock w) (m_messages L)).2)
  ∧ m_messages (OnUpdate L w).1 = []
  ∧ (∃ events,
       trace (OnUpdate L w).2 = trace w ++ [EvLock] ++ events ++ [EvUnlock]
       ∧ forallb (λ e, negb (is_lock_event e)) events = true
       ∧ sinks_inside_lock false ([EvLock] ++ events ++ [EvUnlock]) = true)
  ∧ (∀ c t fl format args message,
       (PushMessageV c L w t fl (Some format) args).1.1 = Queued message →
       PushMessageV c L w t fl (Some format) args
       = (Queued message, set_messages (m_messages L ++ [message]) L,
          emit EvUnlock (emit EvLock w))).
Proof.
  assert (Hrun : OnUpdate L w
            = (set_messages [] (write_all L (emit EvLock w) (m_messages L)).1,
               emit EvUnlock (write_all L (emit EvLock w) (m_messages L)).2)).
  { unfold OnUpdate. rewrite OnUpdate_loop_spec by lia. rewrite drop_0.
    by destruct (write_all _ _ _). }
  split; [done |]. rewrite Hrun. split; [done |]. split.
  - destruct (write_all_effect (m_messages L) L (emit EvLock w)) as (_ & ev & Ht & Hl).
    exists ev. cbn [snd emit trace]. rewrite Ht. cbn [emit trace].
    split; [by rewrite <- !app_assoc |]. split; [done |].
    simpl. by rewrite sinks_inside_lock_held.
  - intros c t fl format args message. unfold PushMessageV.
    destruct (_ <? _); [done |].
    destruct (thread c =? m_mainThreadID L)%N.
    + by destruct (WriteMessage _ _ _).
    + simpl. by intros [= ->].
Qed.

(** ** Appending to the line before *)

Lemma overlay_at_end (old buffer : string) :
  OS.overlay old (String.length old) buffer = old +:+ buffer.
Proof.
  unfold OS.overlay. rewrite TextFacts.take_all, Nat.sub_diag by done.
  rewrite TextFacts.drop_all by lia. simpl. by rewrite TextFacts.app_nil_r.
Qed.

Lemma overlay_over_tail (line tail buffer : string) :
  (String.length tail ≤ String.length buffer)%nat →
  OS.overlay (line +:+ tail) (String.length line) buffer = line +:+ buffer.
Proof.
  intros Hlen. unfold OS.overlay.
  rewrite TextFacts.take_app_length.
  replace (String.length line - String.length (line +:+ tail))%nat with 0%nat
    by (rewrite TextFacts.length_app; lia).
  rewrite TextFacts.drop_all by (rewrite TextFacts.length_app; lia).
  simpl. by rewrite TextFacts.app_nil_r.
Qed.

Lemma content_of_files (w w' : World) (path : string) :
  files w' = files w → OS.content_of w' path = OS.content_of w path.
Proof. unfold OS.content_of. by intros ->. Qed.

Lemma Write_ok (f : OS.File) (buffer : string) (w : World) :
  write_fails (faults w) = false →
  OS.Write f buffer w
  = ({| OS.fd_path := OS.fd_path f;
        OS.fd_pos := OS.fd_pos f + String.length buffer |},
     set_files (<[OS.fd_path f
                  := OS.overlay (OS.content_of w (OS.fd_path f)) (OS.fd_pos f) buffer]>
                  (files w))
               (emit (EvWrite (OS.fd_path f) buffer) w)).
Proof. intros Hok. unfold OS.Write. cbn [emit faults]. by rewrite Hok. Qed.

Lemma SeekEnd_handle (f : OS.File) (back : nat) (w : World) :
  (OS.SeekEnd f back w).1
  = if (back <=? String.length (OS.content_of w (OS.fd_path f)))%nat
    then {| OS.fd_path := OS.fd_path f;
            OS.fd_pos := String.length (OS.content_of w (OS.fd_path f)) - back |}
    else f.
Proof.
  unfold OS.SeekEnd. change (OS.content_of (emit _ w)) with (OS.content_of w).
  by destruct (_ <=? _)%nat.
Qed.

(** One write of the file sink, the write call succeeding: where the text
    lands and where the handle stands afterwards. *)
Lemma WriteMessageToFile_content (L : Logger) (w : World) (message : Message) (file : OS.File) :
  m_file L = Some file →
  write_fails (faults w) = false →
  let size := String.length (OS.content_of w (OS.fd_path file)) in
  let pos :=
    if has_flag (flags message) FLAG_APPEND && (OS_NEWLINE_LENGTH <=? size)%nat
    then (size - OS_NEWLINE_LENGTH)%nat else OS.fd_pos file in
  OS.content_of (WriteMessageToFile L w message).2 (OS.fd_path file)
  = OS.overlay (OS.content_of w (OS.fd_path file)) pos (file_buffer message)
  ∧ m_file (WriteMessageToFile L w message).1
    = Some {| OS.fd_path := OS.fd_path file;
              OS.fd_pos := pos + String.length (file_buffer message) |}
  ∧ faults (WriteMessageToFile L w message).2 = faults w.
Proof.
  intros Hfile Hok. rewrite (WriteMessageToFile_open _ _ _ _ Hfile).
  cbv zeta. cbn [fst snd m_file set_file].
  assert (Hfire : ∀ mk cbs w0, faults (fire mk cbs w0) = faults w0).
  { intros mk cbs. induction cbs as [|cb cbs IH]; intros w0; [done |].
    by rewrite fire_cons, IH. }
  rewrite Hfire, (content_of_files _ _ _ (fire_files _ _ _)).
  set (sought := if has_flag (flags message) FLAG_APPEND
                 then OS.SeekEnd file OS_NEWLINE_LENGTH w else (file, w)).
  assert (Hs : OS.fd_path sought.1 = OS.fd_path file
               ∧ files sought.2 = files w ∧ faults sought.2 = faults w
               ∧ OS.fd_pos sought.1
                 = if has_flag (flags message) FLAG_APPEND
                      && (OS_NEWLINE_LENGTH
                          <=? String.length (OS.content_of w (OS.fd_path file)))%nat
                   then (String.length (OS.content_of w (OS.fd_path file))
                         - OS_NEWLINE_LENGTH)%nat
                   else OS.fd_pos file).
  { unfold sought. destruct (has_flag (flags message) FLAG_APPEND); [| done].
    destruct (SeekEnd_world file OS_NEWLINE_LENGTH w) as (Hf & _ & Hk & Hp).
    rewrite Hf, Hk, Hp, SeekEnd_handle. cbn [andb].
    by destruct (_ <=? _)%nat. }
  destruct Hs as (Hpath & Hfiles & Hfaults & Hposn).
  rewrite Write_ok by by rewrite Hfaults.
  cbn [fst snd set_files files faults emit].
  rewrite Hpath, Hposn, Hfaults, (content_of_files _ _ _ Hfiles).
  split; [| done].
  unfold OS.content_of at 1. cbn [files set_files]. by rewrite lookup_insert_eq.
Qed.

Lemma StripColorCodes_no_LF (n : nat) :
  ∀ s, (String.length s ≤ n)%nat →
       Text.occurs Text.LF s = false →
       Text.occurs Text.LF (StripColorCodes s) = false.
Proof.
  induction n as [|n IH]; intros s Hn Hs.
  { by destruct s; [| simpl in Hn; lia]. }
  destruct s as [|c r]; [done |]. simpl in Hn, Hs.
  apply orb_false_elim in Hs as [Hc Hr]. cbn [StripColorCodes]. rewrite Hc.
  destruct (Ascii.eqb c "$").
  - destruct r as [|d r']; [done |]. simpl in Hn, Hr.
    apply orb_false_elim in Hr as [Hd Hr'].
    destruct (Ascii.eqb d "$") eqn:E.
    + apply Ascii.eqb_eq in E as ->. simpl. apply IH; [lia | done].
    + apply IH; [lia | done].
  - simpl. rewrite Hc. apply IH; [lia | done].
Qed.

Lemma BuildMessagePrefix_prefix (c : Caller) (L : Logger) (m m' : Message) :
  prefix m = prefix m' →
  prefix (BuildMessagePrefix c L m) = prefix (BuildMessagePrefix c L m').
Proof.
  intros Hp. unfold BuildMessagePrefix. rewrite Hp.
  destruct (cv_prefix _); [| done].
  destruct (_ || _); [done |]. by destruct (negb _).
Qed.

(** C2, as amended.  The prefix of a message is rendered at submission
    whatever its flags are: a message submitted with the Append flag carries
    the same prefix as one submitted without any flag.  The file sink leaves
    the prefix of an Append message out of what it writes.  With a file
    open and the handle at its end, writing a message without the Append
    flag and then one with it leaves the file with the old content, the
    prefix and stripped content of the first, the stripped content of the
    second right behind it and one newline; when neither the prefix nor
    the two contents hold a line feed, the only line feeds added are those
    of that one newline. *)
Theorem C2_append_joins_line :
  (∀ c L w t fl format args message,
     message_of (PushMessageV c L w t fl (Some format) args).1.1 = Some message →
     prefix message
     = prefix (BuildMessagePrefix c L
                 {| type := t; flags := 0; prefix := ""; content := "" |}))
  ∧ (∀ message,
       has_flag (flags message) FLAG_APPEND = true →
       file_buffer message = StripColorCodes (content message) +:+ OS_NEWLINE)
  ∧ (∀ L w file first second,
       m_file L = Some file →
       OS.fd_pos file = String.length (OS.content_of w (OS.fd_path file)) →
       write_fails (faults w) = false →
       has_flag (flags first) FLAG_APPEND = false →
       has_flag (flags second) FLAG_APPEND = true →
       let added :=
         prefix first +:+ StripColorCodes (content first)
         +:+ StripColorCodes (content second) +:+ OS_NEWLINE in
       let after_first := WriteMessageToFile L w first in
       let after_second := WriteMessageToFile after_first.1 after_first.2 second in
       OS.content_of after_second.2 (OS.fd_path file)
       = OS.content_of w (OS.fd_path file) +:+ added
       ∧ (Text.occurs Text.LF (prefix first +:+ content first +:+ content second) = false →
          Text.count Text.LF added = Text.count Text.LF OS_NEWLINE)).
Proof.
  split; [| split].
  - intros c L w t fl format args message. unfold PushMessageV.
    destruct (_ <? _); [done |].
    set (built := BuildMessageContent _ _ _).
    assert (Hp : prefix built
                 = prefix (BuildMessagePrefix c L
                             {| type := t; flags := 0; prefix := ""; content := "" |})).
    { unfold built, BuildMessageContent. simpl. by apply BuildMessagePrefix_prefix. }
    destruct (thread c =? m_mainThreadID L)%N.
    + destruct (WriteMessage _ _ _). simpl. by intros [= <-].
    + simpl. by intros [= <-].
  - intros message Happ. by rewrite file_buffer_spec, Happ.
  - intros L w file first second Hfile Hpos Hok Hfirst Hsecond added s1 s2.
    set (old := OS.content_of w (OS.fd_path file)) in *.
    set (line := old +:+ prefix first +:+ StripColorCodes (content first)).
    destruct (WriteMessageToFile_content L w first file Hfile Hok) as (Hc1 & Hf1 & Hk1).
    rewrite Hfirst in Hc1, Hf1. cbn [andb] in Hc1, Hf1. fold old in Hc1.
    rewrite Hpos in Hc1. fold old in Hc1. rewrite overlay_at_end in Hc1.
    rewrite file_buffer_spec, Hfirst in Hc1.
    assert (Hline : OS.content_of s1.2 (OS.fd_path file) = line +:+ OS_NEWLINE).
    { unfold s1, line. rewrite Hc1. by rewrite !TextFacts.app_assoc. }
    rewrite <- Hk1 in Hok.
    destruct (WriteMessageToFile_content s1.1 s1.2 second _ Hf1 Hok) as (Hc2 & _ & _).
    cbn [OS.fd_path] in Hc2. fold s2 in Hc2. rewrite Hsecond, Hline in Hc2.
    assert (Hfits : (OS_NEWLINE_LENGTH <=? String.length (line +:+ OS_NEWLINE))%nat = true).
    { apply Nat.leb_le. rewrite TextFacts.length_app. unfold OS_NEWLINE_LENGTH. lia. }
    rewrite Hfits in Hc2. cbn [andb] in Hc2.
    replace (String.length (line +:+ OS_NEWLINE) - OS_NEWLINE_LENGTH)%nat
      with (String.length line) in Hc2
      by (rewrite TextFacts.length_app; unfold OS_NEWLINE_LENGTH; lia).
    rewrite overlay_over_tail in Hc2.
    2:{ rewrite file_buffer_spec, Hsecond. simpl. rewrite TextFacts.length_app. lia. }
    rewrite file_buffer_spec, Hsecond in Hc2. simpl in Hc2.
    split.
    + rewrite Hc2. unfold line, added. by rewrite !TextFacts.app_assoc.
    + intros Hlf. rewrite !TextFacts.occurs_app in Hlf.
      apply orb_false_elim in Hlf as [Hp Hlf].
      apply orb_false_elim in Hlf as [H1 H2].
      unfold added. rewrite !TextFacts.count_app.
      rewrite (TextFacts.count_absent _ _ Hp).
      rewrite !(TextFacts.count_absent _ (StripColorCodes _))
        by (eapply StripColorCodes_no_LF; [reflexivity | done]).
      done.
Qed.

(** ** Opening the log file *)

#[local] Arguments Text.take : simpl never.

(** Run [OpenFile] on a world taken apart, using what is known of the
    file looked up. *)
Ltac run_OpenFile Hlookup :=
  unfold OpenFile, BackupLogFile, mbind, mret, M_bind, M_ret, call, throw,
    OS.Open, OS.Read, OS.Resize, OS.Copy, OS.DirectoryCreate, OS.content_of;
  simpl; repeat (progress (rewrite ?Hlookup; simpl)).

Ltac take_apart w :=
  let fo := fresh "fo" in
  destruct w as [fs ds [fo fr fm fc fz fw] hc tr]; simpl in *; subst.

(** [OpenFile] on a path that holds a non-empty file, no OS call failing:
    the calls made and the world left behind. *)
Lemma OpenFile_rotates (L : Logger) (w : World) (filePath old : string) :
  faults w = no_faults → files w !! filePath = Some old → old ≠ "" →
  OpenFile L filePath w
  = (Ok (set_file (opened filePath) filePath L),
     {| files :=
          <[filePath := ""]>
            (<[Text.c_str (backupPathOf filePath
                             (ExtractBackupNameAttachment (Text.take 256 old)))
               := old]> (files w));
        dirs := {[Text.c_str (backupDir filePath)]} ∪ dirs w;
        faults := faults w;
        has_console := has_console w;
        trace := trace w
                 ++ [EvOpen filePath; EvRead filePath 256;
                     EvMkdir (Text.c_str (backupDir filePath));
                     EvCopy filePath
                       (Text.c_str (backupPathOf filePath
                                      (ExtractBackupNameAttachment (Text.take 256 old))));
                     EvResize filePath 0] |}).
Proof.
  intros Hfaults Hold Hne. take_apart w.
  unfold no_faults in Hfaults. simplify_eq.
  run_OpenFile Hold. destruct old as [|ch old]; [done |].
  run_OpenFile Hold. unfold set_files, set_dirs, emit, opened. simpl.
  by rewrite <- !app_assoc.
Qed.

(** A path without a zero byte up to its last directory is cut, if at
    all, inside its file name. *)
Lemma c_str_under (directory slash name : string) :
  Text.occurs Text.NUL (directory +:+ slash) = false →
  Text.c_str (directory +:+ slash +:+ "LogBackups") = directory +:+ slash +:+ "LogBackups"
  ∧ Text.c_str ((directory +:+ slash +:+ "LogBackups") +:+ slash +:+ name)
    = (directory +:+ slash +:+ "LogBackups") +:+ slash +:+ Text.c_str name.
Proof.
  intros Hclean. rewrite TextFacts.occurs_app in Hclean.
  apply orb_false_elim in Hclean as [Hd Hs].
  assert (Hdir : Text.occurs Text.NUL (directory +:+ slash +:+ "LogBackups") = false).
  { rewrite !TextFacts.occurs_app, Hd, Hs. reflexivity. }
  unfold Text.c_str. split.
  - by apply TextFacts.before_absent.
  - rewrite <- (TextFacts.app_assoc _ slash name).
    rewrite TextFacts.before_app, TextFacts.app_assoc; [done |].
    by rewrite TextFacts.occurs_app, Hdir, Hs.
Qed.

(** C5, as amended.  No OS call failing: [OpenFile] on a path that does
    not exist or holds an empty file succeeds, leaves that file empty and
    changes no other file and no directory, so nothing appears under
    [LogBackups].  On a path holding a non-empty file it succeeds, creates
    the directory [<directory>/LogBackups] and leaves the files as they
    were but for two: the backup
    [<directory>/LogBackups/<base name without extension><attachment><extension>]
    (as the C string the copy is handed: a path without a zero byte up to
    that directory is cut, if at all, inside the file name) holds the whole
    old content, and the live file is empty.  When the backup's name was
    free before, it is the one new file; when a backup of that name was
    there, it is overwritten and no new file appears. *)
Theorem C5_open_file_backup (L : Logger) (w : World) (filePath : string) :
  faults w = no_faults →
  (files w !! filePath = None ∨ files w !! filePath = Some "" →
   ∃ L' w',
     OpenFile L filePath w = (Ok L', w')
     ∧ files w' = <[filePath := ""]> (files w)
     ∧ dirs w' = dirs w
     ∧ m_file L' = opened filePath)
  ∧ (∀ old,
       files w !! filePath = Some old → old ≠ "" →
       let name :=
         RemoveFileExtension (BaseName filePath)
         +:+ ExtractBackupNameAttachment (Text.take 256 old)
         +:+ GetFileExtension filePath in
       let backupDirectory :=
         Text.c_str (DirName filePath +:+ OS_PATH_SLASH +:+ "LogBackups") in
       let backupPath :=
         Text.c_str ((DirName filePath +:+ OS_PATH_SLASH +:+ "LogBackups")
                     +:+ OS_PATH_SLASH +:+ name) in
       ∃ L' w',
         OpenFile L filePath w = (Ok L', w')
         ∧ files w' = <[filePath := ""]> (<[backupPath := old]> (files w))
         ∧ dirs w' = {[backupDirectory]} ∪ dirs w
         ∧ m_file L' = opened filePath
         ∧ (Text.occurs Text.NUL (DirName filePath +:+ OS_PATH_SLASH) = false →
            backupDirectory = DirName filePath +:+ OS_PATH_SLASH +:+ "LogBackups"
            ∧ backupPath = backupDirectory +:+ OS_PATH_SLASH +:+ Text.c_str name)
         ∧ (backupPath ≠ filePath →
            files w' !! backupPath = Some old
            ∧ files w' !! filePath = Some ""
            ∧ (∀ other, other ≠ backupPath → other ≠ filePath →
                        files w' !! other = files w !! other)
            ∧ (files w !! backupPath = None →
               (backupPath ∉ dom (files w))
               ∧ dom (files w') = {[backupPath]} ∪ dom (files w))
            ∧ (is_Some (files w !! backupPath) →
               dom (files w') = dom (files w)))).
Proof.
  intros Hfaults. split.
  - intros [Hnew | Hempty]; take_apart w; unfold no_faults in Hfaults; simplify_eq.
    + run_OpenFile Hnew. by eexists _, _.
    + run_OpenFile Hempty. by eexists _, _.
  - intros old Hold Hne name backupDirectory backupPath.
    rewrite (OpenFile_rotates L w filePath old Hfaults Hold Hne).
    change (Text.c_str (backupPathOf filePath
                          (ExtractBackupNameAttachment (Text.take 256 old))))
      with backupPath.
    change (Text.c_str (backupDir filePath)) with backupDirectory.
    eexists _, _. split; [done |]. cbn [files dirs].
    split; [done |]. split; [done |]. split; [done |].
    assert (Hlive : filePath ∈ dom (files w)) by (apply elem_of_dom; eauto).
    split.
    + intros Hclean.
      destruct (c_str_under (DirName filePath) OS_PATH_SLASH name Hclean) as [Hd Hp].
      unfold backupPath, backupDirectory. by rewrite Hd, Hp.
    + intros Hother.
      split; [by rewrite lookup_insert_ne, lookup_insert_eq |].
      split; [by rewrite lookup_insert_eq |].
      split; [by intros other Hne1 Hne2; rewrite !lookup_insert_ne |].
      split.
      * intros Hfree. split; [by apply not_elem_of_dom |].
        rewrite !dom_insert_L. apply set_eq. intros other.
        rewrite !elem_of_union, !elem_of_singleton. split.
        -- intros [-> | [-> | Hin]]; [by right | by left | by right].
        -- intros [-> | Hin]; [right; by left | right; by right].
      * intros Htaken. apply elem_of_dom in Htaken.
        rewrite !dom_insert_L. apply set_eq. intros other.
        rewrite !elem_of_union, !elem_of_singleton. split.
        -- by intros [-> | [-> | Hin]].
        -- intros Hin. right. by right.
Qed.

(** ** The backup-name marker *)

Lemma Find_from_spec (ch : ascii) (s : string) (i : nat) :
  StringView.Find_from s ch i
  = if Text.occurs ch s
    then Some (i + String.length (Text.before ch s))%nat
    else None.
Proof.
  revert i. induction s as [|x s IH]; intros i; simpl; [done |].
  destruct (Ascii.eqb x ch); simpl; [f_equal; lia |].
  rewrite IH. destruct (Text.occurs ch s); [f_equal; lia | done].
Qed.

Lemma Find_spec (ch : ascii) (s : string) :
  StringView.Find s ch 0
  = if Text.occurs ch s then Some (String.length (Text.before ch s)) else None.
Proof.
  unfold StringView.Find. change (Text.drop 0 s) with s. by rewrite Find_from_spec.
Qed.

Lemma RemoveSuffix_before (ch : ascii) (s : string) :
  StringView.RemoveSuffix s (String.length s - String.length (Text.before ch s))
  = Text.before ch s.
Proof.
  unfold StringView.RemoveSuffix.
  pose proof (TextFacts.length_before ch s) as Hle.
  replace (_ - _)%nat with (String.length (Text.before ch s)) by lia.
  apply TextFacts.take_before.
Qed.

Lemma StartsWith_app (p s : string) :
  StringView.StartsWith s p = true → s = p +:+ Text.drop (String.length p) s.
Proof.
  unfold StringView.StartsWith. revert s.
  induction p as [|x p IH]; intros [|y s]; simpl; try done.
  destruct (ascii_dec x y) as [-> |]; [| done]. intros Hp. f_equal. by apply IH.
Qed.

(** What the code makes of a header that starts with
    [BackupNameAttachment=], whatever follows. *)
Lemma ExtractBackupNameAttachment_behind (rest : string) :
  ExtractBackupNameAttachment ("BackupNameAttachment=" +:+ rest)
  = let text :=
      if Text.occurs Text.DQUOTE rest then Text.behind Text.DQUOTE rest else rest in
    if Text.occurs Text.DQUOTE text then Text.before Text.DQUOTE text
    else if Text.occurs Text.CR text then Text.before Text.CR text
    else if Text.occurs Text.LF text then Text.before Text.LF text
    else text.
Proof.
  unfold ExtractBackupNameAttachment, StringView.StartsWith.
  rewrite TextFacts.prefix_app.
  assert (Hcut : StringView.RemovePrefix ("BackupNameAttachment=" +:+ rest)
                   (String.length "BackupNameAttachment=") = rest)
    by apply TextFacts.drop_app_length.
  cbv zeta. rewrite !Hcut.
  assert (Hend : ∀ text,
            match orelse (StringView.Find text Text.DQUOTE 0)
                    (orelse (StringView.Find text Text.CR 0)
                            (StringView.Find text Text.LF 0)) with
            | Some pos => StringView.RemoveSuffix text (String.length text - pos)
            | None => text
            end
            = if Text.occurs Text.DQUOTE text then Text.before Text.DQUOTE text
              else if Text.occurs Text.CR text then Text.before Text.CR text
              else if Text.occurs Text.LF text then Text.before Text.LF text
              else text).
  { intros text. rewrite !Find_spec.
    destruct (Text.occurs Text.DQUOTE text), (Text.occurs Text.CR text),
      (Text.occurs Text.LF text); simpl; by rewrite ?RemoveSuffix_before. }
  assert (Hstart : match StringView.Find rest Text.DQUOTE 0 with
                   | Some pos => StringView.RemovePrefix rest (pos + 1)
                   | None => rest
                   end
                   = if Text.occurs Text.DQUOTE rest
                     then Text.behind Text.DQUOTE rest else rest).
  { rewrite Find_spec. destruct (Text.occurs Text.DQUOTE rest) eqn:Hquote; [| done].
    by apply TextFacts.drop_before. }
  rewrite !Hstart. apply Hend.
Qed.

(** C6, as amended.  The marker counts only at the very start of the
    header: a header that does not start with [BackupNameAttachment=] gives
    the empty suffix, every other header is that text and a rest.  In the
    rest the value begins right behind the first double quote, wherever
    that quote stands, and at the start of the rest when it holds no quote;
    from there the value runs to the next double quote when there is one,
    otherwise to the first carriage return, otherwise to the first line
    feed, otherwise to the end of the header.  The header is what one read
    of 256 bytes returns from the start of the old file, and the value
    found is put between the base name and the extension in the path the
    file is copied to, which the copy takes as a C string; an old file
    that is empty is read and not copied. *)
Theorem C6_backup_name_attachment :
  (∀ header,
     StringView.StartsWith header "BackupNameAttachment=" = false →
     ExtractBackupNameAttachment header = "")
  ∧ (∀ header,
       StringView.StartsWith header "BackupNameAttachment=" = true →
       ∃ rest, header = "BackupNameAttachment=" +:+ rest)
  ∧ (∀ rest,
       let text :=
         if Text.occurs Text.DQUOTE rest then Text.behind Text.DQUOTE rest else rest in
       ExtractBackupNameAttachment ("BackupNameAttachment=" +:+ rest)
       = if Text.occurs Text.DQUOTE text then Text.before Text.DQUOTE text
         else if Text.occurs Text.CR text then Text.before Text.CR text
         else if Text.occurs Text.LF text then Text.before Text.LF text
         else text)
  ∧ (∀ L w filePath old,
       faults w = no_faults → files w !! filePath = Some old → old ≠ "" →
       trace (OpenFile L filePath w).2
       = trace w
         ++ [EvOpen filePath; EvRead filePath 256;
             EvMkdir (Text.c_str (DirName filePath +:+ OS_PATH_SLASH +:+ "LogBackups"));
             EvCopy filePath
               (Text.c_str
                  ((DirName filePath +:+ OS_PATH_SLASH +:+ "LogBackups")
                   +:+ OS_PATH_SLASH
                   +:+ RemoveFileExtension (BaseName filePath)
                   +:+ ExtractBackupNameAttachment (Text.take 256 old)
                   +:+ GetFileExtension filePath));
             EvResize filePath 0])
  ∧ (∀ L w filePath,
       faults w = no_faults → files w !! filePath = Some "" →
       trace (OpenFile L filePath w).2
       = trace w ++ [EvOpen filePath; EvRead filePath 256; EvResize filePath 0]).
Proof.
  split; [| split; [| split; [| split]]].
  - intros header Hstart. unfold ExtractBackupNameAttachment. by rewrite Hstart.
  - intros header Hstart. eexists. by apply StartsWith_app.
  - intros rest. apply ExtractBackupNameAttachment_behind.
  - intros L w filePath old Hfaults Hold Hne.
    by rewrite (OpenFile_rotates L w filePath old Hfaults Hold Hne).
  - intros L w filePath Hfaults Hempty. take_apart w.
    unfold no_faults in Hfaults. simplify_eq.
    run_OpenFile Hempty. by rewrite <- !app_assoc.
Qed.

End Claims.

(** * The properties on the host *)

Import Host.

(** ** C1 *)

Lemma C1_silent_at_minus_one :
  GetVerbosityLevel (logger (-1) (-1) "") = -1
  ∧ PushMessageV main_thread (logger (-1) (-1) "") (world ∅)
      eAlways (Z.lor FLAG_FILE FLAG_CONSOLE) (Some "always") []
    = (DroppedByVerbosity, logger (-1) (-1) "", world ∅).
Proof.
  split; [reflexivity |].
  apply (proj2 (proj2 (proj2 (@C1_required_level_and_drop windows)))).
  reflexivity.
Defined.

(** ** C2 *)

(** A submission with the Append flag that passes the filter builds a
    message whose prefix is rendered: the template [%%] gives it [% ]. *)
Lemma C2_append_message_has_prefix :
  has_flag (Z.lor FLAG_FILE FLAG_APPEND) FLAG_APPEND = true
  ∧ ∃ message,
      message_of (PushMessageV main_thread (logger 3 3 "%%") (world ∅)
                    eMessage (Z.lor FLAG_FILE FLAG_APPEND) (Some "joined") []).1.1
      = Some message
      ∧ has_flag (flags message) FLAG_APPEND = true
      ∧ prefix message = "% "
      ∧ prefix message ≠ "".
Proof.
  split; [reflexivity |]. eexists. split; [reflexivity |].
  split; [reflexivity |]. split; [reflexivity | discriminate].
Qed.

Lemma C2_two_writes_one_line :
  let first := note FLAG_FILE "P " "one" in
  let second := note (Z.lor FLAG_FILE FLAG_APPEND) "" " two" in
  let w := world {[ log_path := "" ]} in
  let after_first := WriteMessageToFile (logging 0) w first in
  let after_second := WriteMessageToFile after_first.1 after_first.2 second in
  (m_file (logging 0) = Some {| OS.fd_path := log_path; OS.fd_pos := 0 |}
   ∧ 0%nat = String.length (OS.content_of w log_path)
   ∧ write_fails (faults w) = false
   ∧ has_flag (flags first) FLAG_APPEND = false
   ∧ has_flag (flags second) FLAG_APPEND = true)
  ∧ OS.content_of after_second.2 log_path = "P one two" +:+ OS_NEWLINE.
Proof.
  intros first second w after_first after_second.
  split; [by repeat split |].
  exact (proj1 (proj2 (proj2 (@C2_append_joins_line windows))
                  (logging 0) w {| OS.fd_path := log_path; OS.fd_pos := 0 |}
                  first second eq_refl eq_refl eq_refl eq_refl eq_refl)).
Defined.

(** ** C3 *)

(** The file sink makes [warntext$more] of [warn$1text$$more], not
    [warntextmore]. *)
Lemma C3_dollar_pair_leaves_a_dollar :
  WriteMessageToFile_loop (String.length "warn$1text$$more") "warn$1text$$more" 0 ""
  = "warntext$more"
  ∧ WriteMessageToFile_loop (String.length "warn$1text$$more") "warn$1text$$more" 0 ""
    ≠ "warntextmore"
  ∧ file_buffer (note FLAG_FILE "" "warn$1text$$more") ≠ "warntextmore" +:+ OS_NEWLINE.
Proof. split; [reflexivity |]. split; vm_compute; discriminate. Qed.

Lemma C3_example_written :
  content (note FLAG_FILE "" "warn$1text$$more") = "warn$1text$$more"
  ∧ file_buffer (note FLAG_FILE "" "warn$1text$$more")
    = "warntext$more" +:+ OS_NEWLINE.
Proof.
  split; [reflexivity |].
  exact (proj2 (proj2 (proj2 (proj2 (@C3_color_codes_stripped windows))))
           (note FLAG_FILE "" "warn$1text$$more") eq_refl).
Defined.

(** ** C4 *)

Lemma C4_date_and_time :
  (now main_thread = clock ∧ bias main_thread = 0
   ∧ prefix (note 0 "" "") = ""
   ∧ cv_prefix (m_cvars (logger 3 3 "%F %T ")) = Some "%F %T ")
  ∧ rendered main_thread "%F %T " = "2024-01-05 08:30:15 "
  ∧ prefix (BuildMessagePrefix main_thread (logger 3 3 "%F %T ") (note 0 "" ""))
    = "2024-01-05 08:30:15  ".
Proof.
  split; [by repeat split |].
  exact (proj1 C4_prefix_expansion
           main_thread (logger 3 3 "%F %T ") (note 0 "" "")
           eq_refl eq_refl eq_refl eq_refl).
Defined.

(** ** C5 *)

(** C5 as stated fails when the backup's name is taken: the log of a second
    run is copied over the backup of the first, and no new file appears. *)
Lemma C5_backup_name_taken :
  let w := world (<[backup_path := "first run"]> {[ log_path := "second run" ]}) in
  ∃ L' w',
    OpenFile (logger 3 3 "") log_path w = (Ok L', w')
    ∧ files w !! log_path = Some "second run"
    ∧ files w !! backup_path = Some "first run"
    ∧ files w' !! backup_path = Some "second run"
    ∧ files w' !! log_path = Some ""
    ∧ dom (files w') = dom (files w)
    ∧ ¬ ∃ new, files w !! new = None ∧ is_Some (files w' !! new).
Proof.
  intros w.
  assert (Hlog : files w !! log_path = Some "second run") by reflexivity.
  assert (Hold : files w !! backup_path = Some "first run") by reflexivity.
  assert (Hne : "second run" ≠ "") by discriminate.
  assert (Hname : Text.c_str (backupPathOf log_path
                                (ExtractBackupNameAttachment (Text.take 256 "second run")))
                  = backup_path) by reflexivity.
  rewrite (OpenFile_rotates (logger 3 3 "") w log_path "second run" eq_refl Hlog Hne).
  rewrite Hname. eexists _, _. split; [done |]. cbn [files].
  assert (Hdom : dom (<[log_path := ""]> (<[backup_path := "second run"]> (files w)))
                 = dom (files w)).
  { rewrite !dom_insert_L. apply set_eq. intros other.
    rewrite !elem_of_union, !elem_of_singleton. split.
    - intros [-> | [-> | Hin]]; [| | done]; apply elem_of_dom; eauto.
    - intros Hin. right. by right. }
  split; [done |]. split; [done |].
  split; [by rewrite lookup_insert_ne, lookup_insert_eq |].
  split; [by rewrite lookup_insert_eq |].
  split; [done |].
  intros (new & Hfree & Hthere).
  apply not_elem_of_dom in Hfree. apply elem_of_dom in Hthere.
  rewrite Hdom in Hthere. done.
Qed.

Lemma C5_backup_of_old_log :
  (faults (world {[ log_path := "old log" ]}) = no_faults
   ∧ files (world {[ log_path := "old log" ]}) !! log_path = Some "old log"
   ∧ "old log" ≠ ""
   ∧ Text.occurs Text.NUL (DirName log_path +:+ OS_PATH_SLASH) = false
   ∧ backup_path ≠ log_path
   ∧ files (world {[ log_path := "old log" ]}) !! backup_path = None)
  ∧ ∃ L' w',
      OpenFile (logger 3 3 "") log_path (world {[ log_path := "old log" ]}) = (Ok L', w')
      ∧ files w' !! backup_path = Some "old log"
      ∧ files w' !! log_path = Some ""
      ∧ backup_path = "C:\game\LogBackups" +:+ "\" +:+ "Server.log"
      ∧ dirs w' = {[ "C:\game\LogBackups" ]} ∪ ∅
      ∧ dom (files w') = {[backup_path]} ∪ dom (files (world {[ log_path := "old log" ]})).
Proof.
  assert (Hfile : files (world {[ log_path := "old log" ]}) !! log_path = Some "old log")
    by reflexivity.
  assert (Hold : "old log" ≠ "") by discriminate.
  assert (Hclean : Text.occurs Text.NUL (DirName log_path +:+ OS_PATH_SLASH) = false)
    by reflexivity.
  assert (Hpath : backup_path ≠ log_path) by discriminate.
  assert (Hfree : files (world {[ log_path := "old log" ]}) !! backup_path = None)
    by reflexivity.
  split; [done |].
  pose proof (proj2 (@C5_open_file_backup windows (logger 3 3 "")
                       (world {[ log_path := "old log" ]}) log_path eq_refl)
                "old log" Hfile Hold) as Hrotated.
  cbv zeta in Hrotated.
  destruct Hrotated as (L' & w' & Hrun & _ & Hdirs & _ & Hunder & Hfiles).
  destruct (Hunder Hclean) as [Hdirectory Hname].
  destruct (Hfiles Hpath) as (Hbackup & Hlive & _ & Hnew & _).
  destruct (Hnew Hfree) as [_ Hdom].
  exists L', w'. split; [done |]. split; [exact Hbackup |]. split; [exact Hlive |].
  split; [exact Hname |]. split; [exact Hdirs | exact Hdom].
Defined.

(** ** C6 *)

(** C6 as stated fails: a marker on the second line of the header is not
    found; a value whose closing quote is missing runs on to a quote further
    down; an unquoted value is taken all the same; and a quote on a later
    line is taken for the opening quote. *)
Lemma C6_marker_read_differently :
  let second_line :=
    "first line" +:+ Text.char Text.LF
    +:+ "BackupNameAttachment=" +:+ quoted "foo" +:+ Text.char Text.LF in
  let open_quote :=
    "BackupNameAttachment=" +:+ Text.char Text.DQUOTE +:+ "foo" +:+ Text.char Text.LF
    +:+ "say " +:+ quoted "hi" in
  let unquoted :=
    "BackupNameAttachment=foo" +:+ Text.char Text.LF +:+ "rest" in
  let later_quote :=
    "BackupNameAttachment=junk" +:+ Text.char Text.LF
    +:+ "second line " +:+ quoted "x" +:+ " tail" in
  (MarkerBySpec.attachment second_line = "foo"
   ∧ ExtractBackupNameAttachment second_line = "")
  ∧ (MarkerBySpec.attachment open_quote = "foo"
     ∧ ExtractBackupNameAttachment open_quote = "foo" +:+ Text.char Text.LF +:+ "say ")
  ∧ (MarkerBySpec.attachment unquoted = ""
     ∧ ExtractBackupNameAttachment unquoted = "foo")
  ∧ (MarkerBySpec.attachment later_quote = ""
     ∧ ExtractBackupNameAttachment later_quote = "x")
  ∧ ExtractBackupNameAttachment second_line ≠ MarkerBySpec.attachment second_line
  ∧ ExtractBackupNameAttachment open_quote ≠ MarkerBySpec.attachment open_quote
  ∧ ExtractBackupNameAttachment unquoted ≠ MarkerBySpec.attachment unquoted
  ∧ ExtractBackupNameAttachment later_quote ≠ MarkerBySpec.attachment later_quote.
Proof. repeat split; vm_compute; discriminate. Qed.

Lemma C6_quoted_value_found :
  let rest :=
    quoted "_build7" +:+ String Text.CR (String Text.LF "Log started") in
  let header := "BackupNameAttachment=" +:+ rest in
  (StringView.StartsWith "Log started" "BackupNameAttachment=" = false
   ∧ StringView.StartsWith header "BackupNameAttachment=" = true
   ∧ faults (world {[ log_path := header ]}) = no_faults
   ∧ files (world {[ log_path := header ]}) !! log_path = Some header
   ∧ header ≠ "")
  ∧ ExtractBackupNameAttachment "Log started" = ""
  ∧ (∃ behind, header = "BackupNameAttachment=" +:+ behind)
  ∧ ExtractBackupNameAttachment header = "_build7"
  ∧ trace (OpenFile (logger 3 3 "") log_path (world {[ log_path := header ]})).2
    = [EvOpen log_path; EvRead log_path 256; EvMkdir "C:\game\LogBackups";
       EvCopy log_path "C:\game\LogBackups\Server_build7.log";
       EvResize log_path 0].
Proof.
  intros rest header.
  assert (Hfile : files (world {[ log_path := header ]}) !! log_path = Some header)
    by reflexivity.
  assert (Hne : header ≠ "") by discriminate.
  split; [by repeat split |].
  pose proof (@C6_backup_name_attachment windows)
    as (Hnone & Hsome & Hvalue & Hcopy & _).
  split; [exact (Hnone "Log started" eq_refl) |].
  split; [exact (Hsome header eq_refl) |].
  split; [exact (Hvalue rest) |].
  exact (Hcopy (logger 3 3 "") (world {[ log_path := header ]}) log_path header
           eq_refl Hfile Hne).
Defined.

(** ** C7 *)

Lemma C7_warning_kept_from_file :
  (GetRequiredVerbosity eWarning ≤ GetVerbosityLevel (logger 3 1 "")
   ∧ currentFileVerbosity (logger 3 1 "") < GetRequiredVerbosity eWarning)
  ∧ ∃ message,
      message_of (PushMessageV main_thread (logger 3 1 "") (world ∅)
                    eWarning (Z.lor FLAG_FILE FLAG_CONSOLE) (Some "low disk") []).1.1
      = Some message
      ∧ has_flag (flags message) FLAG_FILE = false
      ∧ has_flag (flags message) FLAG_CONSOLE = true.
Proof.
  assert (Hgate : GetRequiredVerbosity eWarning ≤ GetVerbosityLevel (logger 3 1 ""))
    by (vm_compute; discriminate).
  assert (Hfile : currentFileVerbosity (logger 3 1 "") < GetRequiredVerbosity eWarning)
    by reflexivity.
  split; [done |].
  destruct (@C7_file_leg_filtered windows main_thread (logger 3 1 "") (world ∅)
              eWarning (Z.lor FLAG_FILE FLAG_CONSOLE) "low disk" [] Hgate Hfile)
    as (message & Hbuilt & Hf & Hc & _).
  by exists message.
Defined.

(** ** C8 *)

(** A message queued by another thread is printed by the drain between its
    lock and its unlock. *)
Lemma C8_drain_writes_under_lock :
  let queued :=
    PushMessageV worker_thread (logger 3 3 "") (world ∅)
      eMessage FLAG_CONSOLE (Some "hello") [] in
  let drained := OnUpdate queued.1.2 queued.2 in
  trace drained.2
  = [EvLock; EvUnlock;
     EvLock; EvPrintLine "hello"; EvOnWriteToConsole 7 "hello" true; EvUnlock]
  ∧ sinks_outside_lock false (trace drained.2) = false.
Proof. split; reflexivity. Qed.

Lemma C8_producer_takes_the_lock :
  let message := note FLAG_CONSOLE "" "hello" in
  (PushMessageV worker_thread (logger 3 3 "") (world ∅)
     eMessage FLAG_CONSOLE (Some "hello") []).1.1 = Queued message
  ∧ PushMessageV worker_thread (logger 3 3 "") (world ∅)
      eMessage FLAG_CONSOLE (Some "hello") []
    = (Queued message, set_messages [message] (logger 3 3 ""),
       emit EvUnlock (emit EvLock (world ∅))).
Proof.
  intros message. split; [reflexivity |].
  exact (proj2 (proj2 (proj2 (@C8_drain_under_lock windows (logger 3 3 "") (world ∅))))
           worker_thread eMessage FLAG_CONSOLE "hello" [] message eq_refl).
Defined.

(** ** C9 *)

(** C9.  The claim fails at a failed read of the existing log: that error
    is thrown without any path, where the four other failures of the same
    call (open, directory creation, copy, truncate) each carry the paths
    concerned. *)
Lemma C9_read_error_without_path :
  let old := {[ log_path := "old log" ]} : gmap string string in
  let error_of (fl : Faults) := (OpenFile (logger 3 3 "") log_path (faulty_world fl old)).1 in
  error_of failing_read
  = Throw {| StringTools.err_format := "Failed to read the existing log file!";
             StringTools.err_args := [] |}
  ∧ (∀ e, error_of failing_read = Throw e → ¬ In log_path (StringTools.err_args e))
  ∧ error_of failing_open
    = Throw {| StringTools.err_format :=
                 "Failed to open log file!" +:+ Text.char Text.LF +:+ "=> %s";
               StringTools.err_args := [log_path] |}
  ∧ error_of failing_mkdir
    = Throw {| StringTools.err_format :=
                 "Failed to create log backup directory!" +:+ Text.char Text.LF
                 +:+ "=> %s";
               StringTools.err_args := ["C:\game\LogBackups"] |}
  ∧ error_of failing_copy
    = Throw {| StringTools.err_format :=
                 "Failed to copy the existing log file!" +:+ Text.char Text.LF
                 +:+ "<= %s" +:+ Text.char Text.LF +:+ "=> %s";
               StringTools.err_args := [log_path; backup_path] |}
  ∧ error_of failing_resize
    = Throw {| StringTools.err_format :=
                 "Failed to clear the existing log file!" +:+ Text.char Text.LF
                 +:+ "=> %s";
               StringTools.err_args := [log_path] |}.
Proof.
  intros old error_of.
  split; [reflexivity |].
  split; [| by repeat split].
  intros e He. vm_compute in He. injection He as <-. simpl. tauto.
Qed.

(** ** C10 *)

Lemma C10_no_file_no_write :
  m_file (logger 3 3 "") = None
  ∧ WriteMessageToFile (logger 3 3 "") (world ∅)
      (note (Z.lor FLAG_FILE FLAG_CONSOLE) "" "hello")
    = (logger 3 3 "", world ∅)
  ∧ trace (WriteMessage (logger 3 3 "") (world ∅)
             (note (Z.lor FLAG_FILE FLAG_CONSOLE) "" "hello")).2
    = [EvPrintLine "hello"; EvOnWriteToConsole 7 "hello" true].
Proof.
  split; [reflexivity |].
  split; [| reflexivity].
  exact (proj1 (@C10_no_open_file windows (logger 3 3 "") (world ∅)
                  (note (Z.lor FLAG_FILE FLAG_CONSOLE) "" "hello") eq_refl)).
Defined.


(** * The rest of the logger *)

Section Rest.
Context `{Platform}.

(** ** A submission, case by case *)

Lemma PushMessageV_dropped (c : Caller) (L : Logger) (w : World)
    (t : ELogType) (fl : Z) (format : string) (args : va_list) :
  GetVerbosityLevel L < GetRequiredVerbosity t →
  PushMessageV c L w t fl (Some format) args = (DroppedByVerbosity, L, w).
Proof. intros Hlt. unfold PushMessageV. by apply Z.ltb_lt in Hlt as ->. Qed.

Lemma PushMessageV_passed (c : Caller) (L : Logger) (w : World)
    (t : ELogType) (fl : Z) (format : string) (args : va_list) :
  GetRequiredVerbosity t ≤ GetVerbosityLevel L →
  PushMessageV c L w t fl (Some format) args
  = if (thread c =? m_mainThreadID L)%N
    then (Written (built c L t fl format args),
          (WriteMessage L w (built c L t fl format args)).1,
          (WriteMessage L w (built c L t fl format args)).2)
    else (Queued (built c L t fl format args),
          set_messages (m_messages L ++ [built c L t fl format args]) L,
          emit EvUnlock (emit EvLock w)).
Proof.
  intros Hge. unfold PushMessageV, built, currentFileVerbosity.
  apply Z.ltb_ge in Hge as ->.
  destruct (thread c =? m_mainThreadID L)%N; [| done].
  by destruct (WriteMessage _ _ _).
Qed.

Lemma built_flags (c : Caller) (L : Logger)
    (t : ELogType) (fl : Z) (format : string) (args : va_list) :
  flags (built c L t fl format args)
  = if currentFileVerbosity L <? GetRequiredVerbosity t
    then Z.land fl (unot FLAG_FILE) else fl.
Proof. unfold built, BuildMessageContent. simpl. by rewrite BuildMessagePrefix_flags. Qed.

(** ** The callback registry *)

Lemma count_occ_zero (l : list nat) (x : nat) :
  (count_occ Nat.eq_dec l x =? 0)%nat = true ↔ x ∉ l.
Proof.
  rewrite Nat.eqb_eq, <- count_occ_not_In. by rewrite list_elem_of_In.
Qed.

(** X1.  [AddCallback] keeps the registry free of duplicates, never drops
    or reorders what is registered, registers a callback that is not null,
    and adding the same callback again changes nothing. *)
Theorem X1_AddCallback_no_duplicates (L : Logger) (pCallback : option nat) :
  (NoDup (m_callbacks L) → NoDup (m_callbacks (AddCallback L pCallback)))
  ∧ AddCallback (AddCallback L pCallback) pCallback = AddCallback L pCallback
  ∧ (∀ cb, pCallback = Some cb → cb ∈ m_callbacks (AddCallback L pCallback))
  ∧ (∃ more, m_callbacks (AddCallback L pCallback) = m_callbacks L ++ more)
  ∧ AddCallback L None = L.
Proof.
  destruct pCallback as [cb|]; simpl.
  2:{ repeat split; try done. exists []. by rewrite app_nil_r. }
  destruct (count_occ Nat.eq_dec (m_callbacks L) cb =? 0)%nat eqn:Hcount.
  - apply count_occ_zero in Hcount.
    split; [| split; [| split; [| split]]]; try done.
    + intros Hnodup. simpl. apply NoDup_app. repeat split; [done | | apply NoDup_singleton].
      intros x Hx ->%list_elem_of_singleton. done.
    + simpl.
      assert (Hnow : (count_occ Nat.eq_dec (m_callbacks L ++ [cb]) cb =? 0)%nat = false).
      { apply not_true_iff_false. rewrite count_occ_zero. intros Hno. apply Hno.
        apply elem_of_app. right. by apply list_elem_of_singleton. }
      by rewrite Hnow.
    + intros cb' [= <-]. simpl. apply elem_of_app. right. by apply list_elem_of_singleton.
    + by exists [cb].
  - split; [| split; [| split; [| split]]]; try done.
    + by rewrite Hcount.
    + intros cb' [= <-]. apply not_true_iff_false in Hcount.
      rewrite count_occ_zero in Hcount. by apply dec_stable.
    + exists []. by rewrite app_nil_r.
Qed.

Lemma filter_out_absent (l : list nat) (cb : nat) :
  cb ∉ l → List.filter (λ x, negb (x =? cb)%nat) l = l.
Proof.
  induction l as [|x l IH]; intros Hno; [done |]. simpl.
  apply not_elem_of_cons in Hno as [Hne Hno].
  destruct (x =? cb)%nat eqn:E; [apply Nat.eqb_eq in E; congruence |].
  simpl. by rewrite IH.
Qed.

Lemma filter_out_app (l k : list nat) (cb : nat) :
  List.filter (λ x, negb (x =? cb)%nat) (l ++ k)
  = List.filter (λ x, negb (x =? cb)%nat) l ++ List.filter (λ x, negb (x =? cb)%nat) k.
Proof. apply List.filter_app. Qed.

(** X2.  [RemoveCallback] takes every entry of the callback out of the
    registry and keeps all the others; removing a callback that is not
    registered, or the null pointer, changes nothing; removing a callback
    right after adding it to a registry that did not hold it gives the
    logger back as it was. *)
Theorem X2_RemoveCallback_removes (L : Logger) (cb : nat) :
  (cb ∉ m_callbacks (RemoveCallback L (Some cb)))
  ∧ (∀ x, x ≠ cb →
          (x ∈ m_callbacks (RemoveCallback L (Some cb))) ↔ (x ∈ m_callbacks L))
  ∧ (NoDup (m_callbacks L) → NoDup (m_callbacks (RemoveCallback L (Some cb))))
  ∧ (cb ∉ m_callbacks L → RemoveCallback L (Some cb) = L)
  ∧ (cb ∉ m_callbacks L →
     RemoveCallback (AddCallback L (Some cb)) (Some cb) = L)
  ∧ RemoveCallback L None = L.
Proof.
  simpl. split; [| split; [| split; [| split; [| split]]]]; try done.
  - rewrite list_elem_of_In, filter_In. intros [_ Hne].
    by rewrite Nat.eqb_refl in Hne.
  - intros x Hne. rewrite !list_elem_of_In, filter_In. split; [by intros [? _] |].
    intros Hin. split; [done |]. apply negb_true_iff. by apply Nat.eqb_neq.
  - intros Hnodup. apply NoDup_ListNoDup. apply List.NoDup_filter.
    by apply NoDup_ListNoDup.
  - intros Hno. rewrite filter_out_absent by done. by destruct L.
  - intros Hno. apply count_occ_zero in Hno as Hcount. rewrite Hcount. simpl.
    rewrite filter_out_app, filter_out_absent by done. simpl.
    rewrite Nat.eqb_refl. simpl. rewrite app_nil_r. by destruct L.
Qed.

(** ** Verbosity *)

Lemma PushMessageV_is_dropped (c : Caller) (L : Logger) (w : World)
    (t : ELogType) (fl : Z) (format : string) (args : va_list) :
  is_dropped (PushMessageV c L w t fl (Some format) args).1.1
  = (GetVerbosityLevel L <? GetRequiredVerbosity t).
Proof.
  destruct (GetVerbosityLevel L <? GetRequiredVerbosity t) eqn:Hlt.
  - apply Z.ltb_lt in Hlt. by rewrite PushMessageV_dropped.
  - apply Z.ltb_ge in Hlt. rewrite PushMessageV_passed by done.
    by destruct (thread c =? m_mainThreadID L)%N.
Qed.

Lemma PushMessageV_message (c : Caller) (L : Logger) (w : World)
    (t : ELogType) (fl : Z) (format : string) (args : va_list) (message : Message) :
  message_of (PushMessageV c L w t fl (Some format) args).1.1 = Some message →
  GetRequiredVerbosity t ≤ GetVerbosityLevel L ∧ message = built c L t fl format args.
Proof.
  destruct (Z.lt_ge_cases (GetVerbosityLevel L) (GetRequiredVerbosity t)) as [Hlt | Hge].
  - by rewrite PushMessageV_dropped.
  - rewrite PushMessageV_passed by done.
    destruct (thread c =? m_mainThreadID L)%N; simpl; by intros [= <-].
Qed.

(** X3.  After [SetVerbosity] the console verbosity and the effective file
    verbosity are both the value set, with the console variables registered
    or not; a submission that passes the filter then keeps all its flags. *)
Theorem X3_SetVerbosity_sets_both (L : Logger) (verbosity : Z) :
  GetVerbosityLevel (SetVerbosity L verbosity) = verbosity
  ∧ currentFileVerbosity (SetVerbosity L verbosity) = verbosity
  ∧ (∀ c w t fl format args message,
       message_of (PushMessageV c (SetVerbosity L verbosity) w t fl
                     (Some format) args).1.1 = Some message →
       flags message = fl).
Proof.
  assert (Hconsole : GetVerbosityLevel (SetVerbosity L verbosity) = verbosity).
  { unfold GetVerbosityLevel, SetVerbosity. simpl.
    by destruct (cv_verbosity (m_cvars L)). }
  assert (Hfile : currentFileVerbosity (SetVerbosity L verbosity) = verbosity).
  { unfold currentFileVerbosity. rewrite Hconsole. unfold SetVerbosity. simpl.
    by destruct (cv_fileVerbosity (m_cvars L)). }
  split; [done |]. split; [done |].
  intros c w t fl format args message Hbuilt.
  apply PushMessageV_message in Hbuilt as [Hge ->].
  rewrite built_flags, Hfile. rewrite Hconsole in Hge.
  by apply Z.ltb_ge in Hge as ->.
Qed.

(** X4.  The filter is monotone in the console verbosity: a kind that
    passes at one verbosity passes at every higher one.  From verbosity 4 on
    nothing with a format is dropped, below 0 everything is. *)
Theorem X4_filter_monotone (t : ELogType) :
  (∀ c L w fl format args c' L' w' fl' format' args',
     GetVerbosityLevel L ≤ GetVerbosityLevel L' →
     is_dropped (PushMessageV c L w t fl (Some format) args).1.1 = false →
     is_dropped (PushMessageV c' L' w' t fl' (Some format') args').1.1 = false)
  ∧ (∀ c L w fl format args,
       4 ≤ GetVerbosityLevel L →
       is_dropped (PushMessageV c L w t fl (Some format) args).1.1 = false)
  ∧ (∀ c L w fl format args,
       GetVerbosityLevel L < 0 →
       PushMessageV c L w t fl (Some format) args = (DroppedByVerbosity, L, w)).
Proof.
  split; [| split].
  - intros c L w fl format args c' L' w' fl' format' args' Hle.
    rewrite !PushMessageV_is_dropped, !Z.ltb_ge. lia.
  - intros c L w fl format args Hfour.
    rewrite PushMessageV_is_dropped, Z.ltb_ge. destruct t; simpl; lia.
  - intros c L w fl format args Hneg. apply PushMessageV_dropped.
    destruct t; simpl; lia.
Qed.

(** X5.  [Log], [LogPlus], [LogToFile], [LogToFilePlus], [LogToConsole],
    [LogToConsolePlus] and [UpdateLoadingScreen] are dropped exactly below
    verbosity 3, [LogWarning] below 2 and [LogError] below 1.  A logger
    fresh from its constructor has verbosity 0, so it drops all of them. *)
Theorem X5_log_calls_by_verbosity (c : Caller) (L : Logger) (w : World)
    (format : string) (args : va_list) :
  let v := GetVerbosityLevel L in
  (is_dropped (Log c L w (Some format) args).1.1 = (v <? 3)
   ∧ is_dropped (LogPlus c L w (Some format) args).1.1 = (v <? 3)
   ∧ is_dropped (LogToFile c L w (Some format) args).1.1 = (v <? 3)
   ∧ is_dropped (LogToFilePlus c L w (Some format) args).1.1 = (v <? 3)
   ∧ is_dropped (LogToConsole c L w (Some format) args).1.1 = (v <? 3)
   ∧ is_dropped (LogToConsolePlus c L w (Some format) args).1.1 = (v <? 3)
   ∧ is_dropped (UpdateLoadingScreen c L w (Some format) args).1.1 = (v <? 3)
   ∧ is_dropped (LogWarning c L w (Some format) args).1.1 = (v <? 2)
   ∧ is_dropped (LogError c L w (Some format) args).1.1 = (v <? 1))
  ∧ (∀ c0,
       Log c (new_Logger c0) w (Some format) args
       = (DroppedByVerbosity, new_Logger c0, w)
       ∧ LogWarning c (new_Logger c0) w (Some format) args
         = (DroppedByVerbosity, new_Logger c0, w)
       ∧ LogError c (new_Logger c0) w (Some format) args
         = (DroppedByVerbosity, new_Logger c0, w)).
Proof.
  intros v. split.
  - unfold Log, LogPlus, LogToFile, LogToFilePlus, LogToConsole, LogToConsolePlus,
      UpdateLoadingScreen, LogWarning, LogError, LogV.
    by rewrite !PushMessageV_is_dropped.
  - intros c0. unfold Log, LogWarning, LogError, LogV.
    by rewrite !PushMessageV_dropped.
Qed.

(** ** The events of a write *)

Lemma WriteMessageToFile_trace (L : Logger) (w : World) (message : Message) :
  trace (WriteMessageToFile L w message).2 = trace w ++ file_events L message.
Proof.
  unfold file_events. destruct (m_file L) as [file|] eqn:Hfile.
  2:{ unfold WriteMessageToFile. rewrite Hfile. simpl. by rewrite app_nil_r. }
  rewrite (WriteMessageToFile_open _ _ _ _ Hfile). cbv zeta. cbn [fst snd].
  rewrite fire_trace, Write_trace.
  destruct (has_flag (flags message) FLAG_APPEND); cbn [fst snd].
  - destruct (SeekEnd_world file OS_NEWLINE_LENGTH w) as (_ & _ & _ & ->).
    rewrite SeekEnd_trace. by rewrite <- !app_assoc.
  - by rewrite <- !app_assoc.
Qed.

Lemma WriteMessageToConsole_trace (L : Logger) (w : World) (message : Message) :
  trace (WriteMessageToConsole L w message).2 = trace w ++ console_events L w message.
Proof.
  unfold WriteMessageToConsole, console_events.
  destruct (has_console w); simpl; [| by rewrite app_nil_r].
  rewrite fire_trace.
  destruct (has_flag (flags message) FLAG_APPEND); simpl; by rewrite <- app_assoc.
Qed.

Lemma WriteMessage_trace (L : Logger) (w : World) (message : Message) :
  trace (WriteMessage L w message).2
  = trace w
    ++ (if has_flag (flags message) FLAG_FILE then file_events L message else [])
    ++ (if has_flag (flags message) FLAG_CONSOLE
        then console_events L w message else []).
Proof.
  unfold WriteMessage.
  destruct (has_flag (flags message) FLAG_FILE).
  - destruct (WriteMessageToFile_effect L w message) as (_ & Hcbs & Hcon & _).
    pose proof (WriteMessageToFile_trace L w message) as Htrace.
    destruct (WriteMessageToFile L w message) as [L1 w1]. cbn [fst snd] in *.
    destruct (has_flag (flags message) FLAG_CONSOLE).
    + rewrite WriteMessageToConsole_trace, Htrace.
      unfold console_events. by rewrite Hcbs, Hcon, <- app_assoc.
    + simpl. by rewrite Htrace, app_nil_r.
  - destruct (has_flag (flags message) FLAG_CONSOLE).
    + by rewrite WriteMessageToConsole_trace.
    + simpl. by rewrite app_nil_r.
Qed.

Lemma WriteMessageToConsole_same (L : Logger) (w : World) (message : Message) :
  (WriteMessageToConsole L w message).1 = L
  ∧ files (WriteMessageToConsole L w message).2 = files w
  ∧ faults (WriteMessageToConsole L w message).2 = faults w.
Proof.
  destruct (WriteMessageToConsole_effect L w message) as (HL & Hfiles & _).
  split; [done |]. split; [done |].
  unfold WriteMessageToConsole. destruct (negb (has_console w)); [done |].
  cbn [snd].
  assert (Hfire : ∀ mk cbs w0, faults (fire mk cbs w0) = faults w0).
  { intros mk cbs. induction cbs as [|cb cbs IH]; intros w0; [done |].
    by rewrite fire_cons, IH. }
  rewrite Hfire. by destruct (has_flag _ _).
Qed.

(** X6.  A write adds to the trace the events of its file leg, when the
    message has the ToFile flag, and then those of its console leg, when it
    has the ToConsole flag.  Each leg is the write or print itself followed
    by one call of every registered callback, in the order of the registry,
    with the content as it was built and [isNewLine] set unless the message
    has the Append flag; the file leg of an Append message starts with the
    seek.  A leg whose sink is missing, file not open or no console, adds
    nothing. *)
Theorem X6_events_of_a_write (L : Logger) (w : World) (message : Message) :
  trace (WriteMessage L w message).2
  = trace w
    ++ (if has_flag (flags message) FLAG_FILE then file_events L message else [])
    ++ (if has_flag (flags message) FLAG_CONSOLE
        then console_events L w message else [])
  ∧ (m_file L = None → file_events L message = [])
  ∧ (has_console w = false → console_events L w message = [])
  ∧ (∀ file, m_file L = Some file →
       length (List.filter (λ e, match e with EvOnWriteToFile _ _ _ => true | _ => false end)
                 (file_events L message))
       = length (m_callbacks L))
  ∧ (has_console w = true →
     length (List.filter (λ e, match e with EvOnWriteToConsole _ _ _ => true | _ => false end)
               (console_events L w message))
     = length (m_callbacks L)).
Proof.
  split; [apply WriteMessage_trace |].
  split; [by unfold file_events; intros -> |].
  split; [by unfold console_events; intros -> |].
  split.
  - intros file Hfile. unfold file_events. rewrite Hfile. cbv zeta.
    rewrite !List.filter_app.
    assert (Hcbs : ∀ text flag (cbs : list nat),
              List.filter (λ e, match e with EvOnWriteToFile _ _ _ => true | _ => false end)
                (map (λ cb, EvOnWriteToFile cb text flag) cbs)
              = map (λ cb, EvOnWriteToFile cb text flag) cbs).
    { intros text flag cbs. induction cbs as [|cb cbs IH]; simpl; [done | by rewrite IH]. }
    rewrite Hcbs. destruct (has_flag _ _); simpl; by rewrite length_map.
  - intros Hcon. unfold console_events. rewrite Hcon. cbv zeta.
    rewrite List.filter_app.
    assert (Hcbs : ∀ text flag (cbs : list nat),
              List.filter (λ e, match e with EvOnWriteToConsole _ _ _ => true | _ => false end)
                (map (λ cb, EvOnWriteToConsole cb text flag) cbs)
              = map (λ cb, EvOnWriteToConsole cb text flag) cbs).
    { intros text flag cbs. induction cbs as [|cb cbs IH]; simpl; [done | by rewrite IH]. }
    rewrite Hcbs. destruct (has_flag _ _); simpl; by rewrite length_map.
Qed.

(** ** Which sink a call reaches *)

Lemma PushMessageV_outcomes (c : Caller) (L : Logger) (w : World)
    (t : ELogType) (fl : Z) (format : option string) (args : va_list) :
  PushMessageV c L w t fl format args = (DroppedNullFormat, L, w)
  ∨ PushMessageV c L w t fl format args = (DroppedByVerbosity, L, w)
  ∨ (∃ f, format = Some f ∧ thread c = m_mainThreadID L
          ∧ PushMessageV c L w t fl format args
            = (Written (built c L t fl f args),
               (WriteMessage L w (built c L t fl f args)).1,
               (WriteMessage L w (built c L t fl f args)).2))
  ∨ (∃ f, format = Some f ∧ thread c ≠ m_mainThreadID L
          ∧ PushMessageV c L w t fl format args
            = (Queued (built c L t fl f args),
               set_messages (m_messages L ++ [built c L t fl f args]) L,
               emit EvUnlock (emit EvLock w))).
Proof.
  destruct format as [f|]; [| by left].
  destruct (Z.lt_ge_cases (GetVerbosityLevel L) (GetRequiredVerbosity t)) as [Hlt | Hge].
  { right. left. by apply PushMessageV_dropped. }
  right. right. rewrite PushMessageV_passed by done.
  destruct (thread c =? m_mainThreadID L)%N eqn:E.
  - left. exists f. by apply N.eqb_eq in E.
  - right. exists f. by apply N.eqb_neq in E.
Qed.

Lemma built_has_flag (c : Caller) (L : Logger)
    (t : ELogType) (fl : Z) (format : string) (args : va_list) :
  has_flag (flags (built c L t fl format args)) FLAG_CONSOLE = has_flag fl FLAG_CONSOLE
  ∧ has_flag (flags (built c L t fl format args)) FLAG_APPEND = has_flag fl FLAG_APPEND
  ∧ (has_flag fl FLAG_FILE = false →
     has_flag (flags (built c L t fl format args)) FLAG_FILE = false).
Proof.
  rewrite built_flags. destruct (clear_file_flag fl) as (Hf & Hc & Ha).
  by destruct (_ <? _).
Qed.

Lemma file_events_kind (L : Logger) (message : Message) :
  forallb (λ e, negb (is_console_event e)) (file_events L message) = true
  ∧ forallb (λ e, negb (is_lock_event e)) (file_events L message) = true.
Proof.
  unfold file_events. destruct (m_file L); [| done]. cbv zeta.
  rewrite !forallb_app. destruct (has_flag _ _); simpl;
    split; by apply forallb_map_const.
Qed.

Lemma console_events_kind (L : Logger) (w : World) (message : Message) :
  forallb (λ e, negb (is_file_event e)) (console_events L w message) = true
  ∧ forallb (λ e, negb (is_lock_event e)) (console_events L w message) = true.
Proof.
  unfold console_events. destruct (has_console w); [| done]. cbv zeta.
  rewrite !forallb_app. destruct (has_flag _ _); simpl;
    split; by apply forallb_map_const.
Qed.

Lemma WriteMessage_console_only (L : Logger) (w : World) (message : Message) :
  has_flag (flags message) FLAG_FILE = false →
  (WriteMessage L w message).1 = L
  ∧ files (WriteMessage L w message).2 = files w.
Proof.
  intros Hfile. unfold WriteMessage. rewrite Hfile.
  destruct (has_flag (flags message) FLAG_CONSOLE); [| done].
  by destruct (WriteMessageToConsole_same L w message) as (-> & -> & _).
Qed.

(** X7.  [LogToFile] and [LogToFilePlus] never print and never tell a
    callback of a console write, whatever the state and the thread;
    [LogToConsole] and [LogToConsolePlus] never change a file, never move the
    file handle and never tell a callback of a file write. *)
Theorem X7_calls_for_one_sink (c : Caller) (L : Logger) (w : World)
    (format : option string) (args : va_list) :
  (∀ call, call = LogToFile ∨ call = LogToFilePlus →
     ∃ events,
       trace (call c L w format args).2 = trace w ++ events
       ∧ forallb (λ e, negb (is_console_event e)) events = true)
  ∧ (∀ call, call = LogToConsole ∨ call = LogToConsolePlus →
       files (call c L w format args).2 = files w
       ∧ m_file (call c L w format args).1.2 = m_file L
       ∧ ∃ events,
           trace (call c L w format args).2 = trace w ++ events
           ∧ forallb (λ e, negb (is_file_event e)) events = true).
Proof.
  split.
  - intros call Hcall.
    assert (Hfl : ∃ fl, call = (λ c L w, PushMessageV c L w eMessage fl)
                        ∧ has_flag fl FLAG_CONSOLE = false).
    { destruct Hcall as [-> | ->]; eexists; split; reflexivity. }
    destruct Hfl as (fl & -> & Hcon).
    destruct (PushMessageV_outcomes c L w eMessage fl format args)
      as [-> | [-> | [(f & -> & _ & ->) | (f & -> & _ & ->)]]]; cbn [fst snd].
    + exists []. by rewrite app_nil_r.
    + exists []. by rewrite app_nil_r.
    + rewrite WriteMessage_trace.
      destruct (built_has_flag c L eMessage fl f args) as (-> & _ & _).
      rewrite Hcon, app_nil_r. eexists. split; [done |].
      destruct (has_flag _ FLAG_FILE); [| done]. apply file_events_kind.
    + exists [EvLock; EvUnlock]. split; [| done]. simpl. by rewrite <- app_assoc.
  - intros call Hcall.
    assert (Hfl : ∃ fl, call = (λ c L w, PushMessageV c L w eMessage fl)
                        ∧ has_flag fl FLAG_FILE = false).
    { destruct Hcall as [-> | ->]; eexists; split; reflexivity. }
    destruct Hfl as (fl & -> & Hfile).
    destruct (PushMessageV_outcomes c L w eMessage fl format args)
      as [-> | [-> | [(f & -> & _ & ->) | (f & -> & _ & ->)]]]; cbn [fst snd].
    + repeat split. exists []. by rewrite app_nil_r.
    + repeat split. exists []. by rewrite app_nil_r.
    + destruct (built_has_flag c L eMessage fl f args) as (_ & _ & Hno).
      specialize (Hno Hfile).
      destruct (WriteMessage_console_only L w _ Hno) as [-> ->].
      split; [done |]. split; [done |].
      rewrite WriteMessage_trace, Hno. simpl. eexists. split; [done |].
      destruct (has_flag _ FLAG_CONSOLE); [| done]. apply console_events_kind.
    + repeat split. exists [EvLock; EvUnlock]. split; [| done].
      simpl. by rewrite <- app_assoc.
Qed.

(** X8.  A submission from a thread other than the one that built the
    logger touches no sink: the files and the file handle stay as they were,
    the trace gains nothing or the lock and unlock of the queue, and the
    queue gains nothing or the one message at its end.  A submission from
    the thread that built the logger leaves the queue alone and never takes
    the queue lock. *)
Theorem X8_producers_only_queue (c : Caller) (L : Logger) (w : World)
    (t : ELogType) (fl : Z) (format : option string) (args : va_list) :
  (thread c ≠ m_mainThreadID L →
   files (PushMessageV c L w t fl format args).2 = files w
   ∧ m_file (PushMessageV c L w t fl format args).1.2 = m_file L
   ∧ (trace (PushMessageV c L w t fl format args).2 = trace w
      ∨ trace (PushMessageV c L w t fl format args).2 = trace w ++ [EvLock; EvUnlock])
   ∧ (m_messages (PushMessageV c L w t fl format args).1.2 = m_messages L
      ∨ ∃ message,
          (PushMessageV c L w t fl format args).1.1 = Queued message
          ∧ m_messages (PushMessageV c L w t fl format args).1.2
            = m_messages L ++ [message]))
  ∧ (thread c = m_mainThreadID L →
     m_messages (PushMessageV c L w t fl format args).1.2 = m_messages L
     ∧ ∃ events,
         trace (PushMessageV c L w t fl format args).2 = trace w ++ events
         ∧ forallb (λ e, negb (is_lock_event e)) events = true).
Proof.
  destruct (PushMessageV_outcomes c L w t fl format args)
    as [-> | [-> | [(f & -> & Hmain & ->) | (f & -> & Hother & ->)]]]; cbn [fst snd].
  - split; intros _; repeat split; auto. exists []. by rewrite app_nil_r.
  - split; intros _; repeat split; auto. exists []. by rewrite app_nil_r.
  - split; [done |]. intros _.
    destruct (WriteMessage_effect L w (built c L t fl f args)) as (-> & ev & -> & Hev).
    split; [done |]. by exists ev.
  - split; [| done]. intros _. repeat split.
    + right. simpl. by rewrite <- app_assoc.
    + right. by eexists.
Qed.

(** ** The log file, write after write *)

Lemma take_drop (n : nat) (s : string) : Text.take n s +:+ Text.drop n s = s.
Proof.
  revert n. induction s as [|x s IH]; intros [|n]; simpl; try done.
  by rewrite IH.
Qed.

Lemma length_take (n : nat) (s : string) :
  (n ≤ String.length s)%nat → String.length (Text.take n s) = n.
Proof.
  revert n. induction s as [|x s IH]; intros [|n] Hn; simpl in *; try done; try lia.
  rewrite IH; [done | lia].
Qed.

Lemma length_file_buffer (message : Message) :
  (OS_NEWLINE_LENGTH ≤ String.length (file_buffer message))%nat.
Proof.
  rewrite file_buffer_spec, !TextFacts.length_app. unfold OS_NEWLINE_LENGTH. lia.
Qed.

(** Where the file sink puts its text when the handle stands at the end. *)
Lemma overlay_joined (log : string) (message : Message) :
  OS.overlay log
    (if has_flag (flags message) FLAG_APPEND
        && (OS_NEWLINE_LENGTH <=? String.length log)%nat
     then (String.length log - OS_NEWLINE_LENGTH)%nat else String.length log)
    (file_buffer message)
  = joined log message.
Proof.
  unfold joined.
  destruct (has_flag (flags message) FLAG_APPEND
            && (OS_NEWLINE_LENGTH <=? String.length log)%nat) eqn:Hcase.
  - apply andb_prop in Hcase as [_ Hfits]. apply Nat.leb_le in Hfits.
    set (n := (String.length log - OS_NEWLINE_LENGTH)%nat).
    pose proof (length_file_buffer message) as Hbuf.
    assert (Hn : String.length (Text.take n log) = n) by (apply length_take; lia).
    assert (Hsum : String.length (Text.take n log +:+ Text.drop n log)
                   = String.length log) by by rewrite take_drop.
    rewrite TextFacts.length_app, Hn in Hsum.
    pose proof (overlay_over_tail (Text.take n log) (Text.drop n log)
                  (file_buffer message)) as Hover.
    rewrite take_drop, Hn in Hover. apply Hover. lia.
  - apply overlay_at_end.
Qed.

Lemma length_joined (log : string) (message : Message) :
  String.length (joined log message)
  = ((if has_flag (flags message) FLAG_APPEND
         && (OS_NEWLINE_LENGTH <=? String.length log)%nat
      then (String.length log - OS_NEWLINE_LENGTH)%nat else String.length log)
     + String.length (file_buffer message))%nat.
Proof.
  unfold joined.
  destruct (has_flag (flags message) FLAG_APPEND
            && (OS_NEWLINE_LENGTH <=? String.length log)%nat) eqn:Hcase.
  - apply andb_prop in Hcase as [_ Hfits]. apply Nat.leb_le in Hfits.
    rewrite TextFacts.length_app, length_take; [done | lia].
  - by rewrite TextFacts.length_app.
Qed.

Lemma WriteMessageToFile_files (L : Logger) (w : World) (message : Message) (file : OS.File) :
  m_file L = Some file →
  write_fails (faults w) = false →
  OS.fd_pos file = String.length (OS.content_of w (OS.fd_path file)) →
  files (WriteMessageToFile L w message).2
  = <[OS.fd_path file := joined (OS.content_of w (OS.fd_path file)) message]> (files w)
  ∧ m_file (WriteMessageToFile L w message).1
    = Some {| OS.fd_path := OS.fd_path file;
              OS.fd_pos := String.length
                             (joined (OS.content_of w (OS.fd_path file)) message) |}.
Proof.
  intros Hfile Hok Hend.
  destruct (WriteMessageToFile_content L w message file Hfile Hok) as (_ & Hhandle & _).
  cbv zeta in Hhandle. rewrite Hend in Hhandle.
  rewrite length_joined. split; [| done].
  rewrite (WriteMessageToFile_open _ _ _ _ Hfile).
  cbv zeta. cbn [fst snd]. rewrite fire_files.
  set (sought := if has_flag (flags message) FLAG_APPEND
                 then OS.SeekEnd file OS_NEWLINE_LENGTH w else (file, w)).
  assert (Hs : OS.fd_path sought.1 = OS.fd_path file
               ∧ files sought.2 = files w ∧ faults sought.2 = faults w
               ∧ OS.fd_pos sought.1
                 = if has_flag (flags message) FLAG_APPEND
                      && (OS_NEWLINE_LENGTH
                          <=? String.length (OS.content_of w (OS.fd_path file)))%nat
                   then (String.length (OS.content_of w (OS.fd_path file))
                         - OS_NEWLINE_LENGTH)%nat
                   else String.length (OS.content_of w (OS.fd_path file))).
  { unfold sought. destruct (has_flag (flags message) FLAG_APPEND); [| done].
    destruct (SeekEnd_world file OS_NEWLINE_LENGTH w) as (Hf & _ & Hk & Hp).
    rewrite Hf, Hk, Hp, SeekEnd_handle. cbn [andb].
    by destruct (_ <=? _)%nat. }
  destruct Hs as (Hpath & Hfiles & Hfaults & Hposn).
  rewrite Write_ok by by rewrite Hfaults.
  cbn [snd set_files files].
  rewrite Hpath, Hposn, Hfiles, (content_of_files _ _ _ Hfiles).
  by rewrite overlay_joined.
Qed.

(** One write, the handle at the end and the write call succeeding: the
    files, the handle and the faults afterwards. *)
Lemma WriteMessage_files (L : Logger) (w : World) (message : Message) (file : OS.File) :
  m_file L = Some file →
  write_fails (faults w) = false →
  OS.fd_pos file = String.length (OS.content_of w (OS.fd_path file)) →
  let log := OS.content_of w (OS.fd_path file) in
  let log' := if has_flag (flags message) FLAG_FILE then joined log message else log in
  files (WriteMessage L w message).2
  = (if has_flag (flags message) FLAG_FILE
     then <[OS.fd_path file := joined log message]> (files w) else files w)
  ∧ OS.content_of (WriteMessage L w message).2 (OS.fd_path file) = log'
  ∧ m_file (WriteMessage L w message).1
    = Some {| OS.fd_path := OS.fd_path file; OS.fd_pos := String.length log' |}
  ∧ faults (WriteMessage L w message).2 = faults w.
Proof.
  intros Hfile Hok Hend log log'.
  assert (Hleg : ∃ L1 w1,
             (if has_flag (flags message) FLAG_FILE
              then WriteMessageToFile L w message else (L, w)) = (L1, w1)
             ∧ files w1 = (if has_flag (flags message) FLAG_FILE
                           then <[OS.fd_path file := joined log message]> (files w)
                           else files w)
             ∧ m_file L1 = Some {| OS.fd_path := OS.fd_path file;
                                   OS.fd_pos := String.length log' |}
             ∧ faults w1 = faults w).
  { unfold log'. destruct (has_flag (flags message) FLAG_FILE).
    - destruct (WriteMessageToFile_files L w message file Hfile Hok Hend) as [Hf Hh].
      destruct (WriteMessageToFile_content L w message file Hfile Hok) as (_ & _ & Hk).
      destruct (WriteMessageToFile L w message) as [L1 w1]. by exists L1, w1.
    - exists L, w. split; [done |]. split; [done |]. split; [| done].
      rewrite Hfile. unfold log. rewrite <- Hend. by destruct file. }
  destruct Hleg as (L1 & w1 & Hrun & Hfiles & Hhandle & Hfaults).
  unfold WriteMessage. rewrite Hrun.
  assert (Hrest : ∃ L2 w2,
             (if has_flag (flags message) FLAG_CONSOLE
              then WriteMessageToConsole L1 w1 message else (L1, w1)) = (L2, w2)
             ∧ L2 = L1 ∧ files w2 = files w1 ∧ faults w2 = faults w1).
  { destruct (has_flag (flags message) FLAG_CONSOLE); [| by exists L1, w1].
    destruct (WriteMessageToConsole_same L1 w1 message) as (HL & Hf & Hk).
    destruct (WriteMessageToConsole L1 w1 message) as [L2 w2]. by exists L2, w2. }
  destruct Hrest as (L2 & w2 & -> & -> & Hf2 & Hk2). cbn [fst snd].
  rewrite Hf2, Hk2, Hfiles. split; [done |]. split; [| done].
  unfold OS.content_of at 1. rewrite Hf2, Hfiles. unfold log'.
  destruct (has_flag (flags message) FLAG_FILE); [by rewrite lookup_insert_eq | done].
Qed.

Lemma WriteMessage_closed (L : Logger) (w : World) (message : Message) :
  m_file L = None →
  m_file (WriteMessage L w message).1 = None
  ∧ files (WriteMessage L w message).2 = files w
  ∧ faults (WriteMessage L w message).2 = faults w.
Proof.
  intros Hclosed. unfold WriteMessage.
  assert (WriteMessageToFile L w message = (L, w)) as ->
    by (unfold WriteMessageToFile; by rewrite Hclosed).
  assert ((if has_flag (flags message) FLAG_FILE then (L, w) else (L, w)) = (L, w)) as ->
    by by destruct (has_flag _ _).
  destruct (has_flag (flags message) FLAG_CONSOLE); [| done].
  by destruct (WriteMessageToConsole_same L w message) as (-> & -> & ->).
Qed.

Lemma at_end_WriteMessage (L : Logger) (w : World) (message : Message) :
  at_end L w → write_fails (faults w) = false →
  at_end (WriteMessage L w message).1 (WriteMessage L w message).2
  ∧ write_fails (faults (WriteMessage L w message).2) = false
  ∧ (OS.fd_path <$> m_file (WriteMessage L w message).1) = (OS.fd_path <$> m_file L).
Proof.
  intros Hend Hok. unfold at_end in *.
  destruct (m_file L) as [file|] eqn:Hfile.
  - destruct (WriteMessage_files L w message file Hfile Hok Hend) as (_ & Hc & -> & ->).
    cbn [OS.fd_path OS.fd_pos]. by rewrite Hc.
  - by destruct (WriteMessage_closed L w message Hfile) as (-> & _ & ->).
Qed.

Lemma at_end_write_all (queue : list Message) :
  ∀ L w,
    at_end L w → write_fails (faults w) = false →
    at_end (write_all L w queue).1 (write_all L w queue).2
    ∧ write_fails (faults (write_all L w queue).2) = false.
Proof.
  induction queue as [|message queue IH]; intros L w Hend Hok; [done |].
  rewrite write_all_cons.
  destruct (at_end_WriteMessage L w message Hend Hok) as (Hend1 & Hok1 & _).
  by apply IH.
Qed.

(** Run [OpenFile] on a world taken apart, whatever fails. *)
Ltac open_cases Hlookup :=
  unfold OpenFile, BackupLogFile, mbind, mret, M_bind, M_ret, call, throw,
    OS.Open, OS.Read, OS.Resize, OS.Copy, OS.DirectoryCreate, OS.content_of;
  simpl; repeat (progress (rewrite ?Hlookup; simpl)).

(** X9.  A call of [OpenFile] that returns leaves the log file empty and
    the handle at its start, whatever the file held before.  From then on
    the handle stands at the end of the file after every write, every
    submission and every drain, as long as no write call fails. *)
Theorem X9_handle_at_end :
  (∀ L w filePath L' w',
     OpenFile L filePath w = (Ok L', w') →
     m_file L' = opened filePath
     ∧ m_filePath L' = filePath
     ∧ OS.content_of w' filePath = ""
     ∧ at_end L' w')
  ∧ (∀ L w message,
       at_end L w → write_fails (faults w) = false →
       at_end (WriteMessage L w message).1 (WriteMessage L w message).2)
  ∧ (∀ c L w t fl format args,
       at_end L w → write_fails (faults w) = false →
       at_end (PushMessageV c L w t fl format args).1.2
              (PushMessageV c L w t fl format args).2)
  ∧ (∀ L w,
       at_end L w → write_fails (faults w) = false →
       at_end (OnUpdate L w).1 (OnUpdate L w).2).
Proof.
  split; [| split; [| split]].
  - intros L w filePath L' w' Hrun.
    assert (Hgoal : m_file L' = opened filePath ∧ m_filePath L' = filePath
                    ∧ files w' !! filePath = Some "").
    { destruct w as [fs ds [fo fr fm fc fz fw] hc tr].
      destruct (fs !! filePath) as [old|] eqn:Hold;
        [destruct old as [|ch old] |];
        destruct fo, fr, fm, fc, fz;
        revert Hrun; open_cases Hold; intros Hrun;
        try discriminate; injection Hrun as <- <-; simpl;
        by rewrite ?lookup_insert_eq. }
    destruct Hgoal as (Hfile & Hpath & Hlive).
    assert (Hcontent : OS.content_of w' filePath = "")
      by (unfold OS.content_of; by rewrite Hlive).
    repeat split; try done. unfold at_end. rewrite Hfile. simpl. by rewrite Hcontent.
  - intros L w message Hend Hok. by apply at_end_WriteMessage.
  - intros c L w t fl format args Hend Hok.
    destruct (PushMessageV_outcomes c L w t fl format args)
      as [-> | [-> | [(f & -> & _ & ->) | (f & -> & _ & ->)]]]; cbn [fst snd];
      try done.
    by apply at_end_WriteMessage.
  - intros L w Hend Hok. unfold OnUpdate.
    rewrite OnUpdate_loop_spec by lia. rewrite drop_0.
    destruct (at_end_write_all (m_messages L) L (emit EvLock w)) as [Hend1 _]; [done .. |].
    by destruct (write_all _ _ _) as [L1 w1].
Qed.

(** X10.  With the log file open, the handle at its end and the write call
    succeeding, a write of a message with the ToFile flag replaces the
    content of the log file by the old content joined with the message, and
    changes no other file; without the flag no file changes.  A message
    without the Append flag adds its prefix, its stripped content and a
    newline behind the log.  An Append message on a log that ends with a
    newline puts its stripped content in the place of that newline and a
    newline behind it, never its prefix; on a log shorter than a newline it
    is added behind the log. *)
Theorem X10_write_joins_the_log (L : Logger) (w : World) (message : Message) (file : OS.File) :
  m_file L = Some file → at_end L w → write_fails (faults w) = false →
  let log := OS.content_of w (OS.fd_path file) in
  files (WriteMessage L w message).2
  = (if has_flag (flags message) FLAG_FILE
     then <[OS.fd_path file := joined log message]> (files w) else files w)
  ∧ (has_flag (flags message) FLAG_APPEND = false →
     joined log message
     = log +:+ prefix message +:+ StripColorCodes (content message) +:+ OS_NEWLINE)
  ∧ (has_flag (flags message) FLAG_APPEND = true →
     ∀ line, log = line +:+ OS_NEWLINE →
             joined log message
             = line +:+ StripColorCodes (content message) +:+ OS_NEWLINE)
  ∧ (has_flag (flags message) FLAG_APPEND = true →
     (String.length log < OS_NEWLINE_LENGTH)%nat →
     joined log message = log +:+ StripColorCodes (content message) +:+ OS_NEWLINE).
Proof.
  intros Hfile Hend Hok log. unfold at_end in Hend. rewrite Hfile in Hend.
  destruct (WriteMessage_files L w message file Hfile Hok Hend) as (Hfiles & _).
  split; [done |]. unfold joined. rewrite file_buffer_spec.
  split; [| split].
  - by intros ->.
  - intros -> line Hline. rewrite Hline, TextFacts.length_app.
    fold OS_NEWLINE_LENGTH.
    assert ((OS_NEWLINE_LENGTH <=? String.length line + OS_NEWLINE_LENGTH)%nat = true) as ->
      by (apply Nat.leb_le; lia).
    replace (String.length line + OS_NEWLINE_LENGTH - OS_NEWLINE_LENGTH)%nat
      with (String.length line) by lia.
    by rewrite TextFacts.take_app_length.
  - intros -> Hshort.
    assert ((OS_NEWLINE_LENGTH <=? String.length log)%nat = false) as ->
      by (apply Nat.leb_gt; lia).
    done.
Qed.

Lemma write_all_log (queue : list Message) :
  ∀ L w file,
    m_file L = Some file →
    OS.fd_pos file = String.length (OS.content_of w (OS.fd_path file)) →
    write_fails (faults w) = false →
    OS.content_of (write_all L w queue).2 (OS.fd_path file)
    = log_after (OS.content_of w (OS.fd_path file)) queue
    ∧ (∀ other, other ≠ OS.fd_path file →
                files (write_all L w queue).2 !! other = files w !! other).
Proof.
  induction queue as [|message queue IH]; intros L w file Hfile Hend Hok; [done |].
  rewrite write_all_cons.
  destruct (WriteMessage_files L w message file Hfile Hok Hend)
    as (Hfiles & Hlog & Hhandle & Hfaults).
  destruct (IH _ (WriteMessage L w message).2 _ Hhandle) as [Hc Ho].
  { cbn [OS.fd_path OS.fd_pos]. by rewrite Hlog. }
  { by rewrite Hfaults. }
  cbn [OS.fd_path] in Hc, Ho. rewrite Hc, Hlog. split; [done |].
  intros other Hother. rewrite Ho, Hfiles by done.
  destruct (has_flag (flags message) FLAG_FILE); [| done].
  by rewrite lookup_insert_ne.
Qed.

Lemma log_after_cons (log : string) (message : Message) (queue : list Message) :
  log_after log (message :: queue)
  = log_after (if has_flag (flags message) FLAG_FILE then joined log message else log)
              queue.
Proof. done. Qed.

Lemma log_after_plain (queue : list Message) :
  ∀ log,
    Forall (λ message, has_flag (flags message) FLAG_FILE = true
                       ∧ has_flag (flags message) FLAG_APPEND = false) queue →
    log_after log queue
    = log +:+ foldr (λ message rest, file_buffer message +:+ rest) "" queue.
Proof.
  induction queue as [|message queue IH]; intros log Hall.
  { simpl. by rewrite TextFacts.app_nil_r. }
  apply Forall_cons in Hall as [[Hf Ha] Hall].
  rewrite log_after_cons, Hf, IH by done.
  unfold joined. rewrite Ha. simpl. by rewrite TextFacts.app_assoc.
Qed.

(** X11.  With the log file open, the handle at its end and the write call
    succeeding, a drain leaves in the log file the old content joined with
    the queued messages that have the ToFile flag, in the order of the queue,
    and changes no other file.  When none of the messages has the Append
    flag, that is the old content followed by the text of each message, one
    after the other. *)
Theorem X11_log_after_a_drain (L : Logger) (w : World) (file : OS.File) :
  m_file L = Some file → at_end L w → write_fails (faults w) = false →
  OS.content_of (OnUpdate L w).2 (OS.fd_path file)
  = log_after (OS.content_of w (OS.fd_path file)) (m_messages L)
  ∧ (∀ other, other ≠ OS.fd_path file →
              files (OnUpdate L w).2 !! other = files w !! other)
  ∧ (Forall (λ message, has_flag (flags message) FLAG_FILE = true
                        ∧ has_flag (flags message) FLAG_APPEND = false)
            (m_messages L) →
     log_after (OS.content_of w (OS.fd_path file)) (m_messages L)
     = OS.content_of w (OS.fd_path file)
       +:+ foldr (λ message rest, file_buffer message +:+ rest) "" (m_messages L)).
Proof.
  intros Hfile Hend Hok. unfold at_end in Hend. rewrite Hfile in Hend.
  destruct (write_all_log (m_messages L) L (emit EvLock w) file Hfile Hend Hok)
    as [Hlog Hothers].
  change (OS.content_of (emit EvLock w)) with (OS.content_of w) in Hlog.
  unfold OnUpdate. rewrite OnUpdate_loop_spec by lia. rewrite drop_0.
  destruct (write_all L (emit EvLock w) (m_messages L)) as [L1 w1].
  cbn [fst snd] in *. split; [done |]. split; [done |].
  apply log_after_plain.
Qed.

(** ** The template of the prefix *)

Lemma AddTimeZoneOffset_app (c : Caller) (result : string) :
  AddTimeZoneOffset c result = result +:+ AddTimeZoneOffset c "".
Proof.
  unfold AddTimeZoneOffset. destruct (bias c =? 0); [done |].
  by destruct (bias c <? 0).
Qed.

Lemma ExpandMessagePrefixSpecifier_app (c : Caller) (result : string) (specifier : ascii) :
  ExpandMessagePrefixSpecifier c result specifier
  = result +:+ ExpandMessagePrefixSpecifier c "" specifier.
Proof.
  unfold ExpandMessagePrefixSpecifier.
  repeat (destruct (Ascii.eqb specifier _); [done |]).
  destruct (Ascii.eqb specifier _); [apply AddTimeZoneOffset_app |].
  by rewrite TextFacts.app_nil_r.
Qed.

Lemma BuildMessagePrefix_loop_done (fuel : nat) (c : Caller)
    (template : string) (i : nat) (result : string) :
  (String.length template ≤ i)%nat →
  BuildMessagePrefix_loop fuel c template i result = result.
Proof.
  intros Hi. destruct fuel as [|fuel]; simpl; [done |].
  by rewrite TextFacts.get_beyond.
Qed.

(** The index loop of [BuildMessagePrefix], started anywhere in the
    template with fuel for what is left, appends the expansion of what is
    left. *)
Lemma BuildMessagePrefix_loop_spec (c : Caller) (fuel : nat) :
  ∀ (done rest result : string),
    (String.length rest ≤ fuel)%nat →
    BuildMessagePrefix_loop fuel c (done +:+ rest) (String.length done) result
    = result +:+ ExpandTemplate c rest.
Proof.
  induction fuel as [|fuel IH]; intros done rest result Hfuel.
  { destruct rest; simpl in Hfuel; [| lia]. simpl. by rewrite TextFacts.app_nil_r. }
  destruct rest as [|ch rest].
  { simpl. rewrite TextFacts.get_beyond; [| by rewrite TextFacts.length_app; simpl; lia].
    by rewrite TextFacts.app_nil_r. }
  simpl in Hfuel. cbn [BuildMessagePrefix_loop ExpandTemplate].
  rewrite TextFacts.get_app_length.
  destruct (Ascii.eqb ch "%") eqn:Hpercent.
  - apply Ascii.eqb_eq in Hpercent as ->.
    destruct rest as [|specifier rest].
    + rewrite TextFacts.get_beyond by (rewrite TextFacts.length_app; simpl; lia).
      rewrite BuildMessagePrefix_loop_done by (rewrite TextFacts.length_app; simpl; lia).
      by rewrite TextFacts.app_nil_r.
    + simpl in Hfuel.
      rewrite (TextFacts.app_char done "%" (String specifier rest)),
        <- (TextFacts.length_app_char done "%").
      rewrite TextFacts.get_app_length.
      replace (String.length done + 2)%nat
        with (String.length (done +:+ Text.char "%") + 1)%nat
        by (rewrite TextFacts.length_app_char; lia).
      rewrite (TextFacts.app_char (done +:+ Text.char "%") specifier rest),
        <- (TextFacts.length_app_char (done +:+ Text.char "%") specifier).
      rewrite IH by lia.
      by rewrite (ExpandMessagePrefixSpecifier_app c result), TextFacts.app_assoc.
  - rewrite (TextFacts.app_char done ch rest), <- (TextFacts.length_app_char done ch).
    rewrite IH by lia. by rewrite TextFacts.app_assoc.
Qed.

Lemma rendered_spec (c : Caller) (template : string) :
  rendered c template = ExpandTemplate c template.
Proof.
  unfold rendered. by rewrite (BuildMessagePrefix_loop_spec c _ "" template).
Qed.

Lemma ExpandTemplate_doubled (c : Caller) (text rest : string) :
  ExpandTemplate c (doubled "%" text +:+ rest) = text +:+ ExpandTemplate c rest.
Proof.
  induction text as [|x text IH]; [done |]. cbn [doubled].
  destruct (Ascii.eqb x "%") eqn:E.
  - apply Ascii.eqb_eq in E as ->. simpl. by rewrite IH.
  - simpl. by rewrite E, IH.
Qed.

Lemma unknown_specifier (c : Caller) (result : string) (x : ascii) :
  known_specifier x = false → ExpandMessagePrefixSpecifier c result x = result.
Proof.
  unfold known_specifier. cbn [Text.occurs]. rewrite !orb_false_iff.
  intros (H1 & H2 & H3 & H4 & H5 & H6 & H7 & H8 & H9 & H10 & H11 & H12 & _).
  unfold ExpandMessagePrefixSpecifier.
  rewrite (Ascii.eqb_sym x "%"), H1, (Ascii.eqb_sym x "t"), H2, (Ascii.eqb_sym x "d"), H3,
    (Ascii.eqb_sym x "m"), H4, (Ascii.eqb_sym x "Y"), H5, (Ascii.eqb_sym x "F"), H6,
    (Ascii.eqb_sym x "H"), H7, (Ascii.eqb_sym x "M"), H8, (Ascii.eqb_sym x "S"), H9,
    (Ascii.eqb_sym x "T"), H10, (Ascii.eqb_sym x "N"), H11, (Ascii.eqb_sym x "z"), H12.
  done.
Qed.

Lemma doubled_absent (ch : ascii) (text : string) :
  Text.occurs ch text = false → doubled ch text = text.
Proof.
  induction text as [|x text IH]; intros Hno; [done |]. simpl in *.
  apply orb_false_elim in Hno as [Hx Hno]. rewrite Hx. by rewrite IH.
Qed.

(** X12.  A text in which every [%] is written twice is a template that
    renders the text itself, at any time and on any thread, and it can be
    followed by any template: the rendering is the text and then the
    rendering of what follows.  So a template without [%] renders itself. *)
Theorem X12_doubled_percent_round_trip (c : Caller) (text : string) :
  rendered c (doubled "%" text) = text
  ∧ (∀ rest, rendered c (doubled "%" text +:+ rest) = text +:+ rendered c rest)
  ∧ (Text.occurs "%" text = false → rendered c text = text).
Proof.
  assert (Hctx : ∀ rest, rendered c (doubled "%" text +:+ rest) = text +:+ rendered c rest).
  { intros rest. by rewrite !rendered_spec, ExpandTemplate_doubled. }
  split; [| split; [done |]].
  - specialize (Hctx ""). rewrite TextFacts.app_nil_r in Hctx. rewrite Hctx.
    rewrite rendered_spec. simpl. by rewrite TextFacts.app_nil_r.
  - intros Hno. pose proof (doubled_absent "%" text Hno) as Hsame.
    specialize (Hctx ""). rewrite TextFacts.app_nil_r, Hsame in Hctx. rewrite Hctx.
    rewrite rendered_spec. simpl. by rewrite TextFacts.app_nil_r.
Qed.

(** X13.  A template that is not well formed is rendered all the same: a
    [%] followed by a character that is no specifier renders nothing for the
    two of them and the rendering goes on behind them; a [%] at the very end
    renders nothing. *)
Theorem X13_malformed_tokens_dropped (c : Caller) (text : string) :
  (∀ x rest,
     known_specifier x = false →
     rendered c (doubled "%" text +:+ String "%" (String x rest))
     = text +:+ rendered c rest)
  ∧ rendered c (doubled "%" text +:+ "%") = text.
Proof.
  split.
  - intros x rest Hx. rewrite !rendered_spec, ExpandTemplate_doubled.
    cbn [ExpandTemplate]. simpl. by rewrite unknown_specifier.
  - rewrite rendered_spec, ExpandTemplate_doubled. simpl.
    by rewrite TextFacts.app_nil_r.
Qed.

(** X14.  As the help text of [log_Prefix] says, [%F] is equivalent to
    [%Y-%m-%d] and [%T] to [%H:%M:%S]: behind any literal text and in front
    of any template, either renders the same at every clock reading. *)
Theorem X14_date_and_time_shorthands (c : Caller) (text rest : string) :
  rendered c (doubled "%" text +:+ "%F" +:+ rest)
  = rendered c (doubled "%" text +:+ "%Y-%m-%d" +:+ rest)
  ∧ rendered c (doubled "%" text +:+ "%T" +:+ rest)
    = rendered c (doubled "%" text +:+ "%H:%M:%S" +:+ rest).
Proof.
  rewrite !rendered_spec, !ExpandTemplate_doubled.
  split; f_equal; simpl; unfold ExpandMessagePrefixSpecifier; simpl;
    by repeat (rewrite TextFacts.app_assoc; simpl).
Qed.

(** ** The width of what a specifier renders *)

Lemma all_from_spec (P : N → bool) (count : nat) :
  ∀ start,
    all_from P count start = true →
    ∀ n, (start ≤ n < start + N.of_nat count)%N → P n = true.
Proof.
  induction count as [|count IH]; intros start Hall n Hn; [lia |].
  simpl in Hall. apply andb_prop in Hall as [Hstart Hall].
  destruct (N.eq_dec n start) as [-> | Hne]; [done |].
  apply (IH (N.succ start)); [done | lia].
Qed.

Lemma checked_below (P : N → bool) (bound : N) :
  all_from P (N.to_nat bound) 0 = true → ∀ n, (n < bound)%N → P n = true.
Proof. intros Hall n Hn. apply (all_from_spec _ _ _ Hall). lia. Qed.

Lemma fmt_u_2 (n : N) : (n < 100)%N → String.length (StringTools.fmt_u 2 n) = 2%nat.
Proof.
  intros Hn. apply Nat.eqb_eq.
  apply (checked_below (λ n, (String.length (StringTools.fmt_u 2 n) =? 2)%nat) 100);
    [by vm_compute | done].
Qed.

Lemma fmt_u_3 (n : N) : (n < 1000)%N → String.length (StringTools.fmt_u 3 n) = 3%nat.
Proof.
  intros Hn. apply Nat.eqb_eq.
  apply (checked_below (λ n, (String.length (StringTools.fmt_u 3 n) =? 3)%nat) 1000);
    [by vm_compute | done].
Qed.

Lemma fmt_u_4 (n : N) : (n < 10000)%N → String.length (StringTools.fmt_u 4 n) = 4%nat.
Proof.
  intros Hn. apply Nat.eqb_eq.
  apply (checked_below (λ n, (String.length (StringTools.fmt_u 4 n) =? 4)%nat) 10000);
    [by vm_compute | done].
Qed.

Lemma fmt_x_4 (n : N) : (n < 65536)%N → String.length (StringTools.fmt_x 4 n) = 4%nat.
Proof.
  intros Hn. apply Nat.eqb_eq.
  apply (checked_below (λ n, (String.length (StringTools.fmt_x 4 n) =? 4)%nat) 65536);
    [by vm_compute | done].
Qed.

(** X15.  [%z] renders [Z] at a zero bias.  At any other bias it renders a
    sign and the hours and minutes of the absolute bias, two digits each at
    least: the sign is [+] for a negative bias and [-] for a positive one,
    and the digits of a bias and of its opposite are the same.  For a bias
    of less than a hundred hours the offset is five characters wide. *)
Theorem X15_time_zone_offset (c : Caller) (result : string) :
  (bias c = 0 → AddTimeZoneOffset c result = result +:+ "Z")
  ∧ (bias c ≠ 0 →
     AddTimeZoneOffset c result
     = result +:+ (if bias c <? 0 then "+" else "-")
       +:+ StringTools.fmt_u 2 (Z.to_N (Z.abs (bias c) / 60))
       +:+ StringTools.fmt_u 2 (Z.to_N (Z.abs (bias c) mod 60)))
  ∧ (bias c ≠ 0 → -6000 < bias c < 6000 →
     String.length (AddTimeZoneOffset c result) = (String.length result + 5)%nat).
Proof.
  assert (Hform : bias c ≠ 0 →
            AddTimeZoneOffset c result
            = result +:+ (if bias c <? 0 then "+" else "-")
              +:+ StringTools.fmt_u 2 (Z.to_N (Z.abs (bias c) / 60))
              +:+ StringTools.fmt_u 2 (Z.to_N (Z.abs (bias c) mod 60))).
  { intros Hne. unfold AddTimeZoneOffset.
    apply Z.eqb_neq in Hne as Hne'. rewrite Hne'.
    destruct (bias c <? 0) eqn:Hneg.
    - apply Z.ltb_lt in Hneg.
      rewrite Z.quot_div_nonneg, Z.rem_mod_nonneg by lia.
      by rewrite (Z.abs_neq (bias c)) by lia.
    - apply Z.ltb_ge in Hneg.
      rewrite Z.quot_div_nonneg, Z.rem_mod_nonneg by lia.
      by rewrite (Z.abs_eq (bias c)) by lia. }
  split; [| split; [done |]].
  - intros Hzero. unfold AddTimeZoneOffset. by rewrite Hzero.
  - intros Hne Hrange. rewrite Hform by done.
    rewrite !TextFacts.length_app.
    rewrite !fmt_u_2.
    + destruct (bias c <? 0); simpl; lia.
    + pose proof (Z.mod_pos_bound (Z.abs (bias c)) 60). lia.
    + assert (Z.abs (bias c) / 60 < 100) by (apply Z.div_lt_upper_bound; lia).
      pose proof (Z.div_pos (Z.abs (bias c)) 60). lia.
Qed.

(** X16.  At a clock reading whose fields fit their widths (a year below
    10000, a millisecond below 1000, every other field below 100) each time
    specifier adds a text of fixed width to the prefix: two characters for
    [%d], [%m], [%H], [%M] and [%S], three for [%N], four for [%Y], ten for
    [%F] and eight for [%T]; [%t] adds four for a thread id below 65536. *)
Theorem X16_specifiers_of_fixed_width (c : Caller) (result : string) :
  fits (now c) →
  let added x :=
    (String.length (ExpandMessagePrefixSpecifier c result x)
     - String.length result)%nat in
  added "d"%char = 2%nat ∧ added "m"%char = 2%nat ∧ added "H"%char = 2%nat
  ∧ added "M"%char = 2%nat ∧ added "S"%char = 2%nat ∧ added "N"%char = 3%nat
  ∧ added "Y"%char = 4%nat ∧ added "F"%char = 10%nat ∧ added "T"%char = 8%nat
  ∧ ((thread c < 65536)%N → added "t"%char = 4%nat)
  ∧ String.length (rendered c "%F %T.%N") = 23%nat.
Proof.
  intros (Hy & Hm & Hd & Hh & Hmin & Hs & Hms) added. unfold added.
  repeat split; try intros Hthread;
    rewrite ?rendered_spec;
    repeat (unfold ExpandMessagePrefixSpecifier; simpl;
            rewrite ?TextFacts.length_app; simpl);
    rewrite ?fmt_u_2, ?fmt_u_3, ?fmt_u_4, ?fmt_x_4 by done; lia.
Qed.

(** ** Contents and color codes *)

Lemma StripColorCodes_doubled (text rest : string) :
  StripColorCodes (doubled "$" text +:+ rest)
  = NormalizeNewlines text +:+ StripColorCodes rest.
Proof.
  induction text as [|x text IH]; [done |]. cbn [doubled NormalizeNewlines].
  destruct (Ascii.eqb x "$") eqn:Hdollar.
  - apply Ascii.eqb_eq in Hdollar as ->. simpl. by rewrite IH.
  - simpl. rewrite Hdollar.
    destruct (Ascii.eqb x Text.LF); rewrite IH; [by rewrite TextFacts.app_assoc | done].
Qed.

Lemma NormalizeNewlines_plain (text : string) :
  Text.occurs Text.LF text = false → NormalizeNewlines text = text.
Proof.
  induction text as [|x text IH]; intros Hno; [done |]. simpl in *.
  apply orb_false_elim in Hno as [Hx Hno]. by rewrite Hx, IH.
Qed.

(** X17.  In a content, a [$] written twice comes out of the file sink as
    one [$]: a text whose every [$] is doubled is written as the text
    itself, line feeds turned into the platform newline, and the stripping
    goes on behind it.  A content without [$] is written with nothing lost,
    and one without [$] and without line feed is written as it is. *)
Theorem X17_doubled_dollar_round_trip (text : string) :
  (∀ rest, StripColorCodes (doubled "$" text +:+ rest)
           = NormalizeNewlines text +:+ StripColorCodes rest)
  ∧ StripColorCodes (doubled "$" text) = NormalizeNewlines text
  ∧ (Text.occurs "$" text = false → StripColorCodes text = NormalizeNewlines text)
  ∧ (Text.occurs "$" text = false → Text.occurs Text.LF text = false →
     ∀ message, content message = text →
                file_buffer message
                = (if has_flag (flags message) FLAG_APPEND then "" else prefix message)
                  +:+ text +:+ OS_NEWLINE).
Proof.
  assert (Hall : StripColorCodes (doubled "$" text) = NormalizeNewlines text).
  { pose proof (StripColorCodes_doubled text "") as Hd.
    rewrite TextFacts.app_nil_r in Hd. rewrite Hd. simpl.
    by rewrite TextFacts.app_nil_r. }
  split; [apply StripColorCodes_doubled |]. split; [done |].
  assert (Hplain : Text.occurs "$" text = false →
                   StripColorCodes text = NormalizeNewlines text).
  { intros Hno. by rewrite <- Hall, doubled_absent. }
  split; [done |].
  intros Hno Hlf message Hcontent.
  by rewrite file_buffer_spec, Hcontent, Hplain, NormalizeNewlines_plain.
Qed.

Lemma built_content (c : Caller) (L : Logger)
    (t : ELogType) (fl : Z) (format : string) (args : va_list) :
  content (built c L t fl format args)
  = match t with
    | eWarning | eWarningAlways => CRY_COLOR_CODE_YELLOW_STRING +:+ "[Warning] "
    | eError | eErrorAlways => CRY_COLOR_CODE_RED_STRING +:+ "[Error] "
    | eComment => CRY_COLOR_CODE_GRAY_STRING
    | eMessage | eAlways | eInput | eInputResponse => ""
    end +:+ FormatToV format args.
Proof.
  unfold built, BuildMessageContent. cbn [content set_content type].
  assert (Hc : ∀ m, content (BuildMessagePrefix c L m) = content m
                    ∧ type (BuildMessagePrefix c L m) = type m).
  { intros m. unfold BuildMessagePrefix. destruct (cv_prefix _); [| done].
    destruct (_ || _); [done |]. by destruct (negb _). }
  destruct (Hc {| type := t;
                  flags := (if currentFileVerbosity L <? GetRequiredVerbosity t
                            then Z.land fl (unot FLAG_FILE) else fl);
                  prefix := ""; content := "" |}) as [-> ->].
  done.
Qed.

(** X18.  The decoration of a kind reaches the console with its color
    marker and the file without it: the content built for a submission is
    the marker and tag of its kind followed by the formatted text, and the
    text the file sink makes of it is the prefix (unless the message has the
    Append flag), the bare tag, the stripped formatted text and a newline.
    The tag is [[Warning] ] for warnings, [[Error] ] for errors and empty for
    every other kind. *)
Theorem X18_decoration_in_file_and_console (c : Caller) (L : Logger) (w : World)
    (t : ELogType) (fl : Z) (format : string) (args : va_list) (message : Message) :
  message_of (PushMessageV c L w t fl (Some format) args).1.1 = Some message →
  content message = color_marker t +:+ plain_tag t +:+ FormatToV format args
  ∧ file_buffer message
    = (if has_flag fl FLAG_APPEND then "" else prefix message)
      +:+ plain_tag t +:+ StripColorCodes (FormatToV format args) +:+ OS_NEWLINE.
Proof.
  intros Hbuilt. apply PushMessageV_message in Hbuilt as [_ ->].
  rewrite file_buffer_spec, built_content.
  destruct (built_has_flag c L t fl format args) as (_ & -> & _).
  split; by destruct t.
Qed.

(** ** The prefix and the console variables *)

(** X19.  [SetPrefix] on a logger whose console variables are not
    registered changes no message: none gets a prefix.  On a logger whose
    prefix variable is registered the next message gets the new template
    rendered: nothing for the template [0] or the empty one, otherwise the
    rendered text and a space when that text is not empty.  Registering the
    console variables on a console that hands out fresh variables at their
    defaults brings the template set before into effect and leaves the
    console verbosity as it was, the file verbosity equal to it; without a
    console it changes nothing. *)
Theorem X19_prefix_needs_registration (c : Caller) (L : Logger) (template : string)
    (message : Message) :
  prefix message = "" →
  let expected :=
    if StringView.IsEmpty template || String.eqb template "0" then ""
    else if StringView.IsEmpty (rendered c template) then ""
         else rendered c template +:+ " " in
  (cv_prefix (m_cvars L) = None →
   BuildMessagePrefix c (SetPrefix L template) message = message)
  ∧ (cv_prefix (m_cvars L) ≠ None →
     prefix (BuildMessagePrefix c (SetPrefix L template) message) = expected)
  ∧ (∀ pConsole w,
       has_console w = true →
       RegisterString pConsole "log_Prefix" template = Some template →
       prefix (BuildMessagePrefix c
                 (RegisterConsoleVariables pConsole (SetPrefix L template) w) message)
       = expected)
  ∧ (∀ pConsole w,
       has_console w = true →
       cv_verbosity (m_cvars L) = None →
       (∀ name value, RegisterInt pConsole name value = Some value) →
       GetVerbosityLevel (RegisterConsoleVariables pConsole L w) = GetVerbosityLevel L
       ∧ currentFileVerbosity (RegisterConsoleVariables pConsole L w)
         = GetVerbosityLevel L)
  ∧ (∀ pConsole w,
       has_console w = false → RegisterConsoleVariables pConsole L w = L).
Proof.
  intros Hblank expected.
  assert (Hrender : ∀ L', cv_prefix (m_cvars L') = Some template →
                          prefix (BuildMessagePrefix c L' message) = expected).
  { intros L' Hcv. unfold BuildMessagePrefix, expected, rendered. rewrite Hcv, Hblank.
    destruct (StringView.IsEmpty template || String.eqb template "0"); [done |].
    by destruct (BuildMessagePrefix_loop _ _ _ _ _). }
  split; [| split; [| split; [| split]]].
  - intros Hnone. unfold BuildMessagePrefix, SetPrefix. simpl. by rewrite Hnone.
  - intros Hsome. apply Hrender. unfold SetPrefix. simpl.
    by destruct (cv_prefix (m_cvars L)).
  - intros pConsole w Hcon Hfresh. apply Hrender.
    unfold RegisterConsoleVariables. rewrite Hcon. simpl. done.
  - intros pConsole w Hcon Hnone Hfresh.
    unfold currentFileVerbosity, GetVerbosityLevel, RegisterConsoleVariables.
    rewrite Hcon, Hnone. simpl. by rewrite !Hfresh.
  - intros pConsole w Hcon. unfold RegisterConsoleVariables. by rewrite Hcon.
Qed.

(** ** Draining again, closing and opening again *)

(** X20.  A drain leaves nothing to drain: a second drain right after the
    first only takes and releases the lock, it writes nothing and leaves
    the logger as the first drain left it. *)
Theorem X20_second_drain_writes_nothing (L : Logger) (w : World) :
  OnUpdate (OnUpdate L w).1 (OnUpdate L w).2
  = ((OnUpdate L w).1, emit EvUnlock (emit EvLock (OnUpdate L w).2))
  ∧ (m_messages L = [] →
     OnUpdate L w = (set_messages [] L, emit EvUnlock (emit EvLock w))).
Proof.
  assert (Hempty : ∀ L0 w0, m_messages L0 = [] →
                            OnUpdate L0 w0
                            = (set_messages [] L0, emit EvUnlock (emit EvLock w0))).
  { intros L0 w0 Hq. unfold OnUpdate. by rewrite Hq. }
  split; [| apply Hempty].
  assert (Hfirst : ∃ L1, (OnUpdate L w).1 = set_messages [] L1).
  { unfold OnUpdate. destruct (OnUpdate_loop _ _ _ _) as [L1 w1]. by exists L1. }
  destruct Hfirst as [L1 ->]. by rewrite Hempty.
Qed.

Lemma OpenFile_new (L : Logger) (w : World) (filePath : string) :
  faults w = no_faults → files w !! filePath = None →
  OpenFile L filePath w
  = (Ok (set_file (opened filePath) filePath L),
     set_files (<[filePath := ""]> (files w)) (emit (EvOpen filePath) w)).
Proof.
  intros Hfaults Hnew. destruct w as [fs ds fl hc tr]. simpl in *. subst fl.
  by open_cases Hnew.
Qed.

(** X21.  What one session logs is what the next [OpenFile] backs up.  No
    OS call failing: open a path that does not exist, write one message with
    the ToFile flag and without the Append flag, close the file and open the
    same path again.  The second [OpenFile] succeeds, the backup (named with
    the attachment found in the first 256 bytes of the text written) holds
    exactly the text of the message, and the live file is empty again. *)
Theorem X21_next_open_backs_up_the_log (L : Logger) (w : World)
    (filePath : string) (message : Message) :
  faults w = no_faults → files w !! filePath = None →
  has_flag (flags message) FLAG_FILE = true →
  has_flag (flags message) FLAG_APPEND = false →
  file_buffer message ≠ "" →
  let backupPath :=
    Text.c_str
      (backupPathOf filePath
         (ExtractBackupNameAttachment (Text.take 256 (file_buffer message)))) in
  backupPath ≠ filePath →
  ∃ L1 w1 L3 w3,
    OpenFile L filePath w = (Ok L1, w1)
    ∧ OpenFile (CloseFile (WriteMessage L1 w1 message).1) filePath
        (WriteMessage L1 w1 message).2 = (Ok L3, w3)
    ∧ files w3 !! backupPath = Some (file_buffer message)
    ∧ files w3 !! filePath = Some ""
    ∧ m_file L3 = opened filePath.
Proof.
  intros Hfaults Hnew Hfile Happend Htext backupPath Hother.
  rewrite (OpenFile_new L w filePath Hfaults Hnew).
  set (L1 := set_file (opened filePath) filePath L).
  set (w1 := set_files (<[filePath := ""]> (files w)) (emit (EvOpen filePath) w)).
  assert (Hlog1 : OS.content_of w1 filePath = "").
  { unfold OS.content_of, w1. simpl. by rewrite lookup_insert_eq. }
  assert (Hok1 : write_fails (faults w1) = false) by (unfold w1; simpl; by rewrite Hfaults).
  destruct (WriteMessage_files L1 w1 message {| OS.fd_path := filePath; OS.fd_pos := 0 |})
    as (Hfiles & _ & _ & Hfaults2); [done | done | by cbn; rewrite Hlog1 |].
  cbn [OS.fd_path] in Hfiles. rewrite Hfile, Hlog1 in Hfiles.
  assert (Hjoined : joined "" message = file_buffer message).
  { unfold joined. by rewrite Happend. }
  rewrite Hjoined in Hfiles.
  assert (Hfaults3 : faults (WriteMessage L1 w1 message).2 = no_faults).
  { rewrite Hfaults2. unfold w1. simpl. done. }
  assert (Hlog3 : files (WriteMessage L1 w1 message).2 !! filePath
                  = Some (file_buffer message))
    by (by rewrite Hfiles, lookup_insert_eq).
  exists L1, w1. eexists _, _. split; [done |].
  split; [exact (OpenFile_rotates (CloseFile (WriteMessage L1 w1 message).1)
                   (WriteMessage L1 w1 message).2 filePath (file_buffer message)
                   Hfaults3 Hlog3 Htext) |].
  cbn [files]. fold backupPath.
  split; [by rewrite lookup_insert_ne, lookup_insert_eq |].
  split; [by rewrite lookup_insert_eq | done].
Qed.

(** ** A closed file *)

Lemma write_all_closed (queue : list Message) :
  ∀ L w,
    m_file L = None →
    m_file (write_all L w queue).1 = None ∧ files (write_all L w queue).2 = files w.
Proof.
  induction queue as [|message queue IH]; intros L w Hclosed; [done |].
  rewrite write_all_cons.
  destruct (WriteMessage_closed L w message Hclosed) as (Hc & Hf & _).
  destruct (IH _ (WriteMessage L w message).2 Hc) as [-> ->]. done.
Qed.

(** X22.  [CloseFile] and [ReleaseFile] leave the logger without a file
    and without a path, and [ReleaseFile] hands back the path to append to
    only when a file was open.  From then on no submission, no write and no
    drain changes a file or opens one. *)
Theorem X22_nothing_written_once_closed (L : Logger) :
  m_file (CloseFile L) = None ∧ m_filePath (CloseFile L) = ""
  ∧ (ReleaseFile L).2 = match m_file L with Some _ => CloseFile L | None => L end
  ∧ (ReleaseFile L).1
    = match m_file L with Some _ => Some (m_filePath L) | None => None end
  ∧ (∀ L0 w,
       m_file L0 = None →
       (∀ message, m_file (WriteMessage L0 w message).1 = None
                   ∧ files (WriteMessage L0 w message).2 = files w)
       ∧ (∀ c t fl format args,
            m_file (PushMessageV c L0 w t fl format args).1.2 = None
            ∧ files (PushMessageV c L0 w t fl format args).2 = files w)
       ∧ m_file (OnUpdate L0 w).1 = None
       ∧ files (OnUpdate L0 w).2 = files w).
Proof.
  split; [done |]. split; [done |].
  split; [unfold ReleaseFile; by destruct (m_file L) |].
  split; [unfold ReleaseFile; by destruct (m_file L) |].
  intros L0 w Hclosed.
  assert (Hwrite : ∀ message, m_file (WriteMessage L0 w message).1 = None
                              ∧ files (WriteMessage L0 w message).2 = files w).
  { intros message. by destruct (WriteMessage_closed L0 w message Hclosed) as (-> & -> & _). }
  split; [done |]. split.
  - intros c t fl format args.
    destruct (PushMessageV_outcomes c L0 w t fl format args)
      as [-> | [-> | [(f & -> & _ & ->) | (f & -> & _ & ->)]]]; cbn [fst snd];
      first [done | apply Hwrite].
  - unfold OnUpdate. rewrite OnUpdate_loop_spec by lia. rewrite drop_0.
    destruct (write_all_closed (m_messages L0) L0 (emit EvLock w) Hclosed) as [Hc Hf].
    by destruct (write_all _ _ _) as [L1 w1].
Qed.

(** ** Callbacks and writes together *)

(** X23.  A callback that has been removed is told of no later write, on
    either leg.  A callback that is registered is told of every later
    write to the open file and of every later print on the console. *)
Theorem X23_callbacks_follow_the_registry (L : Logger) (w : World) (message : Message)
    (cb : nat) :
  (∀ text flag,
     (EvOnWriteToFile cb text flag
        ∉ file_events (RemoveCallback L (Some cb)) message)
     ∧ (EvOnWriteToConsole cb text flag
          ∉ console_events (RemoveCallback L (Some cb)) w message))
  ∧ (cb ∈ m_callbacks L →
     (is_Some (m_file L) →
      EvOnWriteToFile cb (content message)
        (negb (has_flag (flags message) FLAG_APPEND)) ∈ file_events L message)
     ∧ (has_console w = true →
        EvOnWriteToConsole cb (content message)
          (negb (has_flag (flags message) FLAG_APPEND)) ∈ console_events L w message))
  ∧ cb ∈ m_callbacks (AddCallback L (Some cb)).
Proof.
  split; [| split].
  - intros text flag.
    assert (Hgone : cb ∉ m_callbacks (RemoveCallback L (Some cb))).
    { simpl. rewrite list_elem_of_In, filter_In. intros [_ Hne].
      by rewrite Nat.eqb_refl in Hne. }
    set (L' := RemoveCallback L (Some cb)) in *.
    split.
    + unfold file_events. destruct (m_file L'); [| by apply not_elem_of_nil].
      cbv zeta. rewrite !elem_of_app, list_elem_of_fmap.
      intros [Hseek | [Hwrite | (x & Heq & Hx)]].
      * destruct (has_flag _ _); [| by apply not_elem_of_nil in Hseek].
        by apply list_elem_of_singleton in Hseek.
      * by apply list_elem_of_singleton in Hwrite.
      * injection Heq as <- _ _. done.
    + unfold console_events. destruct (has_console w); [| by apply not_elem_of_nil].
      cbv zeta. rewrite elem_of_app, list_elem_of_fmap.
      intros [Hprint | (x & Heq & Hx)].
      * apply list_elem_of_singleton in Hprint. by destruct (has_flag _ _).
      * injection Heq as <- _ _. done.
  - intros Hin. split.
    + intros [file Hfile]. unfold file_events. rewrite Hfile. cbv zeta.
      rewrite !elem_of_app, list_elem_of_fmap. right. right. by exists cb.
    + intros Hcon. unfold console_events. rewrite Hcon. cbv zeta.
      rewrite elem_of_app, list_elem_of_fmap. right. by exists cb.
  - simpl. destruct (count_occ Nat.eq_dec (m_callbacks L) cb =? 0)%nat eqn:Hcount.
    + simpl. apply elem_of_app. right. by apply list_elem_of_singleton.
    + apply not_true_iff_false in Hcount. rewrite count_occ_zero in Hcount.
      by apply dec_stable.
Qed.

(** ** Logging leaves the setup alone *)

Lemma same_setup_refl (L : Logger) : same_setup L L.
Proof. by repeat split. Qed.

Lemma same_setup_WriteMessage (L : Logger) (w : World) (message : Message) :
  same_setup L (WriteMessage L w message).1.
Proof.
  unfold WriteMessage.
  assert (Hleg : same_setup L (WriteMessageToFile L w message).1).
  { unfold WriteMessageToFile. destruct (m_file L) as [file|]; [| apply same_setup_refl].
    cbv zeta. destruct (if has_flag _ _ then _ else _) as [file1 w1].
    destruct (OS.Write file1 _ w1) as [file2 w2]. by repeat split. }
  destruct (has_flag (flags message) FLAG_FILE).
  - destruct (WriteMessageToFile L w message) as [L1 w1]. cbn [fst] in Hleg.
    destruct (has_flag (flags message) FLAG_CONSOLE); [| done].
    by destruct (WriteMessageToConsole_same L1 w1 message) as (-> & _).
  - destruct (has_flag (flags message) FLAG_CONSOLE); [| apply same_setup_refl].
    destruct (WriteMessageToConsole_same L w message) as (-> & _). apply same_setup_refl.
Qed.

Lemma same_setup_trans (L L' L'' : Logger) :
  same_setup L L' → same_setup L' L'' → same_setup L L''.
Proof.
  intros (H1 & H2 & H3 & H4 & H5 & H6) (G1 & G2 & G3 & G4 & G5 & G6).
  repeat split; congruence.
Qed.

Lemma same_setup_write_all (queue : list Message) :
  ∀ L w, same_setup L (write_all L w queue).1.
Proof.
  induction queue as [|message queue IH]; intros L w; [apply same_setup_refl |].
  rewrite write_all_cons.
  eapply same_setup_trans; [apply (same_setup_WriteMessage L w message) | apply IH].
Qed.

(** X24.  No submission and no drain changes what the logger is set up
    with: the verbosity, the console variables, the thread it belongs to,
    the prefix, the path and the callbacks stay as they are, so the filter
    decides the next submission as it decided this one. *)
Theorem X24_logging_keeps_the_setup (L : Logger) (w : World) :
  (∀ c t fl format args,
     same_setup L (PushMessageV c L w t fl format args).1.2
     ∧ GetVerbosityLevel (PushMessageV c L w t fl format args).1.2 = GetVerbosityLevel L
     ∧ currentFileVerbosity (PushMessageV c L w t fl format args).1.2
       = currentFileVerbosity L)
  ∧ same_setup L (OnUpdate L w).1.
Proof.
  assert (Hlevels : ∀ L', same_setup L L' →
                          GetVerbosityLevel L' = GetVerbosityLevel L
                          ∧ currentFileVerbosity L' = currentFileVerbosity L).
  { intros L' (Hv & Hc & _). unfold currentFileVerbosity, GetVerbosityLevel.
    by rewrite Hv, Hc. }
  split.
  - intros c t fl format args.
    assert (Hsame : same_setup L (PushMessageV c L w t fl format args).1.2).
    { destruct (PushMessageV_outcomes c L w t fl format args)
        as [-> | [-> | [(f & -> & _ & ->) | (f & -> & _ & ->)]]]; cbn [fst snd];
        try apply same_setup_refl.
      - apply same_setup_WriteMessage.
      - by repeat split. }
    split; [done |]. by apply Hlevels.
  - unfold OnUpdate. rewrite OnUpdate_loop_spec by lia. rewrite drop_0.
    pose proof (same_setup_write_all (m_messages L) L (emit EvLock w)) as Hsame.
    destruct (write_all _ _ _) as [L1 w1]. cbn [fst] in *.
    destruct Hsame as (H1 & H2 & H3 & H4 & H5 & H6). by repeat split.
Qed.

(** ** Many producers, one drain *)

Lemma built_same_setup (c : Caller) (L L' : Logger)
    (t : ELogType) (fl : Z) (format : string) (args : va_list) :
  same_setup L L' → built c L' t fl format args = built c L t fl format args.
Proof.
  intros (Hv & Hc & _). unfold built, currentFileVerbosity, GetVerbosityLevel.
  rewrite Hv, Hc. f_equal. unfold BuildMessagePrefix. by rewrite Hc.
Qed.

Lemma submit_all_cons (L : Logger) (w : World) (sub : Submission) (subs : list Submission) :
  submit_all L w (sub :: subs)
  = submit_all
      (PushMessageV (sub_caller sub) L w (sub_type sub) (sub_flags sub)
         (Some (sub_format sub)) (sub_args sub)).1.2
      (PushMessageV (sub_caller sub) L w (sub_type sub) (sub_flags sub)
         (Some (sub_format sub)) (sub_args sub)).2
      subs.
Proof. done. Qed.

Lemma submit_all_queue (subs : list Submission) :
  ∀ L0 L w,
    same_setup L0 L →
    Forall (λ sub, thread (sub_caller sub) ≠ m_mainThreadID L0
                   ∧ GetRequiredVerbosity (sub_type sub) ≤ GetVerbosityLevel L0) subs →
    m_messages (submit_all L w subs).1
    = m_messages L
      ++ map (λ sub, built (sub_caller sub) L0 (sub_type sub) (sub_flags sub)
                       (sub_format sub) (sub_args sub)) subs
    ∧ files (submit_all L w subs).2 = files w
    ∧ m_file (submit_all L w subs).1 = m_file L.
Proof.
  induction subs as [|sub subs IH]; intros L0 L w Hsame Hall.
  { simpl. by rewrite app_nil_r. }
  apply Forall_cons in Hall as [[Hthread Hpass] Hall].
  rewrite submit_all_cons.
  assert (Hv : GetVerbosityLevel L = GetVerbosityLevel L0).
  { destruct Hsame as (Hv & Hc & _). unfold GetVerbosityLevel. by rewrite Hv, Hc. }
  rewrite PushMessageV_passed by by rewrite Hv.
  assert (Hmain : m_mainThreadID L = m_mainThreadID L0) by apply Hsame.
  assert ((thread (sub_caller sub) =? m_mainThreadID L)%N = false) as ->
    by (apply N.eqb_neq; by rewrite Hmain).
  cbn [fst snd].
  destruct (IH L0 (set_messages
                     (m_messages L ++ [built (sub_caller sub) L (sub_type sub)
                                         (sub_flags sub) (sub_format sub) (sub_args sub)]) L)
              (emit EvUnlock (emit EvLock w))) as (Hq & Hf & Hh); [| done |].
  { destruct Hsame as (H1 & H2 & H3 & H4 & H5 & H6). by repeat split. }
  rewrite Hq, Hf, Hh. split; [| done].
  simpl. rewrite <- app_assoc. simpl. by rewrite (built_same_setup _ L0 L).
Qed.

(** X25.  Submissions from threads other than the logger's own, each
    passing the console verbosity, are queued one message each in the order
    they are made, behind what the queue held, and change no file.  With the
    log file open, the handle at its end and the write call succeeding, the
    drain that follows leaves in the file the old content joined with those
    messages in that order. *)
Theorem X25_producers_then_drain (L : Logger) (w : World) (subs : list Submission) :
  Forall (λ sub, thread (sub_caller sub) ≠ m_mainThreadID L
                 ∧ GetRequiredVerbosity (sub_type sub) ≤ GetVerbosityLevel L) subs →
  let messages :=
    map (λ sub, built (sub_caller sub) L (sub_type sub) (sub_flags sub)
                  (sub_format sub) (sub_args sub)) subs in
  m_messages (submit_all L w subs).1 = m_messages L ++ messages
  ∧ length (m_messages (submit_all L w subs).1)
    = (length (m_messages L) + length subs)%nat
  ∧ files (submit_all L w subs).2 = files w
  ∧ (∀ file,
       m_file L = Some file → at_end L w → write_fails (faults w) = false →
       OS.content_of (OnUpdate (submit_all L w subs).1 (submit_all L w subs).2).2
         (OS.fd_path file)
       = log_after (OS.content_of w (OS.fd_path file)) (m_messages L ++ messages)).
Proof.
  intros Hall messages.
  destruct (submit_all_queue subs L L w (same_setup_refl L) Hall) as (Hq & Hf & Hh).
  split; [done |]. split; [by rewrite Hq, length_app, length_map |]. split; [done |].
  intros file Hfile Hend Hok. unfold at_end in Hend. rewrite Hfile in Hend.
  assert (Hfaults : ∀ subs L w, faults (submit_all L w subs).2 = faults w).
  { clear. intros subs. induction subs as [|sub subs IH]; intros L w; [done |].
    rewrite submit_all_cons, IH.
    destruct (PushMessageV_outcomes (sub_caller sub) L w (sub_type sub) (sub_flags sub)
                (Some (sub_format sub)) (sub_args sub))
      as [-> | [-> | [(f & _ & _ & ->) | (f & _ & _ & ->)]]]; cbn [snd]; try done.
    destruct (m_file L) as [file|] eqn:Hfile.
    - unfold WriteMessage.
      assert (Hleg : faults (WriteMessageToFile L w (built (sub_caller sub) L (sub_type sub)
                               (sub_flags sub) f (sub_args sub))).2 = faults w).
      { rewrite (WriteMessageToFile_open _ _ _ _ Hfile). cbv zeta. cbn [snd].
        assert (Hfire : ∀ mk cbs w0, faults (fire mk cbs w0) = faults w0).
        { intros mk cbs. induction cbs as [|cb cbs IHc]; intros w0; [done |].
          by rewrite fire_cons, IHc. }
        rewrite Hfire. unfold OS.Write. cbn [emit faults].
        set (sought := if has_flag _ _ then _ else _).
        assert (faults sought.2 = faults w) as Hs.
        { unfold sought. destruct (has_flag _ _); [| done].
          by destruct (SeekEnd_world file OS_NEWLINE_LENGTH w) as (_ & _ & -> & _). }
        destruct (write_fails (faults sought.2)); cbn [snd set_files faults emit]; done. }
      destruct (has_flag _ FLAG_FILE).
      + destruct (WriteMessageToFile L w _) as [L1 w1]. cbn [snd] in Hleg.
        destruct (has_flag _ FLAG_CONSOLE); [| done].
        by destruct (WriteMessageToConsole_same L1 w1
                       (built (sub_caller sub) L (sub_type sub) (sub_flags sub) f
                          (sub_args sub))) as (_ & _ & ->).
      + destruct (has_flag _ FLAG_CONSOLE); [| done].
        by destruct (WriteMessageToConsole_same L w
                       (built (sub_caller sub) L (sub_type sub) (sub_flags sub) f
                          (sub_args sub))) as (_ & _ & ->).
    - by destruct (WriteMessage_closed L w
                     (built (sub_caller sub) L (sub_type sub) (sub_flags sub) f
                        (sub_args sub)) Hfile) as (_ & _ & ->). }
  destruct (write_all_log (m_messages (submit_all L w subs).1)
              (submit_all L w subs).1 (emit EvLock (submit_all L w subs).2) file)
    as [Hlog _].
  { by rewrite Hh. }
  { change (OS.content_of (emit EvLock ?x)) with (OS.content_of x).
    unfold OS.content_of. by rewrite Hf. }
  { cbn [emit faults]. by rewrite Hfaults. }
  change (OS.content_of (emit EvLock ?x)) with (OS.content_of x) in Hlog.
  unfold OnUpdate. rewrite OnUpdate_loop_spec by lia. rewrite drop_0.
  destruct (write_all _ (emit EvLock _) _) as [L1 w1]. cbn [fst snd] in *.
  change (OS.content_of (emit EvUnlock w1)) with (OS.content_of w1).
  rewrite Hlog, Hq. unfold OS.content_of. by rewrite Hf.
Qed.

(** ** Failures of [OpenFile] *)

Ltac world_apart w :=
  let fo := fresh "fo" in
  destruct w as [fs ds [fo fr fm fc fz fw] hc tr]; simpl in *; subst.

(** X26.  Each OS call of [OpenFile] that fails ends it with the error of
    that call, after one attempt: the events of the call are the OS calls
    made so far, each once, the failed one last.  The error names the
    operation in its format; it carries the file for a failed open or
    truncate, the backup directory for a failed directory creation, the
    file and the backup for a failed copy (directory and backup as the C
    strings handed to the call), and nothing for a failed read.  Writing
    a message whose write call fails leaves every file as it was. *)
Theorem X26_failures_of_OpenFile (L : Logger) (w : World) (filePath : string) :
  let backupDirectory :=
    Text.c_str (DirName filePath +:+ OS_PATH_SLASH +:+ "LogBackups") in
  let backupPath (old : string) :=
    Text.c_str ((DirName filePath +:+ OS_PATH_SLASH +:+ "LogBackups")
                +:+ OS_PATH_SLASH
                +:+ RemoveFileExtension (BaseName filePath)
                +:+ ExtractBackupNameAttachment (Text.take 256 old)
                +:+ GetFileExtension filePath) in
  (open_fails (faults w) = true →
   (OpenFile L filePath w).1 = thrown OPEN_FAILED [filePath]
   ∧ trace (OpenFile L filePath w).2 = trace w ++ [EvOpen filePath])
  ∧ (∀ old,
       open_fails (faults w) = false → files w !! filePath = Some old →
       read_fails (faults w) = true →
       (OpenFile L filePath w).1 = thrown READ_FAILED []
       ∧ trace (OpenFile L filePath w).2
         = trace w ++ [EvOpen filePath; EvRead filePath 256])
  ∧ (∀ old,
       open_fails (faults w) = false → files w !! filePath = Some old →
       read_fails (faults w) = false → old ≠ "" →
       mkdir_fails (faults w) = true →
       (OpenFile L filePath w).1 = thrown MKDIR_FAILED [backupDirectory]
       ∧ trace (OpenFile L filePath w).2
         = trace w ++ [EvOpen filePath; EvRead filePath 256;
                       EvMkdir backupDirectory])
  ∧ (∀ old,
       open_fails (faults w) = false → files w !! filePath = Some old →
       read_fails (faults w) = false → old ≠ "" →
       mkdir_fails (faults w) = false → copy_fails (faults w) = true →
       (OpenFile L filePath w).1 = thrown COPY_FAILED [filePath; backupPath old]
       ∧ trace (OpenFile L filePath w).2
         = trace w ++ [EvOpen filePath; EvRead filePath 256;
                       EvMkdir backupDirectory;
                       EvCopy filePath (backupPath old)])
  ∧ (∀ old,
       open_fails (faults w) = false → files w !! filePath = Some old →
       read_fails (faults w) = false →
       old = "" ∨ mkdir_fails (faults w) = false ∧ copy_fails (faults w) = false →
       resize_fails (faults w) = true →
       (OpenFile L filePath w).1 = thrown CLEAR_FAILED [filePath]
       ∧ trace (OpenFile L filePath w).2
         = trace w ++ [EvOpen filePath; EvRead filePath 256]
           ++ (if StringView.IsEmpty old then []
               else [EvMkdir backupDirectory; EvCopy filePath (backupPath old)])
           ++ [EvResize filePath 0])
  ∧ (∀ message,
       write_fails (faults w) = true →
       files (WriteMessage L w message).2 = files w).
Proof.
  intros backupDirectory backupPath. unfold thrown.
  split; [| split; [| split; [| split; [| split]]]].
  - intros Hopen. world_apart w. by open_cases Hopen.
  - intros old Hopen Hold Hread. world_apart w. open_cases Hold.
    by rewrite <- !app_assoc.
  - intros old Hopen Hold Hread Hne Hmkdir. world_apart w. open_cases Hold.
    destruct old as [|ch old]; [done |]. open_cases Hold.
    by rewrite <- !app_assoc.
  - intros old Hopen Hold Hread Hne Hmkdir Hcopy. world_apart w.
    open_cases Hold.
    destruct old as [|ch old]; [done |]. open_cases Hold.
    by rewrite <- !app_assoc.
  - intros old Hopen Hold Hread [-> | [Hmkdir Hcopy]] Hresize; world_apart w.
    + open_cases Hold. by rewrite <- !app_assoc.
    + open_cases Hold.
      destruct old as [|ch old]; open_cases Hold; by rewrite <- !app_assoc.
  - intros message Hfail. unfold WriteMessage.
    assert (Hleg : files (WriteMessageToFile L w message).2 = files w).
    { destruct (m_file L) as [file|] eqn:Hfile.
      - rewrite (WriteMessageToFile_open _ _ _ _ Hfile). cbv zeta. cbn [snd].
        rewrite fire_files.
        set (sought := if has_flag _ _ then _ else _).
        assert (Hs : files sought.2 = files w ∧ faults sought.2 = faults w).
        { unfold sought. destruct (has_flag _ _); [| done].
          by destruct (SeekEnd_world file OS_NEWLINE_LENGTH w) as (-> & _ & -> & _). }
        destruct Hs as [Hf Hk]. unfold OS.Write. cbn [emit faults].
        by rewrite Hk, Hfail.
      - unfold WriteMessageToFile. by rewrite Hfile. }
    destruct (has_flag (flags message) FLAG_FILE).
    + destruct (WriteMessageToFile L w message) as [L1 w1]. cbn [snd] in Hleg.
      destruct (has_flag (flags message) FLAG_CONSOLE); [| done].
      by destruct (WriteMessageToConsole_effect L1 w1 message) as (_ & -> & _).
    + destruct (has_flag (flags message) FLAG_CONSOLE); [| done].
      by destruct (WriteMessageToConsole_effect L w message) as (_ & -> & _).
Qed.

End Rest.

(** * The rest of the logger on the host *)

Lemma X1_second_callback :
  NoDup (m_callbacks (logger 3 3 ""))
  ∧ NoDup (m_callbacks (AddCallback (logger 3 3 "") (Some 9%nat)))
  ∧ m_callbacks (AddCallback (logger 3 3 "") (Some 9%nat)) = [7%nat; 9%nat].
Proof.
  assert (Hone : NoDup (m_callbacks (logger 3 3 ""))) by apply NoDup_singleton.
  split; [done |]. split; [| reflexivity].
  exact (proj1 (X1_AddCallback_no_duplicates (logger 3 3 "") (Some 9%nat)) Hone).
Defined.

Lemma X2_add_then_remove :
  (9%nat ∉ m_callbacks (logger 3 3 ""))
  ∧ RemoveCallback (AddCallback (logger 3 3 "") (Some 9%nat)) (Some 9%nat)
    = logger 3 3 "".
Proof.
  assert (Hno : 9%nat ∉ m_callbacks (logger 3 3 "")).
  { intros Hin. apply list_elem_of_singleton in Hin. discriminate. }
  split; [done |].
  exact (proj1 (proj2 (proj2 (proj2 (proj2
           (X2_RemoveCallback_removes (logger 3 3 "") 9))))) Hno).
Defined.

Lemma X3_flags_kept_after_SetVerbosity :
  message_of (PushMessageV main_thread (SetVerbosity (logger 0 0 "") 3) (world ∅)
                eMessage 3 (Some "text") []).1.1 = Some (note 3 "" "text")
  ∧ flags (note 3 "" "text") = 3.
Proof.
  split; [reflexivity |].
  exact (proj2 (proj2 (X3_SetVerbosity_sets_both (H := windows) (logger 0 0 "") 3))
           main_thread (world ∅) eMessage 3 "text" [] (note 3 "" "text") eq_refl).
Defined.

Lemma X4_warning_passes_higher_up :
  (GetVerbosityLevel (logger 2 2 "") ≤ GetVerbosityLevel (logger 3 3 "")
   ∧ is_dropped (PushMessageV main_thread (logger 2 2 "") (world ∅)
                   eWarning 3 (Some "low") []).1.1 = false)
  ∧ is_dropped (PushMessageV worker_thread (logger 3 3 "") (world ∅)
                  eWarning 1 (Some "high") []).1.1 = false.
Proof.
  assert (Hle : GetVerbosityLevel (logger 2 2 "") ≤ GetVerbosityLevel (logger 3 3 ""))
    by (vm_compute; discriminate).
  split; [by split |].
  exact (proj1 (X4_filter_monotone (H := windows) eWarning)
           main_thread (logger 2 2 "") (world ∅) 3 "low" []
           worker_thread (logger 3 3 "") (world ∅) 1 "high" [] Hle eq_refl).
Defined.

Lemma X6_one_call_per_callback :
  m_file (logging 0) = Some {| OS.fd_path := log_path; OS.fd_pos := 0 |}
  ∧ length (List.filter
              (λ e, match e with EvOnWriteToFile _ _ _ => true | _ => false end)
              (file_events (logging 0) (note FLAG_FILE "" "hello")))
    = length (m_callbacks (logging 0)).
Proof.
  split; [reflexivity |].
  exact (proj1 (proj2 (proj2 (proj2
           (X6_events_of_a_write (H := windows) (logging 0) (world ∅)
              (note FLAG_FILE "" "hello")))))
           {| OS.fd_path := log_path; OS.fd_pos := 0 |} eq_refl).
Defined.

Lemma X7_LogToFile_is_silent :
  ∃ events,
    trace (LogToFile main_thread (logging 0) (world {[ log_path := "" ]})
             (Some "to the file") []).2 = events
    ∧ forallb (λ e, negb (is_console_event e)) events = true.
Proof.
  destruct (proj1 (X7_calls_for_one_sink (H := windows) main_thread (logging 0)
                     (world {[ log_path := "" ]}) (Some "to the file") [])
              LogToFile (or_introl eq_refl)) as (events & Htrace & Hquiet).
  exists events. split; [exact Htrace | exact Hquiet].
Defined.

Lemma X8_worker_leaves_the_file :
  thread worker_thread ≠ m_mainThreadID (logging 0)
  ∧ files (PushMessageV worker_thread (logging 0) (world {[ log_path := "" ]})
             eMessage FLAG_FILE (Some "later") []).2
    = files (world {[ log_path := "" ]}).
Proof.
  assert (Hother : thread worker_thread ≠ m_mainThreadID (logging 0)) by discriminate.
  split; [done |].
  exact (proj1 (proj1 (X8_producers_only_queue (H := windows) worker_thread (logging 0)
                         (world {[ log_path := "" ]}) eMessage FLAG_FILE
                         (Some "later") []) Hother)).
Defined.

Lemma X9_at_end_after_a_write :
  (at_end (logging 0) (world {[ log_path := "" ]})
   ∧ write_fails (faults (world {[ log_path := "" ]})) = false)
  ∧ at_end (WriteMessage (logging 0) (world {[ log_path := "" ]})
              (note FLAG_FILE "P " "one")).1
           (WriteMessage (logging 0) (world {[ log_path := "" ]})
              (note FLAG_FILE "P " "one")).2.
Proof.
  assert (Hend : at_end (logging 0) (world {[ log_path := "" ]})) by reflexivity.
  split; [by split |].
  exact (proj1 (proj2 (X9_handle_at_end (H := windows)))
           (logging 0) (world {[ log_path := "" ]}) (note FLAG_FILE "P " "one")
           Hend eq_refl).
Defined.

Lemma X10_first_line :
  (m_file (logging 0) = Some {| OS.fd_path := log_path; OS.fd_pos := 0 |}
   ∧ at_end (logging 0) (world {[ log_path := "" ]})
   ∧ write_fails (faults (world {[ log_path := "" ]})) = false)
  ∧ files (WriteMessage (logging 0) (world {[ log_path := "" ]})
             (note FLAG_FILE "P " "one")).2
    = <[log_path := joined "" (note FLAG_FILE "P " "one")]>
        (files (world {[ log_path := "" ]})).
Proof.
  assert (Hend : at_end (logging 0) (world {[ log_path := "" ]})) by reflexivity.
  split; [by repeat split |].
  exact (proj1 (X10_write_joins_the_log (H := windows) (logging 0)
                  (world {[ log_path := "" ]}) (note FLAG_FILE "P " "one")
                  {| OS.fd_path := log_path; OS.fd_pos := 0 |} eq_refl Hend eq_refl)).
Defined.

Lemma X11_three_notes_drained :
  (m_file queued_notes = Some {| OS.fd_path := log_path; OS.fd_pos := 0 |}
   ∧ at_end queued_notes (world {[ log_path := "" ]})
   ∧ write_fails (faults (world {[ log_path := "" ]})) = false)
  ∧ OS.content_of (OnUpdate queued_notes (world {[ log_path := "" ]})).2 log_path
    = log_after "" (m_messages queued_notes)
  ∧ log_after "" (m_messages queued_notes) = "P one two" +:+ OS_NEWLINE.
Proof.
  assert (Hend : at_end queued_notes (world {[ log_path := "" ]})) by reflexivity.
  split; [by repeat split |]. split; [| reflexivity].
  exact (proj1 (X11_log_after_a_drain (H := windows) queued_notes
                  (world {[ log_path := "" ]})
                  {| OS.fd_path := log_path; OS.fd_pos := 0 |} eq_refl Hend eq_refl)).
Defined.

Lemma X12_plain_template :
  Text.occurs "%" "server:" = false ∧ rendered main_thread "server:" = "server:".
Proof.
  split; [reflexivity |].
  exact (proj2 (proj2 (X12_doubled_percent_round_trip main_thread "server:")) eq_refl).
Defined.

Lemma X13_unknown_specifier_skipped :
  known_specifier "q" = false
  ∧ rendered main_thread (doubled "%" "50% at " +:+ String "%" (String "q" "%H"))
    = "50% at " +:+ rendered main_thread "%H".
Proof.
  split; [reflexivity |].
  exact (proj1 (X13_malformed_tokens_dropped main_thread "50% at ") "q"%char "%H" eq_refl).
Defined.

Lemma X15_one_hour_east :
  (bias central_europe ≠ 0 ∧ -6000 < bias central_europe < 6000)
  ∧ String.length (AddTimeZoneOffset central_europe "") = 5%nat
  ∧ AddTimeZoneOffset central_europe "" = "+0100".
Proof.
  assert (Hne : bias central_europe ≠ 0) by discriminate.
  assert (Hrange : -6000 < bias central_europe < 6000) by (split; reflexivity).
  split; [by split |]. split; [| reflexivity].
  exact (proj2 (proj2 (X15_time_zone_offset central_europe "")) Hne Hrange).
Defined.

Lemma X16_time_stamp_width :
  fits (now main_thread)
  ∧ String.length (rendered main_thread "%F %T.%N") = 23%nat.
Proof.
  assert (Hfits : fits (now main_thread)) by (repeat split; reflexivity).
  split; [done |].
  exact (proj2 (proj2 (proj2 (proj2 (proj2 (proj2 (proj2 (proj2 (proj2 (proj2
           (X16_specifiers_of_fixed_width main_thread "" Hfits))))))))))).
Defined.

Lemma X17_price_written :
  Text.occurs "$" "ready" = false
  ∧ StripColorCodes (H := windows) "ready" = NormalizeNewlines "ready".
Proof.
  split; [reflexivity |].
  exact (proj1 (proj2 (proj2 (X17_doubled_dollar_round_trip (H := windows) "ready")))
           eq_refl).
Defined.

Lemma X18_warning_in_file :
  message_of (PushMessageV main_thread (logger 3 3 "") (world ∅)
                eWarning FLAG_FILE (Some "low disk") []).1.1
  = Some {| type := eWarning; flags := FLAG_FILE; prefix := "";
            content := "$6[Warning] low disk" |}
  ∧ file_buffer {| type := eWarning; flags := FLAG_FILE; prefix := "";
                   content := "$6[Warning] low disk" |}
    = "[Warning] low disk" +:+ OS_NEWLINE.
Proof.
  split; [reflexivity |].
  exact (proj2 (X18_decoration_in_file_and_console (H := windows) main_thread
                  (logger 3 3 "") (world ∅) eWarning FLAG_FILE "low disk" []
                  {| type := eWarning; flags := FLAG_FILE; prefix := "";
                     content := "$6[Warning] low disk" |} eq_refl)).
Defined.

Lemma X19_prefix_before_registration :
  (prefix (note 3 "" "") = "" ∧ cv_prefix (m_cvars (new_Logger main_thread)) = None)
  ∧ BuildMessagePrefix main_thread (SetPrefix (new_Logger main_thread) "%T") (note 3 "" "")
    = note 3 "" "".
Proof.
  split; [by split |].
  exact (proj1 (X19_prefix_needs_registration main_thread (new_Logger main_thread) "%T"
                  (note 3 "" "") eq_refl) eq_refl).
Defined.

Lemma X20_drain_of_nothing :
  m_messages (logger 3 3 "") = []
  ∧ OnUpdate (logger 3 3 "") (world ∅)
    = (set_messages [] (logger 3 3 ""), emit EvUnlock (emit EvLock (world ∅))).
Proof.
  split; [reflexivity |].
  exact (proj2 (X20_second_drain_writes_nothing (H := windows) (logger 3 3 "") (world ∅))
           eq_refl).
Defined.

Lemma X21_hello_backed_up :
  (faults (world ∅) = no_faults ∧ files (world ∅) !! log_path = None
   ∧ has_flag (flags (note FLAG_FILE "" "hello")) FLAG_FILE = true
   ∧ has_flag (flags (note FLAG_FILE "" "hello")) FLAG_APPEND = false
   ∧ file_buffer (note FLAG_FILE "" "hello") ≠ ""
   ∧ Text.c_str
       (backupPathOf log_path
          (ExtractBackupNameAttachment
             (Text.take 256 (file_buffer (note FLAG_FILE "" "hello"))))) ≠ log_path)
  ∧ ∃ L1 w1 L3 w3,
      OpenFile (logger 3 3 "") log_path (world ∅) = (Ok L1, w1)
      ∧ OpenFile (CloseFile (WriteMessage L1 w1 (note FLAG_FILE "" "hello")).1) log_path
          (WriteMessage L1 w1 (note FLAG_FILE "" "hello")).2 = (Ok L3, w3)
      ∧ files w3 !! "C:\game\LogBackups\Server.log" = Some ("hello" +:+ OS_NEWLINE)
      ∧ files w3 !! log_path = Some "".
Proof.
  assert (Htext : file_buffer (note FLAG_FILE "" "hello") ≠ "")
    by (vm_compute; discriminate).
  assert (Hpath : Text.c_str
                    (backupPathOf log_path
                       (ExtractBackupNameAttachment
                          (Text.take 256 (file_buffer (note FLAG_FILE "" "hello")))))
                  ≠ log_path)
    by (vm_compute; discriminate).
  assert (Hnew : files (world ∅) !! log_path = None) by apply lookup_empty.
  split; [by repeat split |].
  destruct (X21_next_open_backs_up_the_log (H := windows) (logger 3 3 "") (world ∅)
              log_path (note FLAG_FILE "" "hello") eq_refl Hnew eq_refl eq_refl
              Htext Hpath)
    as (L1 & w1 & L3 & w3 & Hfirst & Hsecond & Hbackup & Hlive & _).
  exists L1, w1, L3, w3. by repeat split.
Defined.

Lemma X22_closed_logger_writes_no_file :
  m_file (CloseFile (logging 0)) = None
  ∧ files (WriteMessage (CloseFile (logging 0)) (world {[ log_path := "" ]})
             (note FLAG_FILE "" "lost")).2
    = files (world {[ log_path := "" ]}).
Proof.
  split; [reflexivity |].
  exact (proj2 (proj1 (proj2 (proj2 (proj2 (proj2
           (X22_nothing_written_once_closed (H := windows) (logging 0)))))
           (CloseFile (logging 0)) (world {[ log_path := "" ]}) eq_refl)
           (note FLAG_FILE "" "lost"))).
Defined.

Lemma X23_registered_callback_told :
  (7%nat ∈ m_callbacks (logging 0) ∧ is_Some (m_file (logging 0)))
  ∧ EvOnWriteToFile 7 "hello" true ∈ file_events (logging 0) (note FLAG_FILE "" "hello").
Proof.
  assert (Hin : 7%nat ∈ m_callbacks (logging 0)) by apply list_elem_of_singleton, eq_refl.
  assert (Hopen : is_Some (m_file (logging 0))) by (eexists; reflexivity).
  split; [by split |].
  exact (proj1 (proj1 (proj2 (X23_callbacks_follow_the_registry (H := windows) (logging 0)
                                (world ∅) (note FLAG_FILE "" "hello") 7)) Hin) Hopen).
Defined.

Lemma X25_two_workers_one_drain :
  Forall (λ sub, thread (sub_caller sub) ≠ m_mainThreadID (logging 0)
                 ∧ GetRequiredVerbosity (sub_type sub) ≤ GetVerbosityLevel (logging 0))
         [from_worker FLAG_FILE "first"; from_worker FLAG_FILE "second"]
  ∧ length (m_messages
              (submit_all (logging 0) (world {[ log_path := "" ]})
                 [from_worker FLAG_FILE "first"; from_worker FLAG_FILE "second"]).1)
    = 2%nat.
Proof.
  assert (Hall : Forall (λ sub, thread (sub_caller sub) ≠ m_mainThreadID (logging 0)
                                ∧ GetRequiredVerbosity (sub_type sub)
                                  ≤ GetVerbosityLevel (logging 0))
                   [from_worker FLAG_FILE "first"; from_worker FLAG_FILE "second"]).
  { repeat constructor; try discriminate; vm_compute; discriminate. }
  split; [done |].
  exact (proj1 (proj2 (X25_producers_then_drain (H := windows) (logging 0)
                         (world {[ log_path := "" ]})
                         [from_worker FLAG_FILE "first"; from_worker FLAG_FILE "second"]
                         Hall))).
Defined.

Lemma X26_copy_failure_reported :
  let w := faulty_world failing_copy {[ log_path := "old log" ]} in
  (open_fails (faults w) = false
   ∧ files w !! log_path = Some "old log"
   ∧ read_fails (faults w) = false
   ∧ "old log" ≠ ""
   ∧ mkdir_fails (faults w) = false
   ∧ copy_fails (faults w) = true)
  ∧ (OpenFile (logger 3 3 "") log_path w).1
    = thrown COPY_FAILED [log_path; backup_path]
  ∧ trace (OpenFile (logger 3 3 "") log_path w).2
    = [EvOpen log_path; EvRead log_path 256; EvMkdir "C:\game\LogBackups";
       EvCopy log_path backup_path].
Proof.
  intros w.
  assert (Hold : "old log" ≠ "") by discriminate.
  split; [by repeat split |].
  exact (proj1 (proj2 (proj2 (proj2
           (@X26_failures_of_OpenFile windows (logger 3 3 "") w log_path))))
           "old log" eq_refl eq_refl eq_refl Hold eq_refl eq_refl).
Defined.
